(** * Fact validation of frfr: [frfr/validation/fact_validator.py]

    A shallow embedding of [FactValidator] and of the part of the Python
    runtime it relies on (strings, integers, binary64 floats, slices),
    followed by the properties of the validator. *)

From Stdlib Require Import ZArith NArith List String Ascii Bool Lia DecimalString.
From Stdlib Require Import SpecFloat Zpower.
From Stdlib Require DecimalPos.
Import ListNotations.
Local Open Scope Z_scope.

(** ** Python strings

    A [str] is a sequence of Unicode code points. *)

Definition char := N.
Definition pystr := list char.

(** An ASCII literal as a [str]. *)
Definition lit (s : string) : pystr := map N_of_ascii (list_ascii_of_string s).

Definition char_eqb (a b : char) : bool := N.eqb a b.

Fixpoint str_eqb (a b : pystr) : bool :=
  match a, b with
  | [], [] => true
  | x :: a', y :: b' => char_eqb x y && str_eqb a' b'
  | _, _ => false
  end.

(** [str.isspace] on one code point: the characters [str.split()] and
    [str.strip()] treat as whitespace. *)
Definition is_space (c : char) : bool :=
  ((9 <=? c) && (c <=? 13) || (28 <=? c) && (c <=? 32)
   || (c =? 133) || (c =? 160) || (c =? 5760)
   || (8192 <=? c) && (c <=? 8202)
   || (c =? 8232) || (c =? 8233) || (c =? 8239) || (c =? 8287)
   || (c =? 12288))%N.

(** [p] is a prefix of [s]: [s.startswith(p)]. *)
Fixpoint starts_with (p s : pystr) : bool :=
  match p, s with
  | [], _ => true
  | a :: p', b :: s' => char_eqb a b && starts_with p' s'
  | _ :: _, [] => false
  end.

(** [sub in s]. *)
Fixpoint str_in (sub s : pystr) : bool :=
  starts_with sub s ||
  match s with
  | [] => false
  | _ :: s' => str_in sub s'
  end.

(** [s.split()]: the maximal runs of non-whitespace characters. *)
Definition cons_head (c : char) (ws : list pystr) : list pystr :=
  match ws with
  | w :: ws' => (c :: w) :: ws'
  | [] => [[c]]
  end.

Fixpoint split_ws (s : pystr) : list pystr :=
  match s with
  | [] => []
  | c :: s' =>
      if is_space c then split_ws s'
      else match s' with
           | [] => [[c]]
           | d :: _ => if is_space d then [c] :: split_ws s'
                       else cons_head c (split_ws s')
           end
  end.

(** [sep.join(ws)]. *)
Fixpoint join (sep : pystr) (ws : list pystr) : pystr :=
  match ws with
  | [] => []
  | [w] => w
  | w :: ws' => w ++ sep ++ join sep ws'
  end.

(** [s.replace(old, new)] for a non-empty [old]: the occurrences are taken
    from left to right and do not overlap.  [skip] counts the characters of
    an occurrence that are still to be dropped. *)
Fixpoint replace_from (old new : pystr) (skip : nat) (s : pystr) : pystr :=
  match s with
  | [] => []
  | c :: s' =>
      match skip with
      | S k => replace_from old new k s'
      | O => if starts_with old s
             then new ++ replace_from old new (Nat.pred (List.length old)) s'
             else c :: replace_from old new O s'
      end
  end.

Definition replace (old new s : pystr) : pystr := replace_from old new O s.

(** [s.lstrip()], [s.rstrip()], [s.strip()]. *)
Fixpoint lstrip (s : pystr) : pystr :=
  match s with
  | [] => []
  | c :: s' => if is_space c then lstrip s' else s
  end.

Definition rstrip (s : pystr) : pystr := rev (lstrip (rev s)).
Definition strip (s : pystr) : pystr := rstrip (lstrip s).

(** [s.split(sep)] for a one-character separator: never empty. *)
Fixpoint split_on (sep : char) (s : pystr) : list pystr :=
  match s with
  | [] => [[]]
  | c :: s' => if char_eqb c sep then [] :: split_on sep s'
               else cons_head c (split_on sep s')
  end.

(** [s[:n]] for [n >= 0]. *)
Definition take (n : nat) (s : pystr) : pystr := firstn n s.

(** [s.find(sub, start)] for [start >= 0]: the least index [i >= start] at
    which [sub] occurs, or [-1]. *)
Fixpoint find_from (sub s : pystr) (i : Z) : Z :=
  if starts_with sub s then i
  else match s with
       | [] => -1
       | _ :: s' => find_from sub s' (i + 1)
       end.

Definition find (sub s : pystr) (start : nat) : Z :=
  if (start <=? List.length s)%nat
  then find_from sub (skipn start s) (Z.of_nat start)
  else -1.

(** Python's slice [l[i:j]]: a negative index counts from the end, and
    both indices are then clamped into [0 .. len(l)]. *)
Definition slice_index (len i : Z) : Z :=
  if i <? 0 then Z.max 0 (len + i) else Z.min len i.

Definition slice {A : Type} (l : list A) (i j : Z) : list A :=
  let len := Z.of_nat (List.length l) in
  let i' := slice_index len i in
  let j' := slice_index len j in
  firstn (Z.to_nat (j' - i')) (skipn (Z.to_nat i') l).

(** [str(n)] for an [int]. *)
Definition str_of_int (n : Z) : pystr := lit (NilZero.string_of_int (Z.to_int n)).

(** ** The tables of the runtime that are not part of the program

    [str.lower] and the decimal-digit property of a code point come from
    the Unicode database of the interpreter; [json.loads] is the standard
    library's parser.  They are taken as an interface. *)

#[warnings="-register-all"] Inductive json :=
| JNull
| JBool (b : bool)
| JInt (n : Z)
| JFloat (x : spec_float)
| JStr (s : pystr)
| JList (l : list json)
| JDict (kv : list (pystr * json)).

Class Runtime := {
  (** [s.lower()] *)
  str_lower : pystr -> pystr;
  (** the value of a code point with the Unicode property Decimal (what
      [int], [float] and the regex class [\d] accept as a digit) *)
  decimal_value : char -> option Z;
  (** [json.loads(s)]; [None] when it raises *)
  json_loads : pystr -> option json
}.

(** ** Python integers and floats *)

Section Numbers.
Context `{Runtime}.

Definition is_decimal (c : char) : bool :=
  match decimal_value c with Some _ => true | None => false end.

(** The digits of an integer literal: decimal digits, single underscores
    allowed between two digits. *)
Fixpoint int_digits (acc : Z) (after_digit : bool) (s : pystr) : option Z :=
  match s with
  | [] => if after_digit then Some acc else None
  | c :: s' =>
      if char_eqb c 95%N
      then (if after_digit then int_digits acc false s' else None)
      else match decimal_value c with
           | Some d => int_digits (10 * acc + d) true s'
           | None => None
           end
  end.

(** [int(s)] for a [str]; [None] stands for [ValueError].  (The
    interpreter's optional cap on the number of digits is not modelled.) *)
Definition py_int (s : pystr) : option Z :=
  match strip s with
  | 43%N :: r => int_digits 0 false r
  | 45%N :: r => option_map Z.opp (int_digits 0 false r)
  | r => int_digits 0 false r
  end.

End Numbers.

(** Binary64 floats, with the operations of the Standard Library's
    specification of IEEE 754 arithmetic. *)
Module F.

Definition prec : Z := 53.
Definition emax : Z := 1024.

Definition float := spec_float.

(** [float(n)] for an [int] (round to nearest, ties to even). *)
Definition of_int (n : Z) : float := binary_normalize prec emax n 0 false.

Definition div : float -> float -> float := SFdiv prec emax.
Definition mul : float -> float -> float := SFmul prec emax.
Definition leb : float -> float -> bool := SFleb.
Definition ltb : float -> float -> bool := SFltb.
Definition eqb : float -> float -> bool := SFeqb.

Definition zero : float := S754_zero false.

(** The literals [0.4], [0.7] and [0.8]: the doubles nearest to them. *)
Definition c0_4 : float := S754_finite false 7205759403792794 (-54).
Definition c0_7 : float := S754_finite false 6305039478318694 (-53).
Definition c0_8 : float := S754_finite false 7205759403792794 (-53).

(** [a / b] for two [int]s that a double represents exactly, [b <> 0]. *)
Definition truediv (a b : Z) : float := div (of_int a) (of_int b).

(** The integer nearest to [m * 2^e], ties to even. *)
Definition round_half_even (m : positive) (e : Z) : Z :=
  if 0 <=? e then Zpos m * 2 ^ e
  else
    let d := 2 ^ (- e) in
    let q := Zpos m / d in
    let r := Zpos m mod d in
    match 2 * r ?= d with
    | Lt => q
    | Gt => q + 1
    | Eq => if Z.even q then q else q + 1
    end.

(** [format(x, '.0f')]. *)
Definition format_fixed0 (x : float) : pystr :=
  match x with
  | S754_nan => lit "nan"
  | S754_infinity s => if s then lit "-inf" else lit "inf"
  | S754_zero s => if s then lit "-0" else lit "0"
  | S754_finite s m e =>
      (if s then lit "-" else []) ++ str_of_int (round_half_even m e)
  end.

(** [format(x, '.0%')]: the value is multiplied by 100, printed with no
    decimals and followed by a percent sign. *)
Definition format_percent0 (x : float) : pystr :=
  format_fixed0 (mul x (of_int 100)) ++ lit "%".

End F.

(** ** The data of the validator *)

(** A fact as [validate_fact] reads it: the keys [claim], [source_location],
    [evidence_quotes] and [evidence_quote] of the dictionary, each of them
    possibly absent.  An entry of [evidence_quotes] is a dictionary with an
    optional key [quote], or a bare string. *)
Inductive evidence :=
| EvDict (quote : option pystr)
| EvStr (s : pystr).

Module Fact.
Record t := mk {
  claim : option pystr;
  source_location : option pystr;
  evidence_quotes : option (list evidence);
  evidence_quote : option pystr
}.
End Fact.

(** [d.get(key, default)] *)
Definition get {A : Type} (field : option A) (default : A) : A :=
  match field with
  | Some v => v
  | None => default
  end.

Record ValidationResult := {
  fact_index : Z;
  claim : pystr;
  is_valid : bool;
  error_message : pystr;
  actual_line_range : pystr;
  quote_snippet : pystr;
  was_recovered : bool;
  corrected_quote : option pystr;
  corrected_location : option pystr
}.

(** The completion service: [claude_client.prompt(prompt, max_tokens=1000)]
    returns the reply, or raises ([None]). *)
Definition client := pystr -> option pystr.

(** The state of a [FactValidator]: the lines of the source text, as
    [readlines] returns them, and the optional client. *)
Record FactValidator := {
  lines : list pystr;
  claude_client : option client
}.

(** One call of [attempt_fact_recovery], with its arguments. *)
Record recovery_call := {
  rc_claim : pystr;
  rc_original_quote : pystr;
  rc_search_context : pystr;
  rc_start_line : Z;
  rc_end_line : Z
}.

(** An [int] or a [float], where the program yields either. *)
Inductive number :=
| Int (n : Z)
| Float (x : F.float).

Record Stats := {
  total_facts : Z;
  valid_facts : Z;
  invalid_facts : Z;
  validation_rate : number
}.

Definition len {A : Type} (l : list A) : Z := Z.of_nat (List.length l).

Definition enumerate {A : Type} (l : list A) : list (nat * A) :=
  combine (seq 0 (List.length l)) l.

(** ** The methods of [FactValidator] *)

Section Validator.
Context `{Runtime}.

(** [parse_line_range]: [None] stands for the exception it raises
    ([ValueError] from [int] or from unpacking the split). *)
Definition parse_line_range (location : pystr) : option (Z * Z) :=
  let location :=
    strip (replace (lit "Line") [] (replace (lit "Lines") [] location)) in
  if str_in (lit "-") location then
    match split_on 45%N location with
    | [start; end_] =>
        match py_int (strip start), py_int (strip end_) with
        | Some s, Some e => Some (s, e)
        | _, _ => None
        end
    | _ => None
    end
  else
    match py_int (strip location) with
    | Some line_num => Some (line_num, line_num)
    | None => None
    end.

(** [normalize_text].  The two lines under the comment of the source on
    quote types hold ASCII quotation marks only.  The first is therefore a
    single call of [replace]: a triple-quoted string opens after its first
    parenthesis, so that the text replaced is the 15 characters from the
    comma to the second opening parenthesis of that line, and the
    replacement is one double quote.  The second replaces the apostrophe by
    itself, twice.  The dash of the last replacements is the en dash
    U+2013. *)
Definition normalize_text (text : pystr) : pystr :=
  let text := join (lit " ") (split_ws text) in
  let text := replace (lit ", '" ++ [34%N] ++ lit "').replace(") [34%N] text in
  let text := replace (lit "'") (lit "'") (replace (lit "'") (lit "'") text) in
  let text :=
    replace [8211%N; 32%N] [8211%N] (replace [32%N; 8211%N] [8211%N] text) in
  strip text.

(** [get_line_text] *)
Definition get_line_text (self : FactValidator) (start_line end_line : Z) : pystr :=
  let start_idx := start_line - 1 in
  let end_idx := end_line in
  let start_idx := Z.max 0 start_idx in
  let end_idx := Z.min (len (lines self)) end_idx in
  List.concat (slice (lines self) start_idx end_idx).

(** The loop of [find_quote_in_text] over the words of the text: the state
    is [(quote_idx, matched_words)]. *)
Definition match_step (quote_words : list pystr) (st : nat * nat) (text_word : pystr)
  : nat * nat :=
  let '(quote_idx, matched_words) := st in
  if (quote_idx <? List.length quote_words)%nat
     && str_eqb (str_lower text_word) (str_lower (nth quote_idx quote_words []))
  then (S quote_idx, S matched_words)
  else st.

Definition matched_words (quote_words text_words : list pystr) : nat :=
  snd (fold_left (match_step quote_words) text_words (O, O)).

(** [match_ratio]: the quotient is taken in floating point; with no quote
    word it is the integer 0, which compares and prints as [0.0]. *)
Definition match_ratio (quote_words text_words : list pystr) : F.float :=
  match quote_words with
  | [] => F.zero
  | _ :: _ => F.truediv (Z.of_nat (matched_words quote_words text_words))
                        (len quote_words)
  end.

(** [find_quote_in_text] *)
Definition find_quote_in_text (quote text : pystr) : bool * pystr :=
  let normalized_quote := normalize_text quote in
  let normalized_text := normalize_text text in
  if str_in normalized_quote normalized_text then (true, lit "exact match")
  else
    let quote_words := split_ws normalized_quote in
    let text_words := split_ws normalized_text in
    let match_ratio := match_ratio quote_words text_words in
    if F.leb F.c0_7 match_ratio
    then (true, lit "partial match (" ++ F.format_percent0 match_ratio ++ lit ")")
    else (false, lit "not found (only " ++ F.format_percent0 match_ratio ++ lit " match)").

(** *** Recovery *)

Definition render_lines (start_line end_line : Z) : pystr :=
  lit "Lines " ++ str_of_int start_line ++ lit "-" ++ str_of_int end_line.

Definition dq : pystr := [34%N].
Definition unlines (ls : list pystr) : pystr := List.concat (map (fun l => l ++ [10%N]) ls).

(** The prompt of [attempt_fact_recovery]. *)
Definition recovery_prompt (claim original_quote search_context : pystr)
    (start_line end_line : Z) : pystr :=
  unlines
    [ lit "You are helping recover a fact that was extracted but the evidence quote couldn't be validated.";
      [];
      lit "**Claim**: " ++ claim;
      [];
      lit "**Original Quote (not found)**: " ++ original_quote;
      [];
      lit "**Context** (" ++ render_lines start_line end_line ++ lit "):";
      search_context;
      [];
      lit "Your task:";
      lit "1. Search the context for text that DIRECTLY supports the claim";
      lit "2. Extract the EXACT quote (word-for-word) from the context";
      lit "3. Identify the approximate line numbers where the quote appears";
      [];
      lit "Respond with ONLY a JSON object:";
      lit "{";
      lit "  " ++ dq ++ lit "found" ++ dq ++ lit ": true/false,";
      lit "  " ++ dq ++ lit "quote" ++ dq ++ lit ": " ++ dq
        ++ lit "exact quote from context if found" ++ dq ++ lit ",";
      lit "  " ++ dq ++ lit "confidence" ++ dq ++ lit ": 0.0-1.0,";
      lit "  " ++ dq ++ lit "reasoning" ++ dq ++ lit ": " ++ dq
        ++ lit "brief explanation" ++ dq;
      lit "}";
      [];
      lit "If the claim is NOT supported by this context, set found to false." ].

(** The text handed to [json.loads]: the inside of the first fenced block
    of the reply, if there is one. *)
Definition fence : pystr := lit "```".

Definition unfence (response : pystr) : pystr :=
  if str_in (fence ++ lit "json") response then
    let json_start := find (fence ++ lit "json") response 0 + 7 in
    let json_end := find fence response (Z.to_nat json_start) in
    strip (slice response json_start json_end)
  else if str_in fence response then
    let json_start := find fence response 0 + 3 in
    let json_end := find fence response (Z.to_nat json_start) in
    strip (slice response json_start json_end)
  else response.

(** [result.get(key)] and [result[key]] on the parsed reply; only a
    dictionary has them (the keys of a dictionary are distinct). *)
Fixpoint assoc (key : pystr) (kv : list (pystr * json)) : option json :=
  match kv with
  | [] => None
  | (k, v) :: kv' => if str_eqb k key then Some v else assoc key kv'
  end.

(** The truth value of a parsed JSON value. *)
Definition truthy (v : json) : bool :=
  match v with
  | JNull => false
  | JBool b => b
  | JInt n => negb (n =? 0)
  | JFloat (S754_zero _) => false
  | JFloat _ => true
  | JStr s => negb (str_eqb s [])
  | JList l => match l with [] => false | _ => true end
  | JDict kv => match kv with [] => false | _ => true end
  end.

(** [v >= 0.8]; [None] stands for the [TypeError] of comparing a value
    that is not a number. *)
Definition ge_0_8 (v : json) : option bool :=
  match v with
  | JBool b => Some b
  | JInt n => Some (1 <=? n)
  | JFloat x => Some (F.leb F.c0_8 x)
  | _ => None
  end.

(** Whether [format(v, '.0%')] returns, for a number [v]: an [int] is
    converted to a [float] first, which raises [OverflowError] when no
    double can hold it. *)
Definition percent_formattable (v : json) : bool :=
  match v with
  | JInt n => match F.of_int n with S754_infinity _ => false | _ => true end
  | _ => true
  end.

(** The body of the [try] block once the reply is parsed.  [None] is
    returned for a failed recovery and for every exception raised on the
    way: the handler catches them all. *)
Definition recovery_of_result (result : json) (search_context : pystr)
    (start_line end_line : Z)
  : option (pystr * pystr) :=
  match result with
  | JDict kv =>
      let found := get (assoc (lit "found") kv) JNull in
      if truthy found then
        match ge_0_8 (get (assoc (lit "confidence") kv) (JInt 0)) with
        | Some true =>
            match assoc (lit "quote") kv with
            | Some (JStr recovered_quote) =>
                if fst (find_quote_in_text recovered_quote search_context) then
                  if percent_formattable (get (assoc (lit "confidence") kv) (JInt 0))
                  then Some (recovered_quote, render_lines start_line end_line)
                  else None
                else None
            | _ => None
            end
        | _ => None
        end
      else None
  | _ => None
  end.

(** [attempt_fact_recovery] *)
Definition attempt_fact_recovery (self : FactValidator)
    (claim original_quote search_context : pystr) (start_line end_line : Z)
  : option (pystr * pystr) :=
  match claude_client self with
  | None => None
  | Some prompt =>
      match prompt (recovery_prompt claim original_quote search_context
                      start_line end_line) with
      | None => None
      | Some response =>
          match json_loads (unfence response) with
          | None => None
          | Some result =>
              recovery_of_result result search_context start_line end_line
          end
      end
  end.

(** *** Validation of one fact *)

(** [quotes_to_validate]: the quotes of [evidence_quotes] when that list is
    not empty, else the single [evidence_quote] when it is not empty. *)
Definition quote_of (eq : evidence) : pystr :=
  match eq with
  | EvDict quote => get quote []
  | EvStr s => s
  end.

Definition quotes_to_validate (fact : Fact.t) : list pystr :=
  match get (Fact.evidence_quotes fact) [] with
  | (_ :: _) as evidence_quotes => map quote_of evidence_quotes
  | [] =>
      match get (Fact.evidence_quote fact) [] with
      | [] => []
      | single_quote => [single_quote]
      end
  end.

(** [q[:60] + "..." if len(q) > 60 else q] *)
Definition abbreviate (q : pystr) : pystr :=
  if 60 <? len q then take 60 q ++ lit "..." else q.

(** The [quote_snippet] of an accepted fact. *)
Definition snippet (quotes : list pystr) : pystr :=
  let quote_snippet := abbreviate (hd [] quotes) in
  if 1 <? len quotes
  then quote_snippet ++ lit " (+" ++ str_of_int (len quotes - 1) ++ lit " more)"
  else quote_snippet.

(** The labels [find_quote_in_text] gives to the quotes against one text,
    and the quotes it does not find there. *)
Definition match_types (quotes : list pystr) (text : pystr) : list pystr :=
  map (fun quote => snd (find_quote_in_text quote text)) quotes.

Definition failed_quotes (quotes : list pystr) (text : pystr) : list pystr :=
  filter (fun quote => negb (fst (find_quote_in_text quote text))) quotes.

Definition all_found (quotes : list pystr) (text : pystr) : bool :=
  forallb (fun quote => fst (find_quote_in_text quote text)) quotes.

(** [re.search(r'(\d+)%', s)]: group 1 of the leftmost match, if any. *)
Fixpoint span_decimal (s : pystr) : pystr * pystr :=
  match s with
  | [] => ([], [])
  | c :: s' =>
      if is_decimal c
      then let '(ds, rest) := span_decimal s' in (c :: ds, rest)
      else ([], s)
  end.

Fixpoint search_percent (s : pystr) : option pystr :=
  match s with
  | [] => None
  | c :: s' =>
      if is_decimal c then
        match span_decimal s with
        | (ds, 37%N :: _) => Some ds
        | _ => search_percent s'
        end
      else search_percent s'
  end.

(** [float(s)] on a run of decimal digits. *)
Definition float_of_digits (s : pystr) : option F.float :=
  option_map F.of_int (int_digits 0 false s).

(** The ratio read back from a label, when the label holds a percentage:
    the [match_ratio] of the loop that looks for the best match. *)
Definition label_ratio (match_type_expanded : pystr) : option F.float :=
  if str_in (lit "%") match_type_expanded then
    match search_percent match_type_expanded with
    | Some group =>
        option_map (fun x => F.div x (F.of_int 100)) (float_of_digits group)
    | None => None
    end
  else None.

(** One round of that loop: the state is
    [(best_match_ratio, best_quote_for_recovery)]. *)
Definition best_step (quotes : list pystr) (st : F.float * pystr)
    (entry : nat * pystr) : F.float * pystr :=
  let '(best_match_ratio, best_quote_for_recovery) := st in
  let '(i, match_type_expanded) := entry in
  match label_ratio match_type_expanded with
  | Some match_ratio =>
      if F.ltb best_match_ratio match_ratio
      then (match_ratio, nth i quotes [])
      else st
  | None => st
  end.

Definition best_match (quotes expanded_match_types : list pystr) : F.float * pystr :=
  fold_left (best_step quotes) (enumerate expanded_match_types)
    (F.zero, hd [] quotes).

(** [0.4 <= best_match_ratio < 0.7] *)
Definition medium_confidence (best_match_ratio : F.float) : bool :=
  F.leb F.c0_4 best_match_ratio && F.ltb best_match_ratio F.c0_7.

Definition rejected (fact_index : Z) (claim error_message actual_line_range
    quote_snippet : pystr) : ValidationResult :=
  {| fact_index := fact_index; claim := claim; is_valid := false;
     error_message := error_message; actual_line_range := actual_line_range;
     quote_snippet := quote_snippet; was_recovered := false;
     corrected_quote := None; corrected_location := None |}.

Definition accepted (fact_index : Z) (claim actual_line_range quote_snippet : pystr)
  : ValidationResult :=
  {| fact_index := fact_index; claim := claim; is_valid := true;
     error_message := []; actual_line_range := actual_line_range;
     quote_snippet := quote_snippet; was_recovered := false;
     corrected_quote := None; corrected_location := None |}.

Definition counts (k n : Z) : pystr := str_of_int k ++ lit "/" ++ str_of_int n.

(** [validate_fact], together with the calls of [attempt_fact_recovery] it
    makes.  [chunk_text] is the optional argument ([None] by default). *)
Definition run_validate_fact (self : FactValidator) (fact : Fact.t) (fact_index : Z)
    (chunk_text : option pystr) : ValidationResult * list recovery_call :=
  let claim := get (Fact.claim fact) [] in
  let location := get (Fact.source_location fact) [] in
  let quotes := quotes_to_validate fact in
  match quotes with
  | [] =>
      (rejected fact_index (take 80 claim)
         (lit "No evidence quotes found (neither evidence_quote nor evidence_quotes)")
         location [], [])
  | _ :: _ =>
  match get chunk_text [] with
  | (_ :: _) as chunk_text =>
      let failed := failed_quotes quotes chunk_text in
      if all_found quotes chunk_text
      then (accepted fact_index (take 80 claim) location (snippet quotes), [])
      else (rejected fact_index (take 80 claim)
              (counts (len failed) (len quotes) ++ lit " quotes not found in chunk")
              location (abbreviate (hd [] quotes)), [])
  | [] =>
  match parse_line_range location with
  | None =>
      (rejected fact_index (take 80 claim)
         (lit "Invalid location format: " ++ location) [] [], [])
  | Some (start_line, end_line) =>
      let line_text := get_line_text self start_line end_line in
      let failed := failed_quotes quotes line_text in
      if all_found quotes line_text
      then (accepted fact_index (take 80 claim)
              (render_lines start_line end_line) (snippet quotes), [])
      else
        let expanded_start := Z.max 1 (start_line - 5) in
        let expanded_end := Z.min (len (lines self)) (end_line + 5) in
        let expanded_text := get_line_text self expanded_start expanded_end in
        let expanded_match_types := match_types quotes expanded_text in
        if all_found quotes expanded_text
        then (accepted fact_index (take 80 claim)
                (render_lines expanded_start expanded_end ++ lit " (expanded search)")
                (snippet quotes), [])
        else
          let '(best_match_ratio, best_quote_for_recovery) :=
            best_match quotes expanded_match_types in
          let error_msg :=
            counts (len failed) (len quotes)
              ++ lit " quotes not found in specified lines or nearby"
              ++ match expanded_match_types with
                 | [] => []
                 | first :: _ => lit " (best match: " ++ first ++ lit ")"
                 end in
          let rejection :=
            rejected fact_index (take 80 claim) error_msg
              (render_lines start_line end_line) (abbreviate (hd [] quotes)) in
          if medium_confidence best_match_ratio then
            let recovery_start := Z.max 1 (start_line - 20) in
            let recovery_end := Z.min (len (lines self)) (end_line + 20) in
            let recovery_context := get_line_text self recovery_start recovery_end in
            let call :=
              {| rc_claim := claim; rc_original_quote := best_quote_for_recovery;
                 rc_search_context := recovery_context;
                 rc_start_line := recovery_start; rc_end_line := recovery_end |} in
            match attempt_fact_recovery self claim best_quote_for_recovery
                    recovery_context recovery_start recovery_end with
            | Some (corrected_quote, corrected_location) =>
                ({| fact_index := fact_index; claim := take 80 claim;
                    is_valid := true; error_message := [];
                    actual_line_range := corrected_location;
                    quote_snippet := abbreviate corrected_quote;
                    was_recovered := true;
                    corrected_quote := Some corrected_quote;
                    corrected_location := Some corrected_location |}, [call])
            | None => (rejection, [call])
            end
          else (rejection, [])
  end
  end
  end.

Definition validate_fact (self : FactValidator) (fact : Fact.t) (fact_index : Z)
    (chunk_text : option pystr) : ValidationResult :=
  fst (run_validate_fact self fact fact_index chunk_text).

(** [validate_facts] *)
Definition validate_facts (self : FactValidator) (facts : list Fact.t)
  : list ValidationResult :=
  map (fun '(i, fact) => validate_fact self fact (Z.of_nat i) None) (enumerate facts).

(** The statistics [validate_session] and [validate_consolidated_facts]
    compute from the results. *)
Definition session_stats (results : list ValidationResult) : Stats :=
  let valid_count := len (filter is_valid results) in
  let invalid_count := len results - valid_count in
  {| total_facts := len results;
     valid_facts := valid_count;
     invalid_facts := invalid_count;
     validation_rate :=
       match results with
       | [] => Int 0
       | _ :: _ => Float (F.truediv valid_count (len results))
       end |}.

(** [validate_session], from the contents of the fact files of the
    session, in the sorted order of their names. *)
Definition validate_session (self : FactValidator) (fact_files : list (list Fact.t))
  : list ValidationResult * Stats :=
  let all_facts := List.concat fact_files in
  let results := validate_facts self all_facts in
  (results, session_stats results).

End Validator.

(** ** A runtime restricted to ASCII

    The tables of the interface on the ASCII range, where they are the
    interpreter's; the examples below use ASCII text only.  The parser is
    given by the values of [json.loads] on the replies an example uses. *)

Definition ascii_lower (s : pystr) : pystr :=
  map (fun c => if ((65 <=? c) && (c <=? 90))%N then (c + 32)%N else c) s.

Definition ascii_decimal (c : char) : option Z :=
  if ((48 <=? c) && (c <=? 57))%N then Some (Z.of_N c - 48) else None.

Fixpoint loads_table (table : list (pystr * json)) (s : pystr) : option json :=
  match table with
  | [] => None
  | (text, value) :: table' =>
      if str_eqb text s then Some value else loads_table table' s
  end.

Definition ascii_runtime (table : list (pystr * json)) : Runtime :=
  {| str_lower := ascii_lower;
     decimal_value := ascii_decimal;
     json_loads := loads_table table |}.

(** ** What the interpreter's tables satisfy

    Two facts of the Unicode database that some properties rest on: the
    value of a decimal digit lies between 0 and 9, and the decimal digits
    of the ASCII range are the characters 0 to 9. *)

Definition decimal_range `{Runtime} : Prop :=
  forall c d, decimal_value c = Some d -> 0 <= d <= 9.

Definition ascii_decimals `{Runtime} : Prop :=
  forall c, (c < 128)%N -> decimal_value c = ascii_decimal c.

(** ** [FactExtractor.chunk_text]

    The extractor's two settings that the chunking reads, and the loop of
    [chunk_text] with its three variables.  A chunk is the tuple
    [(chunk_id, chunk_text, start_line, end_line)].  The loop is given fuel:
    [None] means that it has not ended within [fuel] rounds. *)

Record FactExtractor := {
  chunk_size : Z;
  overlap_size : Z
}.

Definition chunk : Type := Z * pystr * Z * Z.

Fixpoint chunk_loop (fuel : nat) (self : FactExtractor) (lines : list pystr)
    (chunks : list chunk) (chunk_id start : Z) : option (list chunk) :=
  match fuel with
  | O => None
  | S fuel' =>
      if start <? len lines then
        let end_ := Z.min (start + chunk_size self) (len lines) in
        let chunk_lines := slice lines start end_ in
        let chunk_text := join [10%N] chunk_lines in
        let chunks := chunks ++ [(chunk_id, chunk_text, start + 1, end_)] in
        let chunk_id := chunk_id + 1 in
        let start := start + (chunk_size self - overlap_size self) in
        if len lines <=? end_ then Some chunks
        else chunk_loop fuel' self lines chunks chunk_id start
      else Some chunks
  end.

Definition chunk_text (fuel : nat) (self : FactExtractor) (text : pystr)
  : option (list chunk) :=
  let lines := split_on 10%N text in
  chunk_loop fuel self lines [] 0 0.

(** ** Example data

    The document of the repository's validation test
    ([test_v5_validation.py]) and facts about it. *)

Definition test_lines : list pystr :=
  map (fun l => lit l ++ [10%N])
    [ "Line 1: Introduction to the system";
      "Line 2: The backup system performs daily backups at 2 AM.";
      "Line 3: All backups are encrypted using AES-256 encryption.";
      "Line 4: Backup retention is set to 90 days.";
      "Line 5: The system administrator reviews logs weekly.";
      "Line 6: Vulnerability scans are performed quarterly by Acme Security.";
      "Line 7: All findings are remediated within 30 days.";
      "Line 8: The incident response team is available 24/7." ]%string.

Definition test_validator : FactValidator :=
  {| lines := test_lines; claude_client := None |}.

Definition fact_of (claim location : string) (quotes : list pystr) : Fact.t :=
  {| Fact.claim := Some (lit claim);
     Fact.source_location := Some (lit location);
     Fact.evidence_quotes := Some (map (fun q => EvDict (Some q)) quotes);
     Fact.evidence_quote := None |}.

(** The first fact of the test, in the format with a single quote. *)
Definition fact_v4 : Fact.t :=
  {| Fact.claim := Some (lit "Backups performed daily at 2 AM");
     Fact.source_location := Some (lit "Lines 2-2");
     Fact.evidence_quotes := None;
     Fact.evidence_quote :=
       Some (lit "The backup system performs daily backups at 2 AM.") |}.

(** The second and third facts of the test. *)
Definition fact_v5_single : Fact.t :=
  fact_of "Backups encrypted with AES-256" "Lines 3-3"
    [lit "All backups are encrypted using AES-256 encryption."].

Definition fact_v5_multi_valid : Fact.t :=
  fact_of "Vulnerability scans performed quarterly with 30-day remediation SLA"
    "Lines 6-7"
    [lit "Vulnerability scans are performed quarterly by Acme Security.";
     lit "All findings are remediated within 30 days."].

(** The fourth fact of the test: its second quote is not in the document. *)
Definition fact_v5_multi_invalid : Fact.t :=
  fact_of "System has 24/7 support and automatic failover" "Lines 8-9"
    [lit "The incident response team is available 24/7.";
     lit "Automatic failover is configured for all critical systems."].

(** The second scenario of the spec: a quote that is nowhere near the
    lines it cites. *)
Definition fact_failover : Fact.t :=
  fact_of "Failover is automatic" "Lines 8-9"
    [lit "Automatic failover is configured for all critical systems."].

(** The chunk of the fifth test. *)
Definition test_chunk : pystr :=
  lit "Vulnerability scans are performed quarterly by Acme Security."
  ++ [10%N] ++ lit "All findings are remediated within 30 days."
  ++ [10%N] ++ lit "The incident response team is available 24/7.".

(** A fact whose only quote is blank. *)
Definition fact_blank_quote : Fact.t :=
  fact_of "Backups are replicated to a second region" "Lines 4-4" [lit "   "].

(** The third line cited with a lower-case keyword. *)
Definition fact_lowercase_location : Fact.t :=
  fact_of "Backups encrypted with AES-256" "lines 3-3"
    [lit "All backups are encrypted using AES-256 encryption."].

(** A paraphrase of the second line: four of its eight words align. *)
Definition paraphrased_quote : pystr :=
  lit "The backup system performs weekly restores on Sundays.".

Definition fact_paraphrased : Fact.t :=
  fact_of "Backups are restored weekly" "Lines 2-2" [paraphrased_quote].

(** Two quotes that both fail: none of the words of the first aligns. *)
Definition fact_two_failing : Fact.t :=
  fact_of "Failover is automatic and backups are restored weekly" "Lines 2-2"
    [lit "Automatic failover is configured."; paraphrased_quote].

(** A completion service that always sends the same reply, reporting with
    confidence 0.95 a quote that is nowhere in the document, and the value
    [json.loads] gives for that reply. *)
Definition json_field (key value : pystr) : pystr := dq ++ key ++ dq ++ lit ": " ++ value.

Definition absent_quote : pystr := lit "Backups are restored every week.".

Definition mock_reply : pystr :=
  lit "{" ++ json_field (lit "found") (lit "true") ++ lit ", "
  ++ json_field (lit "quote") (dq ++ absent_quote ++ dq) ++ lit ", "
  ++ json_field (lit "confidence") (lit "0.95") ++ lit ", "
  ++ json_field (lit "reasoning") (dq ++ lit "closest statement" ++ dq) ++ lit "}".

Definition mock_result : json :=
  JDict [ (lit "found", JBool true);
          (lit "quote", JStr absent_quote);
          (lit "confidence", JFloat (F.truediv 95 100));
          (lit "reasoning", JStr (lit "closest statement")) ].

Definition mock_runtime : Runtime := ascii_runtime [(mock_reply, mock_result)].

Definition mock_validator : FactValidator :=
  {| lines := test_lines; claude_client := Some (fun _ => Some mock_reply) |}.

(** The fourth line cited two lines too early. *)
Definition fact_off_by_two : Fact.t :=
  fact_of "Backups are kept for 90 days" "Lines 2-2"
    [lit "Backup retention is set to 90 days."].

(** A quote of ten words, the first seven of which align with the text. *)
Definition ten_word_quote : pystr := lit "a b c d e f g h i j".
Definition seven_word_text : pystr := lit "x a b c d e f g z z z".

(** A document whose second line quotes with straight quotation marks,
    and its sentence cited with the same marks and with typographic ones
    (U+201C and U+201D). *)
Definition quoting_lines : list pystr :=
  [ lit "Line 1: Scope of the policy" ++ [10%N];
    lit "Line 2: The policy requires " ++ dq ++ lit "encryption at rest" ++ dq
      ++ lit " for all backups." ++ [10%N];
    lit "Line 3: Reviews happen weekly." ++ [10%N] ].

Definition quoting_validator : FactValidator :=
  {| lines := quoting_lines; claude_client := None |}.

Definition straight_quote : pystr :=
  lit "The policy requires " ++ dq ++ lit "encryption at rest" ++ dq
  ++ lit " for all backups.".

Definition curly_quote : pystr :=
  lit "The policy requires " ++ [8220%N] ++ lit "encryption at rest" ++ [8221%N]
  ++ lit " for all backups.".

Definition fact_straight : Fact.t :=
  fact_of "Backups are encrypted at rest" "Lines 2-2" [straight_quote].

Definition fact_curly : Fact.t :=
  fact_of "Backups are encrypted at rest" "Lines 2-2" [curly_quote].

(** A completion service whose reply, with confidence 0.95, quotes a
    sentence that is not in the document: it differs from the second line
    by its hour. *)
Definition near_quote : pystr :=
  lit "The backup system performs daily backups at 3 AM.".

Definition near_reply : pystr :=
  lit "{" ++ json_field (lit "found") (lit "true") ++ lit ", "
  ++ json_field (lit "quote") (dq ++ near_quote ++ dq) ++ lit ", "
  ++ json_field (lit "confidence") (lit "0.95") ++ lit "}".

Definition near_result : json :=
  JDict [ (lit "found", JBool true);
          (lit "quote", JStr near_quote);
          (lit "confidence", JFloat (F.truediv 95 100)) ].

Definition near_runtime : Runtime := ascii_runtime [(near_reply, near_result)].

Definition near_validator : FactValidator :=
  {| lines := test_lines; claude_client := Some (fun _ => Some near_reply) |}.

(** The text of the test document, which ends with a line feed, and an
    extractor whose chunks of four lines do not overlap. *)
Definition test_text : pystr := List.concat test_lines.

Definition plain_extractor : FactExtractor :=
  {| chunk_size := 4; overlap_size := 0 |}.

(** Two documents of one line, of 16 and of 17 words, and two quotes of 23
    and of 43 words that begin with these words. *)
Definition words_16 : pystr := lit "a b c d e f g h i j k l m n o p".
Definition words_17 : pystr := lit "a b c d e f g h i j k l m n o p q".

Definition quote_23 : pystr := words_16 ++ lit " q r s t u v w".

Definition quote_43 : pystr :=
  words_17 ++ lit " r s t u v w x y z"
  ++ lit " aa bb cc dd ee ff gg hh ii jj kk ll mm nn oo pp qq".

Definition validator_16 : FactValidator :=
  {| lines := [words_16 ++ [10%N]]; claude_client := Some (fun _ => Some mock_reply) |}.

Definition validator_17 : FactValidator :=
  {| lines := [words_17 ++ [10%N]]; claude_client := Some (fun _ => Some mock_reply) |}.

Definition fact_23 : Fact.t := fact_of "Sixteen of 23 words" "Lines 1-1" [quote_23].
Definition fact_43 : Fact.t := fact_of "Seventeen of 43 words" "Lines 1-1" [quote_43].

(** ** Auxiliary definitions for the proofs *)

(** The float a rounding to nearest ends with, once the mantissa [q1] is
    down to 53 digits (or is [2^53], which is renormalized). *)
Definition finish (q1 e : Z) : spec_float :=
  if q1 <? 2 ^ 53 then S754_finite false (Z.to_pos q1) e
  else S754_finite false (2 ^ 52) (e + 1).

(** A float that is not a NaN, as a triple that [SFcompare] orders
    lexicographically. *)
Definition rank (x : spec_float) : Z * Z * Z :=
  match x with
  | S754_nan => (0, 0, 0)
  | S754_infinity true => (-2, 0, 0)
  | S754_finite true m e => (-1, - e, - Zpos m)
  | S754_zero _ => (0, 0, 0)
  | S754_finite false m e => (1, e, Zpos m)
  | S754_infinity false => (2, 0, 0)
  end.

Definition lex_lt (a b : Z * Z * Z) : Prop :=
  let '(a1, a2, a3) := a in
  let '(b1, b2, b3) := b in
  a1 < b1 \/ (a1 = b1 /\ (a2 < b2 \/ (a2 = b2 /\ a3 < b3))).

(** Following the spec of [getText]: the text of the lines whose 1-indexed
    position lies in [a .. b], for [a >= 1]. *)
Definition clamped_range_text (ls : list pystr) (a b : Z) : pystr :=
  List.concat (firstn (Z.to_nat (b - a + 1)) (skipn (Z.to_nat (a - 1)) ls)).

(** The whole number that [format(x, '.0%')] prints before the percent
    sign, when it prints one. *)
Definition printed_percent (x : F.float) : option Z :=
  match F.mul x (F.of_int 100) with
  | S754_finite _ m e => Some (F.round_half_even m e)
  | S754_zero _ => Some 0
  | _ => None
  end.

(** What the label of a quote in a text holds for the loop that looks for
    the best match: nothing when the quote is an exact match, else its match
    ratio printed as a whole percentage [p] and read as [p / 100]. *)
Definition read_back `{Runtime} (quote text : pystr) : option F.float :=
  if str_in (normalize_text quote) (normalize_text text) then None
  else option_map (fun p => F.truediv p 100)
         (printed_percent (match_ratio (split_ws (normalize_text quote))
                             (split_ws (normalize_text text)))).

(** A character of the ASCII range that is not a digit. *)
Definition ascii_nondigit (c : char) : bool :=
  (c <? 128)%N && negb ((48 <=? c) && (c <=? 57))%N.

(** * More of the code *)

(** ** [validate_consolidated_facts]

    The facts of all the documents of the consolidated file, in the order
    of the file, checked by a validator that has no client. *)

Section Consolidated.
Context `{Runtime}.

Definition validate_consolidated_facts (documents : list (list Fact.t))
    (text_lines : list pystr) : list ValidationResult * Stats :=
  let all_facts := List.concat documents in
  let validator := {| lines := text_lines; claude_client := None |} in
  let results := validate_facts validator all_facts in
  (results, session_stats results).

End Consolidated.

(** ** Words in order

    [appear_in_order qs ts]: the words [qs] are found one after the other,
    not necessarily next to each other, among the words [ts], compared as
    [find_quote_in_text] compares two words (both in lower case). *)

Section Order.
Context `{Runtime}.

Inductive appear_in_order : list pystr -> list pystr -> Prop :=
| in_order_nil (ts : list pystr) : appear_in_order [] ts
| in_order_skip (q : pystr) (qs : list pystr) (t : pystr) (ts : list pystr) :
    appear_in_order (q :: qs) ts -> appear_in_order (q :: qs) (t :: ts)
| in_order_take (q : pystr) (qs : list pystr) (t : pystr) (ts : list pystr) :
    str_eqb (str_lower t) (str_lower q) = true ->
    appear_in_order qs ts -> appear_in_order (q :: qs) (t :: ts).

End Order.

(** ** The chunks of [FactExtractor.chunk_text] *)

(** The lines [a .. b] of a text, counted from 1, joined by line feeds. *)
Definition lines_text (ls : list pystr) (a b : Z) : pystr :=
  join [10%N] (firstn (Z.to_nat (b - a + 1)) (skipn (Z.to_nat (a - 1)) ls)).

(** The chunk that starts [k] steps of [chunk_size - overlap_size] lines
    into the text. *)
Definition chunk_at (self : FactExtractor) (lines : list pystr) (k : nat) : chunk :=
  let start := Z.of_nat k * (chunk_size self - overlap_size self) in
  let end_ := Z.min (start + chunk_size self) (len lines) in
  (Z.of_nat k, lines_text lines (start + 1) end_, start + 1, end_).

(** ** [FactExtractor._process_single_chunk]

    The fields of [ExtractedFact] and [EvidenceQuote] that the validation of
    a chunk reads or writes.  In the schema [source_location] is a string;
    the loop stores into it the [corrected_location] of a result, which is
    optional. *)

Module EvidenceQuote.
Record t := mk {
  quote : pystr;
  source_location : pystr;
  relevance : option pystr
}.
End EvidenceQuote.

Module ExtractedFact.
Record t := mk {
  claim : pystr;
  source_location : option pystr;
  evidence_quote : option pystr;
  evidence_quotes : option (list EvidenceQuote.t);
  auto_generated : option bool
}.
End ExtractedFact.

(** [fact.model_dump()], as [validate_fact] reads it: a field that holds
    [None] is read like a key that is absent. *)
Definition model_dump (fact : ExtractedFact.t) : Fact.t :=
  {| Fact.claim := Some (ExtractedFact.claim fact);
     Fact.source_location := ExtractedFact.source_location fact;
     Fact.evidence_quotes :=
       option_map (map (fun eq => EvDict (Some (EvidenceQuote.quote eq))))
         (ExtractedFact.evidence_quotes fact);
     Fact.evidence_quote := ExtractedFact.evidence_quote fact |}.

(** The dictionary [stats]. *)
Module ChunkStats.
Record t := mk {
  extracted : Z;
  validated : Z;
  rejected : Z;
  recovered : Z
}.
End ChunkStats.

Section Chunk.
Context `{Runtime}.

(** One round of the loop over the facts of a chunk; the state is
    [(validated_facts, stats)]. *)
Definition process_fact (validator : FactValidator) (existing_fact_count : Z)
    (chunk_text : pystr) (state : list ExtractedFact.t * ChunkStats.t)
    (fact : ExtractedFact.t) : list ExtractedFact.t * ChunkStats.t :=
  let '(validated_facts, stats) := state in
  if get (ExtractedFact.auto_generated fact) false then
    (validated_facts ++ [fact],
     ChunkStats.mk (ChunkStats.extracted stats) (ChunkStats.validated stats + 1)
       (ChunkStats.rejected stats) (ChunkStats.recovered stats))
  else
    let fact_dict := model_dump fact in
    let validation_result :=
      validate_fact validator fact_dict (existing_fact_count + len validated_facts)
        (Some chunk_text) in
    if is_valid validation_result then
      let '(fact, stats) :=
        if was_recovered validation_result then
          (ExtractedFact.mk (ExtractedFact.claim fact)
             (corrected_location validation_result)
             (corrected_quote validation_result)
             (ExtractedFact.evidence_quotes fact)
             (ExtractedFact.auto_generated fact),
           ChunkStats.mk (ChunkStats.extracted stats) (ChunkStats.validated stats)
             (ChunkStats.rejected stats) (ChunkStats.recovered stats + 1))
        else (fact, stats) in
      (validated_facts ++ [fact],
       ChunkStats.mk (ChunkStats.extracted stats) (ChunkStats.validated stats + 1)
         (ChunkStats.rejected stats) (ChunkStats.recovered stats))
    else
      (validated_facts,
       ChunkStats.mk (ChunkStats.extracted stats) (ChunkStats.validated stats)
         (ChunkStats.rejected stats + 1) (ChunkStats.recovered stats)).

(** [_process_single_chunk], given the facts that [extract_facts_from_chunk]
    returned for the chunk.  (The files it saves are not modelled.) *)
Definition _process_single_chunk (chunk_info : chunk) (facts : list ExtractedFact.t)
    (validator : FactValidator) (existing_fact_count : Z)
  : Z * list ExtractedFact.t * ChunkStats.t :=
  let '(chunk_id, chunk_text, start_line, end_line) := chunk_info in
  let validated_facts := [] in
  let stats := ChunkStats.mk (len facts) 0 0 0 in
  let '(validated_facts, stats) :=
    fold_left (process_fact validator existing_fact_count chunk_text) facts
      (validated_facts, stats) in
  (chunk_id, validated_facts, stats).

End Chunk.

(** ** [QuoteCorrector]

    The result of a correction.  Its field [reasoning], a text for the
    reader of the log that holds the text of an exception when there was
    one, is left out; [match_confidence] holds whatever value the reply
    gave as its confidence. *)

Module CorrectionResult.
Record t := mk {
  original_claim : pystr;
  original_quote : pystr;
  original_location : pystr;
  was_corrected : bool;
  corrected_quote : option pystr;
  corrected_location : option pystr;
  match_confidence : json;
  validation_score : F.float
}.
End CorrectionResult.

(** The state of a [QuoteCorrector]: the lines of the source text, the
    client, called as [claude_client.prompt(prompt, max_tokens=n)], and the
    validator. *)
Module QuoteCorrector.
Record t := mk {
  lines : list pystr;
  claude_client : pystr -> Z -> option pystr;
  validator : FactValidator
}.

End QuoteCorrector.

(** The literal [1.0]. *)
Definition c1_0 : F.float := S754_finite false 4503599627370496 (-52).

(** The prompt of [correct_paraphrased_quote]. *)
Definition correction_prompt (claim paraphrased_quote context : pystr)
    (context_start context_end : Z) : pystr :=
  join [10%N]
    [ lit "You are helping to find the EXACT quote from a source document that supports a factual claim.";
      [];
      lit "**Context**: The claim below was extracted from a document, but the evidence quote was paraphrased instead of being an exact quote. Your task is to find the EXACT text from the source that supports this claim.";
      [];
      lit "**Claim**: " ++ claim;
      [];
      lit "**Paraphrased Quote** (NOT exact): " ++ paraphrased_quote;
      [];
      lit "**Source Context** (" ++ render_lines context_start context_end ++ lit "):";
      context;
      [];
      lit "---";
      [];
      lit "**Your Task**:";
      lit "1. Search the context above for text that DIRECTLY supports the claim";
      lit "2. Extract the EXACT quote (word-for-word, verbatim) from the context";
      lit "3. DO NOT paraphrase, summarize, or rephrase - copy the exact text";
      lit "4. Include enough context to make the quote self-contained but stay focused";
      [];
      lit "**Requirements**:";
      lit "- The quote MUST be verbatim text from the context above";
      lit "- The quote should be as specific and complete as possible";
      lit "- Include surrounding context if it helps clarify the fact";
      lit "- If multiple sentences support the claim, include all of them";
      [];
      lit "**Output Format** (JSON only):";
      lit "{";
      lit "  " ++ dq ++ lit "found" ++ dq ++ lit ": true/false,";
      lit "  " ++ dq ++ lit "exact_quote" ++ dq ++ lit ": " ++ dq
        ++ lit "word-for-word text from context (if found)" ++ dq ++ lit ",";
      lit "  " ++ dq ++ lit "confidence" ++ dq ++ lit ": 0.0-1.0,";
      lit "  " ++ dq ++ lit "line_hint" ++ dq ++ lit ": " ++ dq
        ++ lit "approximate line numbers where quote appears (e.g., 'around lines 105-107')"
        ++ dq ++ lit ",";
      lit "  " ++ dq ++ lit "reasoning" ++ dq ++ lit ": " ++ dq
        ++ lit "brief explanation of why this quote supports the claim" ++ dq;
      lit "}";
      [];
      lit "If you cannot find supporting text in the context, set found to false.";
      [];
      lit "RESPOND WITH ONLY THE JSON OBJECT:" ].

(** Whether [format(v, '.0%')] returns: it does for a number, unless the
    number is an [int] that no double can hold. *)
Definition percent_format_returns (v : json) : bool :=
  match v with
  | JBool _ | JFloat _ => true
  | JInt _ => percent_formattable v
  | _ => false
  end.

Section Corrector.
Context `{Runtime}.

(** [get_expanded_context] *)
Definition get_expanded_context (self : QuoteCorrector.t) (start_line end_line : Z)
    (expansion : Z) : pystr * Z * Z :=
  let expanded_start := Z.max 1 (start_line - expansion) in
  let expanded_end := Z.min (len (QuoteCorrector.lines self)) (end_line + expansion) in
  let context :=
    get_line_text (QuoteCorrector.validator self) expanded_start expanded_end in
  (context, expanded_start, expanded_end).

(** The result of a correction that failed. *)
Definition not_corrected (claim paraphrased_quote original_location : pystr)
    (match_confidence : json) : CorrectionResult.t :=
  CorrectionResult.mk claim paraphrased_quote original_location false None None
    match_confidence F.zero.

(** The body of the [try] block of [correct_paraphrased_quote] once the
    reply is parsed.  Every exception raised on the way is caught and gives
    the result of a failed correction: the reply is not a dictionary, it has
    no key [exact_quote], the quote is not a string, or the confidence
    cannot be printed as a percentage. *)
Definition correction_of_result (result : json)
    (claim paraphrased_quote original_location context : pystr)
    (context_start context_end : Z) : CorrectionResult.t :=
  let failed := not_corrected claim paraphrased_quote original_location (JFloat F.zero) in
  match result with
  | JDict kv =>
      if negb (truthy (get (assoc (lit "found") kv) JNull)) then failed
      else
        match assoc (lit "exact_quote") kv with
        | Some (JStr corrected_quote) =>
            let confidence := get (assoc (lit "confidence") kv) (JFloat F.zero) in
            let '(found, match_type) := find_quote_in_text corrected_quote context in
            if negb found
            then not_corrected claim paraphrased_quote original_location confidence
            else
              let validation_score :=
                if str_in (lit "exact") match_type then c1_0 else F.c0_8 in
              if percent_format_returns confidence
              then CorrectionResult.mk claim paraphrased_quote original_location true
                     (Some corrected_quote)
                     (Some (render_lines context_start context_end))
                     confidence validation_score
              else failed
        | _ => failed
        end
  | _ => failed
  end.

(** [correct_paraphrased_quote] *)
Definition correct_paraphrased_quote (self : QuoteCorrector.t)
    (claim paraphrased_quote original_location : pystr) : CorrectionResult.t :=
  let failed := not_corrected claim paraphrased_quote original_location (JFloat F.zero) in
  match parse_line_range original_location with
  | None => failed
  | Some (start_line, end_line) =>
      let '(context, context_start, context_end) :=
        get_expanded_context self start_line end_line 30 in
      let prompt :=
        correction_prompt claim paraphrased_quote context context_start context_end in
      match QuoteCorrector.claude_client self prompt 1500 with
      | None => failed
      | Some response =>
          match json_loads (unfence response) with
          | None => failed
          | Some result =>
              correction_of_result result claim paraphrased_quote original_location
                context context_start context_end
          end
      end
  end.

End Corrector.

(** ** Example data for the further properties *)

(** A completion service whose reply quotes the second line of the test
    document, for [attempt_fact_recovery] and for
    [correct_paraphrased_quote]. *)
Definition second_line_quote : pystr :=
  lit "The backup system performs daily backups at 2 AM.".

Definition recovering_reply : pystr :=
  lit "{" ++ json_field (lit "found") (lit "true") ++ lit ", "
  ++ json_field (lit "quote") (dq ++ second_line_quote ++ dq) ++ lit ", "
  ++ json_field (lit "confidence") (lit "0.95") ++ lit "}".

Definition recovering_result : json :=
  JDict [ (lit "found", JBool true);
          (lit "quote", JStr second_line_quote);
          (lit "confidence", JFloat (F.truediv 95 100)) ].

Definition correcting_reply : pystr :=
  lit "{" ++ json_field (lit "found") (lit "true") ++ lit ", "
  ++ json_field (lit "exact_quote") (dq ++ second_line_quote ++ dq) ++ lit ", "
  ++ json_field (lit "confidence") (lit "0.5") ++ lit "}".

Definition correcting_result : json :=
  JDict [ (lit "found", JBool true);
          (lit "exact_quote", JStr second_line_quote);
          (lit "confidence", JFloat (F.truediv 1 2)) ].

Definition example_runtime : Runtime :=
  ascii_runtime [ (recovering_reply, recovering_result);
                  (correcting_reply, correcting_result) ].

Definition recovering_validator : FactValidator :=
  {| lines := test_lines; claude_client := Some (fun _ => Some recovering_reply) |}.


(** The paraphrased fact once its quote and its location are replaced. *)
Definition fact_replaced : Fact.t :=
  {| Fact.claim := Some (lit "Backups are restored weekly");
     Fact.source_location := Some (lit "Lines 1-8");
     Fact.evidence_quotes := None;
     Fact.evidence_quote := Some second_line_quote |}.

(** The extractor with the sizes it has by default, one with small sizes,
    and one whose overlap is as large as its chunks. *)
Definition default_extractor : FactExtractor :=
  {| chunk_size := 1000; overlap_size := 200 |}.

Definition small_extractor : FactExtractor :=
  {| chunk_size := 2; overlap_size := 1 |}.

Definition stuck_extractor : FactExtractor :=
  {| chunk_size := 2; overlap_size := 2 |}.

Definition five_lines : pystr :=
  join [10%N] [lit "one"; lit "two"; lit "three"; lit "four"; lit "five"].

(** Three facts extracted from the chunk of the test: one whose quotes are
    in the chunk, one whose quote is not, and an auto-generated one with the
    same quote. *)
Definition extracted_of (claim : string) (quotes : list pystr) (auto : bool)
  : ExtractedFact.t :=
  {| ExtractedFact.claim := lit claim;
     ExtractedFact.source_location := Some (lit "Lines 6-7");
     ExtractedFact.evidence_quote := None;
     ExtractedFact.evidence_quotes :=
       Some (map (fun q => EvidenceQuote.mk q (lit "Lines 6-7") None) quotes);
     ExtractedFact.auto_generated := Some auto |}.

Definition extracted_facts : list ExtractedFact.t :=
  [ extracted_of "Scans are quarterly"
      [lit "Vulnerability scans are performed quarterly by Acme Security."] false;
    extracted_of "Failover is automatic"
      [lit "Automatic failover is configured for all critical systems."] false;
    extracted_of "Failover is described"
      [lit "Automatic failover is configured for all critical systems."] true ].

(** * Properties *)

(** ** Binary64 arithmetic *)

Lemma digits2_size (p : positive) : digits2_pos p = Pos.size p.
Proof. induction p; simpl; congruence. Qed.

Lemma digits_bounds (p : positive) :
  2 ^ (Zpos (digits2_pos p) - 1) <= Zpos p < 2 ^ Zpos (digits2_pos p).
Proof.
  rewrite digits2_size.
  pose proof (Pos.size_gt p) as Hgt. pose proof (Pos.size_le p) as Hle.
  apply Pos2Z.pos_lt_pos in Hgt. apply Pos2Z.pos_le_pos in Hle.
  rewrite Pos2Z.inj_pow in Hgt, Hle. change (Zpos p~0) with (2 * Zpos p) in Hle.
  split; [|exact Hgt].
  replace (Zpos (Pos.size p)) with (Z.succ (Zpos (Pos.size p) - 1)) in Hle by lia.
  rewrite Z.pow_succ_r in Hle by lia. lia.
Qed.

Lemma digits_unique (p : positive) (d : Z) :
  2 ^ (d - 1) <= Zpos p < 2 ^ d -> Zpos (digits2_pos p) = d.
Proof.
  intros [Hlo Hhi]. pose proof (digits_bounds p) as [Hlo' Hhi'].
  set (s := Zpos (digits2_pos p)) in *.
  assert (Hd : 0 < d).
  { destruct (Z_lt_le_dec 0 d) as [|Hneg]; [assumption|].
    assert (2 ^ d <= 1).
    { destruct (Z.eq_dec d 0) as [->|]; [simpl; lia|].
      rewrite Z.pow_neg_r by lia. lia. }
    lia. }
  destruct (Z_lt_le_dec s d) as [Hlt|Hge].
  - assert (2 ^ s <= 2 ^ (d - 1)) by (apply Z.pow_le_mono_r; lia). lia.
  - destruct (Z.eq_dec s d) as [|Hne]; [assumption|].
    assert (2 ^ d <= 2 ^ (s - 1)) by (apply Z.pow_le_mono_r; lia). lia.
Qed.

Lemma iter_xO_value (p k : positive) :
  Zpos (Pos.iter xO p k) = Zpos p * 2 ^ Zpos k.
Proof.
  change (Pos.iter xO p k) with (shift_pos k p).
  rewrite shift_pos_correct. change (Z.pow_pos 2 k) with (2 ^ Zpos k). lia.
Qed.

(** With a mantissa of 53 digits nothing is shifted out; with 54, one bit. *)
Lemma shr_fexp_53 (m : positive) (e : Z) (l : location) :
  Zpos (digits2_pos m) = 53 -> -1074 <= e ->
  shr_fexp 53 1024 (Zpos m) e l = (shr_record_of_loc (Zpos m) l, e).
Proof.
  intros Hd He. unfold shr_fexp, fexp, emin. cbn [Zdigits2].
  rewrite Hd.
  replace (Z.max (53 + e - 53) (3 - 1024 - 53) - e) with 0 by lia.
  reflexivity.
Qed.

Lemma shr_fexp_54 (m : positive) (e : Z) (l : location) :
  Zpos (digits2_pos m) = 54 -> -1074 <= e ->
  shr_fexp 53 1024 (Zpos m) e l = (shr_1 (shr_record_of_loc (Zpos m) l), e + 1).
Proof.
  intros Hd He. unfold shr_fexp, fexp, emin. cbn [Zdigits2].
  rewrite Hd.
  replace (Z.max (54 + e - 53) (3 - 1024 - 53) - e) with 1 by lia.
  reflexivity.
Qed.

Lemma loc_of_shr_record_of_loc (m : Z) (l : location) :
  loc_of_shr_record (shr_record_of_loc m l) = l.
Proof. destruct l as [|[]]; reflexivity. Qed.

Lemma shr_m_of_loc (m : Z) (l : location) : shr_m (shr_record_of_loc m l) = m.
Proof. destruct l as [|[]]; reflexivity. Qed.

Lemma round_nearest_even_bounds (m : Z) (l : location) :
  m <= round_nearest_even m l <= m + 1.
Proof.
  destruct l as [|[]]; simpl; try lia. destruct (Z.even m); lia.
Qed.

Lemma shr_1_m (m : positive) (l : location) :
  shr_m (shr_1 (shr_record_of_loc (Zpos m) l)) = Zpos m / 2.
Proof.
  assert (Hdiv : forall p, Zpos p~0 / 2 = Zpos p /\ Zpos p~1 / 2 = Zpos p).
  { intros p. split; symmetry; [apply (Z.div_unique _ 2 _ 0)
                                |apply (Z.div_unique _ 2 _ 1)]; lia. }
  destruct l as [|[]]; destruct m as [p|p|]; simpl shr_m;
    try (symmetry; apply (proj1 (Hdiv p)));
    try (symmetry; apply (proj2 (Hdiv p))); reflexivity.
Qed.

Lemma round_finish (q1 e : Z) :
  2 ^ 52 <= q1 <= 2 ^ 53 -> -1074 <= e <= 970 ->
  (let '(mrs, e') := shr_fexp 53 1024 q1 e loc_Exact in
   match shr_m mrs with
   | 0 => S754_zero false
   | Zpos m => if e' <=? 1024 - 53 then S754_finite false m e'
               else S754_infinity false
   | Zneg _ => S754_nan
   end) = finish q1 e.
Proof.
  intros Hq He. unfold finish. destruct (Z.ltb_spec q1 (2 ^ 53)) as [Hlt|Hge].
  - destruct q1 as [|m|m]; try lia.
    rewrite shr_fexp_53 by (try apply digits_unique; lia).
    simpl shr_m.
    destruct (Z.leb_spec e (1024 - 53)); [reflexivity|lia].
  - assert (q1 = 9007199254740992) as -> by lia.
    rewrite shr_fexp_54 by (reflexivity || lia).
    simpl shr_m.
    destruct (Z.leb_spec (e + 1) (1024 - 53)); [reflexivity|lia].
Qed.

Lemma round_aux_53 (m : positive) (e : Z) (l : location) :
  2 ^ 52 <= Zpos m < 2 ^ 53 -> -1074 <= e <= 970 ->
  binary_round_aux 53 1024 false (Zpos m) e l
  = finish (round_nearest_even (Zpos m) l) e.
Proof.
  intros Hm He. unfold binary_round_aux.
  rewrite shr_fexp_53 by (try apply digits_unique; lia).
  rewrite loc_of_shr_record_of_loc, shr_m_of_loc.
  apply round_finish; [|assumption].
  pose proof (round_nearest_even_bounds (Zpos m) l). lia.
Qed.

Lemma round_aux_54 (m : positive) (e : Z) (l : location) :
  2 ^ 53 <= Zpos m < 2 ^ 54 -> -1074 <= e <= 969 ->
  binary_round_aux 53 1024 false (Zpos m) e l
  = finish (round_nearest_even (Zpos m / 2)
              (loc_of_shr_record (shr_1 (shr_record_of_loc (Zpos m) l))))
      (e + 1).
Proof.
  intros Hm He. unfold binary_round_aux.
  rewrite shr_fexp_54 by (try apply digits_unique; lia).
  rewrite shr_1_m.
  apply round_finish; [|lia].
  pose proof (round_nearest_even_bounds (Zpos m / 2)
                (loc_of_shr_record (shr_1 (shr_record_of_loc (Zpos m) l)))).
  assert (2 ^ 52 <= Zpos m / 2 < 2 ^ 53).
  { split; [apply Z.div_le_lower_bound|apply Z.div_lt_upper_bound]; lia. }
  lia.
Qed.

(** Rounding a mantissa that already has 53 digits changes nothing. *)
Lemma round_aux_canonical (s : bool) (m : positive) (e : Z) :
  Zpos (digits2_pos m) = 53 -> -1074 <= e <= 971 ->
  binary_round_aux 53 1024 s (Zpos m) e loc_Exact = S754_finite s m e.
Proof.
  intros Hd He. unfold binary_round_aux.
  rewrite shr_fexp_53 by lia. cbn [shr_record_of_loc loc_of_shr_record shr_m
    round_nearest_even].
  rewrite shr_fexp_53 by lia. cbn [shr_record_of_loc shr_m].
  destruct (Z.leb_spec e (1024 - 53)); [reflexivity|lia].
Qed.

(** [float(n)] for a positive [n] below [2^53]: the mantissa is [n] shifted
    to 53 digits. *)
Lemma of_int_pos (n : Z) :
  0 < n < 2 ^ 53 ->
  exists (m : positive) (d : Z),
    F.of_int n = S754_finite false m (d - 53)
    /\ 1 <= d <= 53
    /\ 2 ^ (d - 1) <= n < 2 ^ d
    /\ Zpos m = n * 2 ^ (53 - d)
    /\ Zpos (digits2_pos m) = 53.
Proof.
  intros [Hpos Hlt]. destruct n as [|p|p]; try lia.
  pose proof (digits_bounds p) as Hb.
  set (d := Zpos (digits2_pos p)) in *.
  assert (Hd : 1 <= d <= 53).
  { split; [subst d; lia|].
    destruct (Z_lt_le_dec 53 d) as [Hbig|]; [|assumption].
    assert (2 ^ 53 <= 2 ^ (d - 1)) by (apply Z.pow_le_mono_r; lia). lia. }
  unfold F.of_int, binary_normalize, binary_round, shl_align, fexp, emin,
    F.prec, F.emax.
  fold d.
  replace (Z.max (d + 0 - 53) (3 - 1024 - 53) - 0) with (d - 53) by lia.
  destruct (d - 53) as [|k|k] eqn:Hk; try lia.
  - exists p, d. replace (Z.max (d + 0 - 53) (3 - 1024 - 53)) with (d - 53) by lia.
    rewrite Hk. assert (d = 53) by lia.
    rewrite (round_aux_canonical false p 0) by (fold d; lia).
    replace (53 - d) with 0 by lia. rewrite Z.mul_1_r. repeat split; lia.
  - pose proof (iter_xO_value p k) as Hv.
    assert (Hpow : 2 ^ Zpos k * 2 ^ (d - 1) = 2 ^ 52).
    { rewrite <- Z.pow_add_r by lia. f_equal. lia. }
    assert (Hpow' : 2 ^ Zpos k * 2 ^ d = 2 ^ 53).
    { rewrite <- Z.pow_add_r by lia. f_equal. lia. }
    assert (Hk2 : 0 < 2 ^ Zpos k) by (apply Z.pow_pos_nonneg; lia).
    assert (Hm : Zpos (digits2_pos (Pos.iter xO p k)) = 53).
    { apply digits_unique. rewrite Hv. change (53 - 1) with 52. nia. }
    exists (Pos.iter xO p k), d.
    replace (Z.max (d + 0 - 53) (3 - 1024 - 53)) with (d - 53) by lia.
    rewrite round_aux_canonical by (assumption || lia).
    replace (53 - d) with (Zpos k) by lia. repeat split; lia.
Qed.

(** The quotient of two floats with 53-digit mantissas, before rounding. *)
Lemma div_canonical (mx my : positive) (ex ey : Z) :
  Zpos (digits2_pos mx) = 53 -> Zpos (digits2_pos my) = 53 ->
  -1021 <= ex - ey ->
  F.div (S754_finite false mx ex) (S754_finite false my ey)
  = binary_round_aux 53 1024 false (Zpos mx * 2 ^ 53 / Zpos my) (ex - ey - 53)
      (new_location (Zpos my) (Zpos mx * 2 ^ 53 mod Zpos my)).
Proof.
  intros Hx Hy He. unfold F.div, SFdiv, SFdiv_core_binary, fexp, emin, F.prec, F.emax.
  cbn [Zdigits2 xorb]. rewrite Hx, Hy.
  replace (Z.min (Z.max (53 + ex - (53 + ey) - 53) (3 - 1024 - 53)) (ex - ey))
    with (ex - ey - 53) by lia.
  replace (ex - ey - (ex - ey - 53)) with 53 by lia.
  cbv iota. rewrite Z.shiftl_mul_pow2 by lia.
  unfold Z.div, Z.modulo.
  destruct (Z.div_eucl (Zpos mx * 2 ^ 53) (Zpos my)) as [q r]. reflexivity.
Qed.

Lemma leb_0_7_finish (q1 e : Z) :
  2 ^ 52 <= q1 <= 2 ^ 53 ->
  F.leb F.c0_7 (finish q1 e)
  = (-53 <? e) || ((e =? -53) && (6305039478318694 <=? q1)).
Proof.
  intros Hq. unfold finish, F.leb, SFleb, F.c0_7.
  destruct (Z.ltb_spec q1 (2 ^ 53)) as [Hlt|Hge].
  - destruct q1 as [|m|m]; try lia. cbn [SFcompare Z.to_pos].
    destruct (Z.compare_spec (-53) e) as [<-|He|He].
    + change (Pos.compare_cont Eq 6305039478318694 m)
        with (Zpos 6305039478318694 ?= Zpos m).
      destruct (Z.compare_spec 6305039478318694 (Zpos m));
        destruct (Z.leb_spec 6305039478318694 (Zpos m)); simpl; lia || reflexivity.
    + destruct (Z.ltb_spec (-53) e); [reflexivity|lia].
    + destruct (Z.ltb_spec (-53) e); [lia|].
      destruct (Z.eqb_spec e (-53)); [lia|reflexivity].
  - cbn [SFcompare].
    destruct (Z.leb_spec 6305039478318694 q1); [|lia]. rewrite andb_true_r.
    destruct (Z.compare_spec (-53) (e + 1)) as [He|He|He].
    + assert (e = -54) as -> by lia. reflexivity.
    + destruct (Z.ltb_spec (-53) e); [reflexivity|].
      destruct (Z.eqb_spec e (-53)); [reflexivity|lia].
    + destruct (Z.ltb_spec (-53) e); [lia|].
      destruct (Z.eqb_spec e (-53)); [lia|reflexivity].
Qed.

(** [m / n >= 0.7] in floating point is [10 m >= 7 n], for the word counts
    of a quote: [0 <= m <= n], [0 < n < 2^49]. *)
Lemma truediv_ge_0_7 (m n : Z) :
  0 <= m <= n -> 0 < n < 2 ^ 49 ->
  F.leb F.c0_7 (F.truediv m n) = (7 * n <=? 10 * m).
Proof.
  intros Hm Hn. unfold F.truediv.
  destruct (Z.eq_dec m 0) as [->|Hm0].
  { destruct (of_int_pos n) as (my & dn & -> & _); [lia|].
    destruct (Z.leb_spec (7 * n) (10 * 0)); [lia|reflexivity]. }
  destruct (of_int_pos m) as (mx & dm & -> & Hdm & Hm2 & Hmx & Hdx); [lia|].
  destruct (of_int_pos n) as (my & dn & -> & Hdn & Hn2 & Hmy & Hdy); [lia|].
  assert (Hdd : dm <= dn).
  { destruct (Z_le_gt_dec dm dn) as [|Hgt]; [assumption|].
    assert (2 ^ dn <= 2 ^ (dm - 1)) by (apply Z.pow_le_mono_r; lia). lia. }
  rewrite div_canonical by (assumption || lia).
  replace (dm - 53 - (dn - 53) - 53) with (dm - dn - 53) by lia.
  set (T := 2 ^ (53 - dn)) in *.
  assert (HT : 0 < T) by (apply Z.pow_pos_nonneg; lia).
  pose proof (digits_bounds mx) as Hbx. pose proof (digits_bounds my) as Hby.
  rewrite Hdx in Hbx. rewrite Hdy in Hby. change (53 - 1) with 52 in *.
  set (Q := Zpos mx * 2 ^ 53 / Zpos my).
  set (L := new_location (Zpos my) (Zpos mx * 2 ^ 53 mod Zpos my)).
  assert (HQ : 2 ^ 52 <= Q < 2 ^ 54).
  { subst Q. split; [apply Z.div_le_lower_bound|apply Z.div_lt_upper_bound]; nia. }
  (* the quotient as a function of [m] and [n] *)
  assert (HQ0 : dm = dn -> Q = m * 2 ^ 53 / n).
  { intros Heq. subst Q. rewrite Hmx, Hmy, Heq. fold T.
    replace (m * T * 2 ^ 53) with (m * 2 ^ 53 * T) by ring.
    apply Z.div_mul_cancel_r; lia. }
  assert (HQ1 : dm = dn - 1 -> Q = m * 2 ^ 54 / n).
  { intros Heq. subst Q. rewrite Hmx, Hmy, Heq.
    replace (53 - (dn - 1)) with (Z.succ (53 - dn)) by lia.
    rewrite Z.pow_succ_r by lia. fold T.
    replace (m * (2 * T) * 2 ^ 53) with (m * 2 ^ 54 * T) by (change (2 ^ 54) with (2 * 2 ^ 53); ring).
    apply Z.div_mul_cancel_r; lia. }
  assert (Hsmall : dm <= dn - 2 -> 2 * m < n).
  { intros Hle. assert (2 ^ dm <= 2 ^ (dn - 2)) by (apply Z.pow_le_mono_r; lia).
    replace (dn - 1) with (Z.succ (dn - 2)) in Hn2 by lia.
    rewrite Z.pow_succ_r in Hn2 by lia. lia. }
  destruct (Z_lt_le_dec Q (2 ^ 53)) as [Hlt|Hge].
  - destruct Q as [|q|q] eqn:HeqQ; try lia.
    rewrite round_aux_53 by lia.
    pose proof (round_nearest_even_bounds (Zpos q) L) as Hr.
    rewrite leb_0_7_finish by lia.
    destruct (Z.eq_dec dm dn) as [Heq|Hne].
    + specialize (HQ0 Heq). rewrite Heq.
      replace (dn - dn - 53) with (-53) by lia. simpl (-53 <? -53). simpl (-53 =? -53).
      cbn [orb andb].
      destruct (Z.leb_spec (7 * n) (10 * m)) as [Hyes|Hno].
      * assert (6305039478318694 <= Zpos q).
        { rewrite HQ0. apply Z.div_le_lower_bound; lia. }
        destruct (Z.leb_spec 6305039478318694 (round_nearest_even (Zpos q) L));
          [reflexivity|lia].
      * assert (Zpos q < 6305039478318694 - 1).
        { rewrite HQ0. apply Z.div_lt_upper_bound; lia. }
        destruct (Z.leb_spec 6305039478318694 (round_nearest_even (Zpos q) L));
          [lia|reflexivity].
    + assert (Hneg : dm - dn - 53 < -53) by lia.
      destruct (Z.ltb_spec (-53) (dm - dn - 53)); [lia|].
      destruct (Z.eqb_spec (dm - dn - 53) (-53)); [lia|]. cbn [orb andb].
      assert (2 * m < n).
      { destruct (Z.eq_dec dm (dn - 1)) as [Heq|]; [|apply Hsmall; lia].
        specialize (HQ1 Heq).
        destruct (Z_lt_le_dec (2 * m) n) as [|Hbig]; [assumption|].
        assert (2 ^ 53 <= m * 2 ^ 54 / n) by (apply Z.div_le_lower_bound; lia).
        lia. }
      destruct (Z.leb_spec (7 * n) (10 * m)); [lia|reflexivity].
  - destruct Q as [|q|q] eqn:HeqQ; try lia.
    rewrite round_aux_54 by lia.
    set (L' := loc_of_shr_record (shr_1 (shr_record_of_loc (Zpos q) L))).
    pose proof (round_nearest_even_bounds (Zpos q / 2) L') as Hr.
    assert (Hhalf : 2 ^ 52 <= Zpos q / 2 < 2 ^ 53).
    { split; [apply Z.div_le_lower_bound|apply Z.div_lt_upper_bound]; lia. }
    rewrite leb_0_7_finish by lia.
    destruct (Z.eq_dec dm dn) as [Heq|Hne].
    + specialize (HQ0 Heq). rewrite Heq.
      replace (dn - dn - 53 + 1) with (-52) by lia. cbn [Z.ltb Z.compare orb].
      assert (n <= m).
      { destruct (Z_le_gt_dec n m) as [|Hless]; [assumption|].
        assert (m * 2 ^ 53 / n < 2 ^ 53) by (apply Z.div_lt_upper_bound; lia).
        lia. }
      destruct (Z.leb_spec (7 * n) (10 * m)); [reflexivity|lia].
    + destruct (Z.eq_dec dm (dn - 1)) as [Heq|Hne'].
      * specialize (HQ1 Heq). rewrite Heq.
        replace (dn - 1 - dn - 53 + 1) with (-53) by lia.
        simpl (-53 <? -53). simpl (-53 =? -53). cbn [orb andb].
        assert (Hq2 : Zpos q / 2 = m * 2 ^ 53 / n).
        { rewrite HQ1. rewrite Z.div_div by lia.
          change (2 ^ 54) with (2 ^ 53 * 2). rewrite Z.mul_assoc.
          apply Z.div_mul_cancel_r; lia. }
        destruct (Z.leb_spec (7 * n) (10 * m)) as [Hyes|Hno].
        -- assert (6305039478318694 <= Zpos q / 2).
           { rewrite Hq2. apply Z.div_le_lower_bound; lia. }
           destruct (Z.leb_spec 6305039478318694 (round_nearest_even (Zpos q / 2) L'));
             [reflexivity|lia].
        -- assert (Zpos q / 2 < 6305039478318694 - 1).
           { rewrite Hq2. apply Z.div_lt_upper_bound; lia. }
           destruct (Z.leb_spec 6305039478318694 (round_nearest_even (Zpos q / 2) L'));
             [lia|reflexivity].
      * assert (Hneg : dm - dn - 53 + 1 < -53) by lia.
        destruct (Z.ltb_spec (-53) (dm - dn - 53 + 1)); [lia|].
        destruct (Z.eqb_spec (dm - dn - 53 + 1) (-53)); [lia|]. cbn [orb andb].
        assert (2 * m < n) by (apply Hsmall; lia).
        destruct (Z.leb_spec (7 * n) (10 * m)); [lia|reflexivity].
Qed.

Lemma new_location_below (d r : Z) :
  0 <= r -> 2 * r < d ->
  new_location d r = loc_Exact \/ new_location d r = loc_Inexact Lt.
Proof.
  intros Hr Hd. unfold new_location, new_location_even, new_location_odd.
  destruct (Z.even d); destruct (Z.eqb_spec r 0); auto; right.
  - destruct (Z.compare_spec (2 * r) d); (reflexivity || lia).
  - destruct (Z.compare_spec (2 * r + 1) d); (reflexivity || lia).
Qed.

(** A quotient that is exactly seven tenths is the double [0.7]. *)
Lemma truediv_7_10 (k : Z) :
  0 < k -> 10 * k < 2 ^ 53 -> F.truediv (7 * k) (10 * k) = F.c0_7.
Proof.
  intros Hk Hbig. unfold F.truediv.
  destruct (of_int_pos (7 * k)) as (mx & dm & -> & Hdm & Hm2 & Hmx & Hdx); [lia|].
  destruct (of_int_pos (10 * k)) as (my & dn & -> & Hdn & Hn2 & Hmy & Hdy); [lia|].
  assert (Hdd : dm <= dn <= dm + 1).
  { split.
    - destruct (Z_le_gt_dec dm dn) as [|Hgt]; [assumption|].
      assert (2 ^ dn <= 2 ^ (dm - 1)) by (apply Z.pow_le_mono_r; lia). lia.
    - destruct (Z_le_gt_dec dn (dm + 1)) as [|Hgt]; [assumption|].
      assert (2 ^ (dm + 1) <= 2 ^ (dn - 1)) by (apply Z.pow_le_mono_r; lia).
      rewrite Z.pow_add_r in * by lia. lia. }
  rewrite div_canonical by (assumption || lia).
  replace (dm - 53 - (dn - 53) - 53) with (dm - dn - 53) by lia.
  set (T := 2 ^ (53 - dn)) in *.
  assert (HT : 0 < T) by (apply Z.pow_pos_nonneg; lia).
  destruct (Z.eq_dec dm dn) as [Heq|Hne].
  - rewrite Heq in Hmx. fold T in Hmx. rewrite Hmx, Hmy, Heq.
    replace (7 * k * T * 2 ^ 53) with (7 * 2 ^ 53 * (k * T)) by ring.
    replace (10 * k * T) with (10 * (k * T)) by ring.
    rewrite Z.div_mul_cancel_r by lia. rewrite Z.mul_mod_distr_r by lia.
    change (7 * 2 ^ 53 / 10) with 6305039478318694.
    change (7 * 2 ^ 53 mod 10) with 4.
    rewrite round_aux_53 by lia.
    replace (dn - dn - 53) with (-53) by lia.
    destruct (new_location_below (10 * (k * T)) (4 * (k * T))) as [-> | ->];
      try lia; reflexivity.
  - assert (Heq : dm = dn - 1) by lia.
    rewrite Heq in Hmx. replace (53 - (dn - 1)) with (Z.succ (53 - dn)) in Hmx by lia.
    rewrite Z.pow_succ_r in Hmx by lia. fold T in Hmx. rewrite Hmx, Hmy, Heq.
    replace (7 * k * (2 * T) * 2 ^ 53) with (14 * 2 ^ 53 * (k * T)) by ring.
    replace (10 * k * T) with (10 * (k * T)) by ring.
    rewrite Z.div_mul_cancel_r by lia. rewrite Z.mul_mod_distr_r by lia.
    change (14 * 2 ^ 53 / 10) with 12610078956637388.
    rewrite round_aux_54 by lia.
    replace (dn - 1 - dn - 53 + 1) with (-53) by lia.
    destruct (new_location (10 * (k * T)) (14 * 2 ^ 53 mod 10 * (k * T))) as [|[]];
      reflexivity.
Qed.

(** *** The order of floats *)

Lemma ltb_rank (a b : spec_float) :
  a <> S754_nan -> b <> S754_nan ->
  (F.ltb a b = true <-> lex_lt (rank a) (rank b)).
Proof.
  intros Ha Hb. unfold F.ltb, SFltb.
  destruct a as [sa|sa| |sa ma ea]; try contradiction;
    destruct b as [sb|sb| |sb mb eb]; try contradiction;
    try destruct sa; try destruct sb; simpl;
    try (split; [discriminate|lia]); try (split; [lia|reflexivity]).
  - change (Pos.compare_cont Eq ma mb) with (Pos.compare ma mb).
    destruct (Z.compare_spec ea eb); try destruct (Pos.compare_spec ma mb); simpl;
      split; try discriminate; try reflexivity; lia.
  - change (Pos.compare_cont Eq ma mb) with (Pos.compare ma mb).
    destruct (Z.compare_spec ea eb); try destruct (Pos.compare_spec ma mb); simpl;
      split; try discriminate; try reflexivity; lia.
Qed.

Lemma ltb_nan_r (a : spec_float) : F.ltb a S754_nan = false.
Proof. destruct a as [sa|sa| |sa ma ea]; reflexivity. Qed.

Lemma ltb_irrefl (a : spec_float) : F.ltb a a = false.
Proof.
  destruct a as [sa|sa| |sa ma ea]; try reflexivity.
  - destruct sa; reflexivity.
  - apply not_true_is_false. intros Hlt.
    apply ltb_rank in Hlt; try discriminate.
    unfold lex_lt in Hlt. destruct (rank (S754_finite sa ma ea)) as [[a1 a2] a3]. lia.
Qed.

(** Whatever is not above [a] is not above a greater [b]. *)
Lemma ltb_above (a b c : spec_float) :
  F.ltb a b = true -> F.ltb a c = false -> F.ltb b c = false.
Proof.
  intros Hab Hac. apply not_true_is_false. intros Hbc.
  assert (Ha : a <> S754_nan) by (intros ->; discriminate Hab).
  assert (Hb : b <> S754_nan) by (intros ->; rewrite ltb_nan_r in Hab; discriminate).
  assert (Hc : c <> S754_nan) by (intros ->; rewrite ltb_nan_r in Hbc; discriminate).
  apply (ltb_rank a b Ha Hb) in Hab. apply (ltb_rank b c Hb Hc) in Hbc.
  assert (Hlt : lex_lt (rank a) (rank c)).
  { unfold lex_lt in *. destruct (rank a) as [[a1 a2] a3], (rank b) as [[b1 b2] b3],
      (rank c) as [[c1 c2] c3]. lia. }
  apply (ltb_rank a c Ha Hc) in Hlt. congruence.
Qed.

(** ** The validator *)

Section Properties.
Context `{Runtime}.

(** *** Strings *)

Lemma str_in_nil (s : pystr) : str_in [] s = true.
Proof. destruct s; reflexivity. Qed.

Lemma split_ws_spaces (s : pystr) :
  forallb is_space s = true -> split_ws s = [].
Proof.
  induction s as [|c s IH]; simpl; intros Hs; [reflexivity|].
  apply andb_prop in Hs as [Hc Hs]. rewrite Hc. auto.
Qed.

Lemma normalize_text_spaces (s : pystr) :
  forallb is_space s = true -> normalize_text s = [].
Proof.
  intros Hs. unfold normalize_text. rewrite (split_ws_spaces s Hs). reflexivity.
Qed.

(** *** The passes over the quotes *)

Lemma all_found_Forall (quotes : list pystr) (text : pystr) :
  all_found quotes text = true <->
  Forall (fun quote => fst (find_quote_in_text quote text) = true) quotes.
Proof.
  unfold all_found. rewrite forallb_forall, Forall_forall. reflexivity.
Qed.

Lemma failed_quotes_nil (quotes : list pystr) (text : pystr) :
  failed_quotes quotes text = [] <-> all_found quotes text = true.
Proof.
  unfold failed_quotes, all_found.
  induction quotes as [|q quotes IH]; simpl; [tauto|].
  destruct (fst (find_quote_in_text q text)); simpl; [exact IH|].
  split; discriminate.
Qed.

Lemma find_exact (quote text : pystr) :
  str_in (normalize_text quote) (normalize_text text) = true ->
  find_quote_in_text quote text = (true, lit "exact match").
Proof. intros Hin. unfold find_quote_in_text. rewrite Hin. reflexivity. Qed.

Lemma quotes_of_evidence (fact : Fact.t) (evs : list evidence) :
  Fact.evidence_quotes fact = Some evs -> evs <> [] ->
  quotes_to_validate fact = map quote_of evs.
Proof.
  intros Hq Hne. unfold quotes_to_validate. rewrite Hq. simpl.
  destruct evs; [contradiction|reflexivity].
Qed.

(** *** The shape of a run *)

Lemma run_no_quotes (self : FactValidator) (fact : Fact.t) (idx : Z)
    (chunk_text : option pystr) :
  quotes_to_validate fact = [] ->
  is_valid (validate_fact self fact idx chunk_text) = false.
Proof.
  intros Hq. unfold validate_fact, run_validate_fact. rewrite Hq. reflexivity.
Qed.

Lemma run_chunk (self : FactValidator) (fact : Fact.t) (idx : Z) (chunk : pystr) :
  chunk <> [] -> quotes_to_validate fact <> [] ->
  run_validate_fact self fact idx (Some chunk) =
  let claim := get (Fact.claim fact) [] in
  let location := get (Fact.source_location fact) [] in
  let quotes := quotes_to_validate fact in
  if all_found quotes chunk
  then (accepted idx (take 80 claim) location (snippet quotes), [])
  else (rejected idx (take 80 claim)
          (counts (len (failed_quotes quotes chunk)) (len quotes)
             ++ lit " quotes not found in chunk")
          location (abbreviate (hd [] quotes)), []).
Proof.
  intros Hc Hq. unfold run_validate_fact.
  destruct (quotes_to_validate fact) as [|q qs]; [contradiction|].
  simpl get. destruct chunk as [|c chunk]; [contradiction|]. reflexivity.
Qed.

Lemma run_exact (self : FactValidator) (fact : Fact.t) (idx : Z)
    (chunk_text : option pystr) (s e : Z) :
  get chunk_text [] = [] -> quotes_to_validate fact <> [] ->
  parse_line_range (get (Fact.source_location fact) []) = Some (s, e) ->
  all_found (quotes_to_validate fact) (get_line_text self s e) = true ->
  run_validate_fact self fact idx chunk_text =
  (accepted idx (take 80 (get (Fact.claim fact) [])) (render_lines s e)
     (snippet (quotes_to_validate fact)), []).
Proof.
  intros Hc Hq Hp Hall. unfold run_validate_fact.
  destruct (quotes_to_validate fact) as [|q qs]; [contradiction|].
  rewrite Hc, Hp, Hall. reflexivity.
Qed.

(** In document mode, a fact with at least one quote and a location that
    parses to [(s, e)], all of whose quotes are, once normalized by
    [normalize_text], substrings of the normalized text of lines [s..e], is
    valid, is not marked as recovered, and its location reads
    [Lines s-e]. *)
Lemma exact_quotes_are_valid (self : FactValidator) (fact : Fact.t) (idx : Z)
    (chunk_text : option pystr) (s e : Z) :
  get chunk_text [] = [] ->
  quotes_to_validate fact <> [] ->
  parse_line_range (get (Fact.source_location fact) []) = Some (s, e) ->
  Forall (fun quote =>
            str_in (normalize_text quote)
                   (normalize_text (get_line_text self s e)) = true)
         (quotes_to_validate fact) ->
  let result := validate_fact self fact idx chunk_text in
  is_valid result = true
  /\ was_recovered result = false
  /\ actual_line_range result
     = lit "Lines " ++ str_of_int s ++ lit "-" ++ str_of_int e.
Proof.
  intros Hc Hq Hp Hall result. subst result. unfold validate_fact.
  rewrite (run_exact self fact idx chunk_text s e Hc Hq Hp).
  - repeat split.
  - apply all_found_Forall. eapply Forall_impl; [|exact Hall].
    intros quote Hin. simpl in Hin. rewrite (find_exact _ _ Hin). reflexivity.
Qed.

(** With a chunk text that is not empty, a fact with at least one quote is
    valid exactly when every quote is found in the chunk; when [k] of its
    [n] quotes are not, it is rejected with the message [k/n quotes not
    found in chunk]; and no recovery is attempted. *)
Lemma chunk_mode_all_quotes (self : FactValidator) (fact : Fact.t) (idx : Z)
    (chunk : pystr) :
  chunk <> [] ->
  quotes_to_validate fact <> [] ->
  let quotes := quotes_to_validate fact in
  let k := len (filter (fun quote => negb (fst (find_quote_in_text quote chunk))) quotes) in
  let run := run_validate_fact self fact idx (Some chunk) in
  (is_valid (fst run) = true <->
   Forall (fun quote => fst (find_quote_in_text quote chunk) = true) quotes)
  /\ (0 < k ->
      is_valid (fst run) = false
      /\ error_message (fst run)
         = str_of_int k ++ lit "/" ++ str_of_int (len quotes)
             ++ lit " quotes not found in chunk")
  /\ snd run = [].
Proof.
  intros Hc Hq quotes k run. subst run.
  rewrite (run_chunk self fact idx chunk Hc Hq). cbv zeta.
  fold quotes. fold (failed_quotes quotes chunk) in k.
  destruct (all_found quotes chunk) eqn:Hall.
  - split; [|split].
    + simpl. split; [intros _; apply all_found_Forall; exact Hall|reflexivity].
    + intros Hk. apply failed_quotes_nil in Hall. subst k. rewrite Hall in Hk.
      discriminate Hk.
    + reflexivity.
  - split; [|split].
    + simpl. split; [discriminate|].
      intros HF. apply all_found_Forall in HF. congruence.
    + intros _. split; [reflexivity|]. simpl. unfold counts.
      rewrite <- !app_assoc. reflexivity.
    + reflexivity.
Qed.

(** C10. A quote that normalizes to the empty string is an exact match in
    every text; so a fact whose [evidence_quotes] is a non-empty list of
    such quotes is valid against every non-empty chunk, and against every
    document once its location parses. *)
Theorem blank_quotes_are_accepted (self : FactValidator) (fact : Fact.t)
    (idx : Z) (chunk_text : option pystr) (evs : list evidence) :
  Fact.evidence_quotes fact = Some evs ->
  evs <> [] ->
  Forall (fun ev => normalize_text (quote_of ev) = []) evs ->
  get chunk_text [] <> []
  \/ parse_line_range (get (Fact.source_location fact) []) <> None ->
  (forall ev text, In ev evs ->
     find_quote_in_text (quote_of ev) text = (true, lit "exact match"))
  /\ is_valid (validate_fact self fact idx chunk_text) = true.
Proof.
  intros Hev Hne Hblank Hmode.
  assert (Hfind : forall ev text, In ev evs ->
            find_quote_in_text (quote_of ev) text = (true, lit "exact match")).
  { intros ev text Hin. apply find_exact.
    rewrite Forall_forall in Hblank. rewrite (Hblank ev Hin). apply str_in_nil. }
  split; [exact Hfind|].
  pose proof (quotes_of_evidence fact evs Hev Hne) as Hq.
  assert (Hqne : quotes_to_validate fact <> []).
  { rewrite Hq. destruct evs; [contradiction|discriminate]. }
  assert (Hall : forall text, all_found (quotes_to_validate fact) text = true).
  { intros text. apply all_found_Forall. rewrite Hq. apply Forall_map.
    apply Forall_forall. intros ev Hin. rewrite (Hfind ev text Hin). reflexivity. }
  unfold validate_fact.
  destruct (get chunk_text []) as [|c chunk] eqn:Hc.
  - destruct Hmode as [Hmode|Hmode]; [contradiction|].
    destruct (parse_line_range (get (Fact.source_location fact) []))
      as [[s e]|] eqn:Hp; [|contradiction].
    rewrite (run_exact self fact idx chunk_text s e Hc Hqne Hp (Hall _)).
    reflexivity.
  - destruct chunk_text as [chunk'|]; [|discriminate Hc]. simpl in Hc. subst chunk'.
    rewrite (run_chunk self fact idx (c :: chunk)); [|discriminate|exact Hqne].
    cbv zeta. rewrite Hall. reflexivity.
Qed.

(** *** Lines and locations *)

(** For an end that is not negative, [get_line_text] is the text of the
    lines from [max 1 start_line] to [min n end_line]. *)
Lemma get_line_text_clamped (self : FactValidator) (start_line end_line : Z) :
  0 <= end_line ->
  get_line_text self start_line end_line
  = clamped_range_text (lines self) (Z.max 1 start_line)
      (Z.min (len (lines self)) end_line).
Proof.
  intros Hend. unfold get_line_text, clamped_range_text, slice, slice_index, len.
  set (n := Z.of_nat (List.length (lines self))).
  assert (Hn : 0 <= n) by (subst n; lia).
  destruct (Z.ltb_spec (Z.max 0 (start_line - 1)) 0); [lia|].
  destruct (Z.ltb_spec (Z.min n end_line) 0); [lia|].
  replace (Z.max 1 start_line - 1) with (Z.max 0 (start_line - 1)) by lia.
  destruct (Z_le_gt_dec (Z.max 0 (start_line - 1)) n) as [Hin|Hout].
  - rewrite (Z.min_r n (Z.max 0 (start_line - 1))) by lia.
    do 2 f_equal. lia.
  - rewrite (Z.min_l n (Z.max 0 (start_line - 1))) by lia.
    rewrite !skipn_all2 by (subst n; lia). rewrite !firstn_nil. reflexivity.
Qed.

(** C8. [get_line_text] returns for every start and every end that is not
    negative (lines are counted from 1) the text of the lines whose position
    lies between [max 1 start] and [min n end], in their order, [n] being the
    number of lines: an end beyond the document gives the text up to the
    last line, and a range that holds no line gives the empty text.  Nothing
    is raised. *)
Theorem line_range_is_clamped (self : FactValidator) (start_line end_line : Z) :
  0 <= end_line ->
  let n := len (lines self) in
  let first := Z.max 1 start_line in
  let last := Z.min n end_line in
  get_line_text self start_line end_line
  = List.concat (firstn (Z.to_nat (last - first + 1))
                   (skipn (Z.to_nat (first - 1)) (lines self)))
  /\ (n <= end_line ->
      get_line_text self start_line end_line
      = List.concat (skipn (Z.to_nat (first - 1)) (lines self)))
  /\ (last < first -> get_line_text self start_line end_line = []).
Proof.
  intros Hend n first last.
  pose proof (get_line_text_clamped self start_line end_line Hend) as Hclamped.
  unfold clamped_range_text in Hclamped. fold n first last in Hclamped.
  split; [exact Hclamped|]. split.
  - intros Hbeyond. rewrite Hclamped. rewrite firstn_all2; [reflexivity|].
    rewrite length_skipn. subst last n. unfold len in *. lia.
  - intros Hempty. rewrite Hclamped.
    replace (Z.to_nat (last - first + 1)) with O by lia. reflexivity.
Qed.

(** A location that does not parse rejects the fact, and no recovery is
    attempted. *)
Lemma unparseable_location_rejected (self : FactValidator) (fact : Fact.t)
    (idx : Z) (chunk_text : option pystr) :
  get chunk_text [] = [] -> quotes_to_validate fact <> [] ->
  parse_line_range (get (Fact.source_location fact) []) = None ->
  run_validate_fact self fact idx chunk_text
  = (rejected idx (take 80 (get (Fact.claim fact) []))
       (lit "Invalid location format: " ++ get (Fact.source_location fact) [])
       [] [], []).
Proof.
  intros Hc Hq Hp. unfold run_validate_fact.
  destruct (quotes_to_validate fact); [contradiction|]. rewrite Hc, Hp. reflexivity.
Qed.

(** On whole percentages the band of recovery is [40 <= p < 70]. *)
Lemma medium_confidence_percent (p : Z) :
  0 <= p <= 100 ->
  medium_confidence (F.truediv p 100) = (40 <=? p) && (p <? 70).
Proof.
  intros Hp.
  assert (Hall : forallb (fun i => let p := Z.of_nat i in
                    Bool.eqb (medium_confidence (F.truediv p 100))
                             ((40 <=? p) && (p <? 70)))
                   (seq 0 101) = true) by (vm_compute; reflexivity).
  rewrite forallb_forall in Hall.
  specialize (Hall (Z.to_nat p)). rewrite Z2Nat.id in Hall by lia.
  apply eqb_prop. apply Hall. apply in_seq. lia.
Qed.

(** *** Printed numbers *)

Lemma lit_String (a : ascii) (s : string) : lit (String a s) = N_of_ascii a :: lit s.
Proof. reflexivity. Qed.

Lemma string_of_uint_digits (d : Decimal.uint) :
  Forall (fun c => (48 <= c <= 57)%N) (lit (NilEmpty.string_of_uint d)).
Proof.
  induction d; simpl NilEmpty.string_of_uint; [constructor|..];
    rewrite lit_String; (constructor; [vm_compute; split; discriminate|assumption]).
Qed.

Lemma int_digits_digit (c : char) (acc : Z) (after : bool) (s : pystr) :
  ascii_decimals -> (48 <= c <= 57)%N ->
  int_digits acc after (c :: s) = int_digits (10 * acc + (Z.of_N c - 48)) true s.
Proof.
  intros Hascii Hc. simpl. unfold char_eqb.
  destruct (N.eqb_spec c 95); [lia|]. rewrite Hascii by lia. unfold ascii_decimal.
  destruct (N.leb_spec 48 c); [|lia]. destruct (N.leb_spec c 57); [|lia]. reflexivity.
Qed.

Lemma int_digits_uint_acc (d : Decimal.uint) :
  ascii_decimals ->
  forall (acc : positive) (after : bool) (rest : pystr),
    d <> Decimal.Nil \/ after = true ->
    int_digits (Zpos acc) after (lit (NilEmpty.string_of_uint d) ++ rest)
    = int_digits (Zpos (Pos.of_uint_acc d acc)) true rest.
Proof.
  intros Hascii. induction d; intros acc after rest Hd;
    cbn [NilEmpty.string_of_uint Pos.of_uint_acc].
  1: { destruct Hd as [Hd| ->]; [contradiction|reflexivity]. }
  all: rewrite lit_String; simpl app;
    rewrite int_digits_digit by (exact Hascii || (vm_compute; split; discriminate));
    rewrite <- (IHd _ true rest) by (right; reflexivity); f_equal; vm_compute (N_of_ascii _); lia.
Qed.

Lemma int_digits_uint (d : Decimal.uint) :
  ascii_decimals ->
  forall (after : bool) (rest : pystr),
    d <> Decimal.Nil \/ after = true ->
    int_digits 0 after (lit (NilEmpty.string_of_uint d) ++ rest)
    = int_digits (Z.of_N (Pos.of_uint d)) true rest.
Proof.
  intros Hascii. induction d; intros after rest Hd;
    cbn [NilEmpty.string_of_uint Pos.of_uint].
  1: { destruct Hd as [Hd| ->]; [contradiction|reflexivity]. }
  1: { rewrite lit_String; simpl app.
       rewrite int_digits_digit by (exact Hascii || (vm_compute; split; discriminate)).
       apply IHd. right. reflexivity. }
  all: rewrite lit_String; simpl app;
    rewrite int_digits_digit by (exact Hascii || (vm_compute; split; discriminate));
    match goal with
    | |- _ = int_digits (Z.of_N (N.pos (Pos.of_uint_acc ?u ?k))) _ _ =>
        exact (int_digits_uint_acc u Hascii k true rest (or_intror eq_refl))
    end.
Qed.

Lemma str_of_int_unsigned (n : Z) :
  0 <= n ->
  exists d, d <> Decimal.Nil /\ Z.of_N (Pos.of_uint d) = n
            /\ str_of_int n = lit (NilEmpty.string_of_uint d).
Proof.
  intros Hn. destruct n as [|p|p]; [| |lia].
  - exists (Decimal.D0 Decimal.Nil). repeat split. discriminate.
  - exists (Pos.to_uint p). split; [apply DecimalPos.Unsigned.to_uint_nonnil|].
    split; [rewrite DecimalPos.Unsigned.of_to; reflexivity|].
    unfold str_of_int. simpl Z.to_int. simpl NilZero.string_of_int.
    unfold NilZero.string_of_uint.
    pose proof (DecimalPos.Unsigned.to_uint_nonnil p) as Hnil.
    destruct (Pos.to_uint p); [contradiction|reflexivity..].
Qed.

Lemma str_of_int_digits (n : Z) :
  0 <= n ->
  str_of_int n <> [] /\ Forall (fun c => (48 <= c <= 57)%N) (str_of_int n).
Proof.
  intros Hn. destruct (str_of_int_unsigned n Hn) as (d & Hd & _ & ->). split.
  - destruct d; [contradiction|..]; simpl NilEmpty.string_of_uint;
      rewrite lit_String; discriminate.
  - apply string_of_uint_digits.
Qed.

Lemma str_of_int_parses (n : Z) (after : bool) (rest : pystr) :
  ascii_decimals -> 0 <= n ->
  int_digits 0 after (str_of_int n ++ rest) = int_digits n true rest.
Proof.
  intros Hascii Hn. destruct (str_of_int_unsigned n Hn) as (d & Hd & Hval & ->).
  rewrite (int_digits_uint d Hascii) by (left; exact Hd). rewrite Hval. reflexivity.
Qed.

Lemma str_in_char_true (c : char) (s : pystr) : In c s -> str_in [c] s = true.
Proof.
  induction s as [|a s IH]; simpl; [contradiction|]. unfold char_eqb.
  intros [->|Hin]; [rewrite N.eqb_refl; reflexivity|].
  rewrite (IH Hin). apply orb_true_r.
Qed.

(** *** The ratio read back from a label *)

Lemma round_half_even_nonneg (m : positive) (e : Z) : 0 <= F.round_half_even m e.
Proof.
  unfold F.round_half_even. destruct (Z.leb_spec 0 e).
  - apply Z.mul_nonneg_nonneg; [lia|]. apply Z.pow_nonneg. lia.
  - assert (Hd : 0 < 2 ^ (- e)) by (apply Z.pow_pos_nonneg; lia).
    assert (Hq : 0 <= Zpos m / 2 ^ (- e)) by (apply Z.div_pos; lia).
    cbv zeta. destruct (2 * (Zpos m mod 2 ^ (- e)) ?= 2 ^ (- e)); [|lia|lia].
    destruct (Z.even _); lia.
Qed.

Lemma nondigit_not_decimal (c : char) :
  ascii_decimals -> ascii_nondigit c = true -> is_decimal c = false.
Proof.
  intros Hascii Hc. unfold ascii_nondigit in Hc. apply andb_prop in Hc as [Hlt Hnd].
  apply N.ltb_lt in Hlt. unfold is_decimal. rewrite (Hascii c Hlt).
  unfold ascii_decimal. apply negb_true_iff in Hnd. rewrite Hnd. reflexivity.
Qed.

Lemma digit_is_decimal (c : char) :
  ascii_decimals -> (48 <= c <= 57)%N -> is_decimal c = true.
Proof.
  intros Hascii Hc. unfold is_decimal. rewrite Hascii by lia. unfold ascii_decimal.
  destruct (N.leb_spec 48 c); [|lia]. destruct (N.leb_spec c 57); [|lia]. reflexivity.
Qed.

Lemma span_decimal_digits (ds rest : pystr) :
  ascii_decimals ->
  Forall (fun c => (48 <= c <= 57)%N) ds ->
  match rest with [] => True | c :: _ => is_decimal c = false end ->
  span_decimal (ds ++ rest) = (ds, rest).
Proof.
  intros Hascii Hds Hrest. induction Hds as [|d ds Hd _ IH]; cbn [app].
  - destruct rest as [|c rest]; [reflexivity|]. cbn [span_decimal]. rewrite Hrest.
    reflexivity.
  - cbn [span_decimal]. rewrite (digit_is_decimal d Hascii Hd), IH. reflexivity.
Qed.

Lemma search_percent_none (s : pystr) :
  ascii_decimals -> forallb ascii_nondigit s = true -> search_percent s = None.
Proof.
  intros Hascii. induction s as [|c s IH]; [reflexivity|]. cbn [forallb search_percent].
  intros Hs. apply andb_prop in Hs as [Hc Hs].
  rewrite (nondigit_not_decimal c Hascii Hc). apply IH. exact Hs.
Qed.

Lemma search_percent_skip (before s : pystr) :
  ascii_decimals -> forallb ascii_nondigit before = true ->
  search_percent (before ++ s) = search_percent s.
Proof.
  intros Hascii. induction before as [|c before IH]; [reflexivity|].
  cbn [forallb app search_percent]. intros Hs. apply andb_prop in Hs as [Hc Hs].
  rewrite (nondigit_not_decimal c Hascii Hc). apply IH. exact Hs.
Qed.

Lemma search_percent_number (before after : pystr) (p : Z) :
  ascii_decimals -> 0 <= p -> forallb ascii_nondigit before = true ->
  search_percent (before ++ str_of_int p ++ 37%N :: after) = Some (str_of_int p).
Proof.
  intros Hascii Hp Hbefore. rewrite (search_percent_skip before _ Hascii Hbefore).
  destruct (str_of_int_digits p Hp) as [Hne Hdigits].
  assert (Hspan : span_decimal (str_of_int p ++ 37%N :: after)
                  = (str_of_int p, 37%N :: after)).
  { apply span_decimal_digits; [exact Hascii|exact Hdigits|].
    apply (nondigit_not_decimal 37%N Hascii). reflexivity. }
  destruct (str_of_int p) as [|d ds] eqn:Hd; [contradiction|].
  inversion Hdigits as [|? ? Hd0 _]; subst.
  cbn [app search_percent] in *. rewrite (digit_is_decimal d Hascii Hd0).
  cbn [app] in Hspan. rewrite Hspan. reflexivity.
Qed.

Lemma label_ratio_number (before after : pystr) (p : Z) :
  ascii_decimals -> 0 <= p -> forallb ascii_nondigit before = true ->
  label_ratio (before ++ str_of_int p ++ 37%N :: after) = Some (F.truediv p 100).
Proof.
  intros Hascii Hp Hbefore. unfold label_ratio.
  replace (str_in (lit "%") (before ++ str_of_int p ++ 37%N :: after)) with true.
  2:{ symmetry. apply (str_in_char_true 37%N). apply in_or_app. right.
      apply in_or_app. right. left. reflexivity. }
  rewrite (search_percent_number before after p Hascii Hp Hbefore).
  unfold float_of_digits. rewrite <- (app_nil_r (str_of_int p)).
  rewrite (str_of_int_parses p false [] Hascii Hp). reflexivity.
Qed.

Lemma label_ratio_no_number (s : pystr) :
  ascii_decimals -> forallb ascii_nondigit s = true -> label_ratio s = None.
Proof.
  intros Hascii Hs. unfold label_ratio. rewrite (search_percent_none s Hascii Hs).
  destruct (str_in (lit "%") s); reflexivity.
Qed.

(** A label built around a printed percentage is read back as that
    percentage over 100. *)
Lemma label_ratio_percent (before after : pystr) (x : F.float) :
  ascii_decimals ->
  forallb ascii_nondigit before = true -> forallb ascii_nondigit after = true ->
  label_ratio (before ++ F.format_percent0 x ++ after)
  = option_map (fun p => F.truediv p 100) (printed_percent x).
Proof.
  intros Hascii Hbefore Hafter. unfold F.format_percent0, printed_percent, F.format_fixed0.
  assert (Hnone : forall word, forallb ascii_nondigit word = true ->
            label_ratio (before ++ (word ++ lit "%") ++ after) = None).
  { intros word Hword. apply (label_ratio_no_number _ Hascii).
    rewrite !forallb_app, Hbefore, Hword, Hafter. reflexivity. }
  assert (Hsome : forall sign p, 0 <= p -> forallb ascii_nondigit sign = true ->
            label_ratio (before ++ ((sign ++ str_of_int p) ++ lit "%") ++ after)
            = Some (F.truediv p 100)).
  { intros sign p Hp Hsign.
    replace (before ++ ((sign ++ str_of_int p) ++ lit "%") ++ after)
      with ((before ++ sign) ++ str_of_int p ++ 37%N :: after)
      by (rewrite <- !app_assoc; reflexivity).
    apply (label_ratio_number _ _ p Hascii Hp).
    rewrite forallb_app, Hbefore, Hsign. reflexivity. }
  destruct (F.mul x (F.of_int 100)) as [sg|sg| |sg m e].
  - destruct sg; [exact (Hsome (lit "-") 0 (Z.le_refl 0) eq_refl)
                 |exact (Hsome [] 0 (Z.le_refl 0) eq_refl)].
  - destruct sg; [exact (Hnone (lit "-inf") eq_refl)|exact (Hnone (lit "inf") eq_refl)].
  - exact (Hnone (lit "nan") eq_refl).
  - pose proof (round_half_even_nonneg m e) as Hp.
    destruct sg; [exact (Hsome (lit "-") _ Hp eq_refl)|exact (Hsome [] _ Hp eq_refl)].
Qed.

(** What the loop reads from the label that [find_quote_in_text] gives. *)
Lemma label_reading (quote text : pystr) :
  ascii_decimals ->
  label_ratio (snd (find_quote_in_text quote text)) = read_back quote text.
Proof.
  intros Hascii. unfold find_quote_in_text, read_back.
  destruct (str_in (normalize_text quote) (normalize_text text));
    [apply (label_ratio_no_number _ Hascii); reflexivity|].
  cbv zeta. destruct (F.leb F.c0_7 _); cbn [snd].
  - apply (label_ratio_percent _ _ _ Hascii); reflexivity.
  - apply (label_ratio_percent _ _ _ Hascii); reflexivity.
Qed.

(** *** The best match *)

Lemma best_step_ratio (quotes : list pystr) (best : F.float) (quote : pystr)
    (i : nat) (label : pystr) :
  best_step quotes (best, quote) (i, label)
  = match label_ratio label with
    | Some ratio => if F.ltb best ratio then (ratio, nth i quotes []) else (best, quote)
    | None => (best, quote)
    end.
Proof. reflexivity. Qed.

Lemma best_fold (quotes : list pystr) (entries : list (nat * pystr))
    (best : F.float) (quote : pystr) :
  let best' := fst (fold_left (best_step quotes) entries (best, quote)) in
  (forall i label ratio, In (i, label) entries -> label_ratio label = Some ratio ->
     F.ltb best' ratio = false)
  /\ (best' = best
      \/ exists i label, In (i, label) entries /\ label_ratio label = Some best')
  /\ (forall c, F.ltb best c = false -> F.ltb best' c = false).
Proof.
  revert best quote. induction entries as [|[i label] entries IH]; intros best quote.
  - simpl. split; [intros i label ratio []|]. split; [left; reflexivity|auto].
  - cbn [fold_left]. rewrite best_step_ratio.
    destruct (label_ratio label) as [ratio|] eqn:Hlabel.
    + destruct (F.ltb best ratio) eqn:Hlt.
      * destruct (IH ratio (nth i quotes [])) as (Hle & Hfrom & Hmono).
        split; [|split].
        -- intros j label' ratio' [Heq|Hin] Hratio.
           ++ injection Heq as <- <-. rewrite Hlabel in Hratio.
              injection Hratio as <-. apply Hmono. apply ltb_irrefl.
           ++ apply (Hle j label' ratio' Hin Hratio).
        -- right. destruct Hfrom as [Heq|(j & label' & Hin & Hratio)].
           ++ exists i, label. split; [left; reflexivity|]. rewrite Heq. exact Hlabel.
           ++ exists j, label'. split; [right; exact Hin|exact Hratio].
        -- intros c Hc. apply Hmono. apply (ltb_above best ratio c Hlt Hc).
      * destruct (IH best quote) as (Hle & Hfrom & Hmono).
        split; [|split].
        -- intros j label' ratio' [Heq|Hin] Hratio.
           ++ injection Heq as <- <-. rewrite Hlabel in Hratio.
              injection Hratio as <-. apply Hmono. exact Hlt.
           ++ apply (Hle j label' ratio' Hin Hratio).
        -- destruct Hfrom as [Heq|(j & label' & Hin & Hratio)]; [left; exact Heq|].
           right. exists j, label'. split; [right; exact Hin|exact Hratio].
        -- exact Hmono.
    + destruct (IH best quote) as (Hle & Hfrom & Hmono).
      split; [|split].
      * intros j label' ratio' [Heq|Hin] Hratio.
        -- injection Heq as <- <-. congruence.
        -- apply (Hle j label' ratio' Hin Hratio).
      * destruct Hfrom as [Heq|(j & label' & Hin & Hratio)]; [left; exact Heq|].
        right. exists j, label'. split; [right; exact Hin|exact Hratio].
      * exact Hmono.
Qed.

Lemma in_enumerate {A : Type} (l : list A) (x : A) :
  In x l <-> exists i, In (i, x) (enumerate l).
Proof.
  unfold enumerate. generalize 0%nat as start.
  induction l as [|y l IH]; intros start; simpl.
  - split; [intros []|intros [i []]].
  - split.
    + intros [->|Hin]; [exists start; left; reflexivity|].
      apply (IH (S start)) in Hin as [i Hi]. exists i. right. exact Hi.
    + intros [i [Heq|Hin]]; [injection Heq as _ ->; left; reflexivity|].
      right. apply (IH (S start)). exists i. exact Hin.
Qed.

(** [best_match_ratio] is the greatest of the ratios read back from the
    labels, and 0 when there is none above 0. *)
Lemma best_match_greatest (quotes labels : list pystr) :
  let best := fst (best_match quotes labels) in
  (forall label ratio, In label labels -> label_ratio label = Some ratio ->
     F.ltb best ratio = false)
  /\ (best = F.zero
      \/ exists label, In label labels /\ label_ratio label = Some best).
Proof.
  unfold best_match.
  destruct (best_fold quotes (enumerate labels) F.zero (hd [] quotes))
    as (Hle & Hfrom & _).
  split.
  - intros label ratio Hin Hratio. apply in_enumerate in Hin as [i Hi].
    apply (Hle i label ratio Hi Hratio).
  - destruct Hfrom as [Heq|(i & label & Hin & Hratio)]; [left; exact Heq|].
    right. exists label. split; [|exact Hratio].
    apply in_enumerate. exists i. exact Hin.
Qed.

(** *** The widened search *)

Lemma run_widened (self : FactValidator) (fact : Fact.t) (idx : Z)
    (chunk_text : option pystr) (s e : Z) :
  get chunk_text [] = [] -> quotes_to_validate fact <> [] ->
  parse_line_range (get (Fact.source_location fact) []) = Some (s, e) ->
  all_found (quotes_to_validate fact) (get_line_text self s e) = false ->
  run_validate_fact self fact idx chunk_text =
  let claim := get (Fact.claim fact) [] in
  let quotes := quotes_to_validate fact in
  let failed := failed_quotes quotes (get_line_text self s e) in
  let expanded_start := Z.max 1 (s - 5) in
  let expanded_end := Z.min (len (lines self)) (e + 5) in
  let expanded_text := get_line_text self expanded_start expanded_end in
  let expanded_match_types := match_types quotes expanded_text in
  if all_found quotes expanded_text
  then (accepted idx (take 80 claim)
          (render_lines expanded_start expanded_end ++ lit " (expanded search)")
          (snippet quotes), [])
  else
    let best := best_match quotes expanded_match_types in
    let error_msg :=
      counts (len failed) (len quotes)
        ++ lit " quotes not found in specified lines or nearby"
        ++ match expanded_match_types with
           | [] => []
           | first :: _ => lit " (best match: " ++ first ++ lit ")"
           end in
    let rejection :=
      rejected idx (take 80 claim) error_msg (render_lines s e)
        (abbreviate (hd [] quotes)) in
    if medium_confidence (fst best) then
      let recovery_start := Z.max 1 (s - 20) in
      let recovery_end := Z.min (len (lines self)) (e + 20) in
      let recovery_context := get_line_text self recovery_start recovery_end in
      let call :=
        {| rc_claim := claim; rc_original_quote := snd best;
           rc_search_context := recovery_context;
           rc_start_line := recovery_start; rc_end_line := recovery_end |} in
      match attempt_fact_recovery self claim (snd best) recovery_context
              recovery_start recovery_end with
      | Some (corrected_quote, corrected_location) =>
          ({| fact_index := idx; claim := take 80 claim;
              is_valid := true; error_message := [];
              actual_line_range := corrected_location;
              quote_snippet := abbreviate corrected_quote;
              was_recovered := true;
              corrected_quote := Some corrected_quote;
              corrected_location := Some corrected_location |}, [call])
      | None => (rejection, [call])
      end
    else (rejection, []).
Proof.
  intros Hc Hq Hp Hexact. unfold run_validate_fact.
  destruct (quotes_to_validate fact) as [|q qs]; [contradiction|].
  rewrite Hc, Hp, Hexact. cbv zeta.
  clear Hexact.
  destruct (all_found (q :: qs) (get_line_text self (Z.max 1 (s - 5)) _));
    [reflexivity|].
  destruct (best_match (q :: qs) _) as [best_match_ratio best_quote].
  reflexivity.
Qed.

Lemma not_all_found (quotes : list pystr) (text : pystr) :
  Exists (fun quote => fst (find_quote_in_text quote text) = false) quotes ->
  all_found quotes text = false.
Proof.
  intros Hno. apply not_true_is_false. intros Hall.
  apply all_found_Forall in Hall. rewrite Forall_forall in Hall.
  apply Exists_exists in Hno as (quote & Hin & Hquote).
  rewrite (Hall quote Hin) in Hquote. discriminate.
Qed.

(** The message of a rejection after the widened search: the number of
    quotes not found in the claimed range, out of all, and the label that
    the first quote got in the widened window. *)
Lemma rejection_message (self : FactValidator) (fact : Fact.t) (idx : Z)
    (chunk_text : option pystr) (s e : Z) :
  get chunk_text [] = [] -> quotes_to_validate fact <> [] ->
  parse_line_range (get (Fact.source_location fact) []) = Some (s, e) ->
  let quotes := quotes_to_validate fact in
  let expanded_text :=
    get_line_text self (Z.max 1 (s - 5)) (Z.min (len (lines self)) (e + 5)) in
  let result := validate_fact self fact idx chunk_text in
  is_valid result = false ->
  error_message result
  = counts (len (failed_quotes quotes (get_line_text self s e))) (len quotes)
      ++ lit " quotes not found in specified lines or nearby"
      ++ lit " (best match: "
      ++ snd (find_quote_in_text (hd [] quotes) expanded_text) ++ lit ")".
Proof.
  intros Hc Hq Hp quotes expanded_text result. subst result. unfold validate_fact.
  destruct (all_found quotes (get_line_text self s e)) eqn:Hexact.
  { rewrite (run_exact self fact idx chunk_text s e Hc Hq Hp Hexact). discriminate. }
  rewrite (run_widened self fact idx chunk_text s e Hc Hq Hp Hexact). cbv zeta.
  fold quotes. fold expanded_text. clear Hexact.
  destruct (all_found quotes expanded_text); [discriminate|].
  assert (Hlabels : match_types quotes expanded_text
                    = snd (find_quote_in_text (hd [] quotes) expanded_text)
                        :: match_types (tl quotes) expanded_text).
  { subst quotes. destruct (quotes_to_validate fact); [contradiction|reflexivity]. }
  rewrite Hlabels.
  destruct (medium_confidence _); [|reflexivity].
  destruct (attempt_fact_recovery self _ _ _ _ _) as [[cq cl]|];
    [discriminate|reflexivity].
Qed.

Lemma best_match_reading (quotes : list pystr) (text : pystr) :
  ascii_decimals ->
  let best := fst (best_match quotes (match_types quotes text)) in
  (forall quote ratio, In quote quotes -> read_back quote text = Some ratio ->
     F.ltb best ratio = false)
  /\ (best = F.zero
      \/ exists quote, In quote quotes /\ read_back quote text = Some best).
Proof.
  intros Hascii best.
  destruct (best_match_greatest quotes (match_types quotes text)) as [Hle Hfrom].
  fold best in Hle, Hfrom. split.
  - intros quote ratio Hin Hread.
    apply (Hle (snd (find_quote_in_text quote text)) ratio).
    + unfold match_types. apply in_map_iff. exists quote. split; [reflexivity|exact Hin].
    + rewrite (label_reading quote text Hascii). exact Hread.
  - destruct Hfrom as [Hzero|(label & Hin & Hlabel)]; [left; exact Hzero|right].
    unfold match_types in Hin. apply in_map_iff in Hin as (quote & <- & Hin).
    exists quote. split; [exact Hin|].
    rewrite <- (label_reading quote text Hascii). exact Hlabel.
Qed.

(** C5. In document mode, when some quote is not found in the claimed
    range [s..e], every quote is looked up again in lines
    [max 1 (s-5) .. min n (e+5)]; if all are found the fact is valid and its
    location is that range followed by [ (expanded search)]; otherwise
    recovery is attempted exactly when [0.4 <= best < 0.7], and then once,
    on lines [max 1 (s-20) .. min n (e+20)].  Here [best] is the greatest of
    the ratios read back from the labels of the second pass, or 0 when
    there is none: a quote that is an exact match gives none, and any other
    quote gives [p / 100], where [p] is its match ratio printed as a whole
    percentage.  For a percentage [p] between 0 and 100 the band is
    [40 <= p < 70]. *)
Theorem widened_search_then_recovery (self : FactValidator) (fact : Fact.t)
    (idx : Z) (chunk_text : option pystr) (s e : Z) :
  ascii_decimals ->
  get chunk_text [] = [] ->
  quotes_to_validate fact <> [] ->
  parse_line_range (get (Fact.source_location fact) []) = Some (s, e) ->
  Exists (fun quote => fst (find_quote_in_text quote (get_line_text self s e)) = false)
         (quotes_to_validate fact) ->
  let quotes := quotes_to_validate fact in
  let n := len (lines self) in
  let expanded_start := Z.max 1 (s - 5) in
  let expanded_end := Z.min n (e + 5) in
  let expanded_text := get_line_text self expanded_start expanded_end in
  let recovery_start := Z.max 1 (s - 20) in
  let recovery_end := Z.min n (e + 20) in
  let best := fst (best_match quotes (match_types quotes expanded_text)) in
  let run := run_validate_fact self fact idx chunk_text in
  (Forall (fun quote => fst (find_quote_in_text quote expanded_text) = true) quotes ->
   is_valid (fst run) = true
   /\ actual_line_range (fst run)
      = lit "Lines " ++ str_of_int expanded_start ++ lit "-"
          ++ str_of_int expanded_end ++ lit " (expanded search)"
   /\ snd run = [])
  /\ (Exists (fun quote => fst (find_quote_in_text quote expanded_text) = false) quotes ->
      (snd run <> [] <-> F.leb F.c0_4 best = true /\ F.ltb best F.c0_7 = true)
      /\ (forall call, In call (snd run) ->
            snd run = [call]
            /\ rc_search_context call = get_line_text self recovery_start recovery_end
            /\ rc_start_line call = recovery_start
            /\ rc_end_line call = recovery_end))
  /\ (forall quote, In quote quotes ->
        label_ratio (snd (find_quote_in_text quote expanded_text))
        = if str_in (normalize_text quote) (normalize_text expanded_text) then None
          else option_map (fun p => F.truediv p 100)
                 (printed_percent
                    (match_ratio (split_ws (normalize_text quote))
                       (split_ws (normalize_text expanded_text)))))
  /\ (forall quote ratio, In quote quotes ->
        label_ratio (snd (find_quote_in_text quote expanded_text)) = Some ratio ->
        F.ltb best ratio = false)
  /\ (best = F.zero
      \/ exists quote,
           In quote quotes
           /\ label_ratio (snd (find_quote_in_text quote expanded_text)) = Some best)
  /\ (forall p, 0 <= p <= 100 -> best = F.truediv p 100 ->
        (F.leb F.c0_4 best = true /\ F.ltb best F.c0_7 = true <-> 40 <= p < 70)).
Proof.
  intros Hascii Hc Hq Hp Hfail quotes n expanded_start expanded_end expanded_text
    recovery_start recovery_end best run.
  subst run.
  rewrite (run_widened self fact idx chunk_text s e Hc Hq Hp (not_all_found _ _ Hfail)).
  cbv zeta. fold quotes n. fold expanded_start expanded_end. fold expanded_text.
  fold recovery_start recovery_end. fold best.
  destruct (best_match_reading quotes expanded_text Hascii) as [Hgreatest Hattained].
  fold best in Hgreatest, Hattained.
  split; [|split; [|split; [|split; [|split]]]].
  - intros Hall. apply all_found_Forall in Hall. rewrite Hall.
    simpl. unfold render_lines. rewrite <- !app_assoc. repeat split.
  - intros Hno. rewrite (not_all_found _ _ Hno). unfold medium_confidence.
    destruct (F.leb F.c0_4 best && F.ltb best F.c0_7) eqn:Hband.
    + apply andb_prop in Hband.
      destruct (attempt_fact_recovery self _ _ _ recovery_start recovery_end)
        as [[corrected_quote corrected_location]|]; simpl.
      * split; [split; [intros _; exact Hband|intros _; discriminate]|].
        intros call [<-|[]]. repeat split.
      * split; [split; [intros _; exact Hband|intros _; discriminate]|].
        intros call [<-|[]]. repeat split.
    + simpl. split.
      * split; [intros Hne; contradiction|].
        intros [H4 H7]. rewrite H4, H7 in Hband. discriminate.
      * intros call [].
  - intros quote _. apply (label_reading quote expanded_text Hascii).
  - intros quote ratio Hin Hread. apply (Hgreatest quote ratio Hin).
    rewrite <- (label_reading quote expanded_text Hascii). exact Hread.
  - destruct Hattained as [Hzero|(quote & Hin & Hread)]; [left; exact Hzero|right].
    exists quote. split; [exact Hin|].
    rewrite (label_reading quote expanded_text Hascii). exact Hread.
  - intros p Hrange ->. pose proof (medium_confidence_percent p Hrange) as Hband.
    unfold medium_confidence in Hband. split.
    + intros [H4 H7]. rewrite H4, H7 in Hband. symmetry in Hband.
      apply andb_prop in Hband as [Hlow Hhigh].
      apply Z.leb_le in Hlow. apply Z.ltb_lt in Hhigh. lia.
    + intros [Hlow Hhigh]. apply Z.leb_le in Hlow. apply Z.ltb_lt in Hhigh.
      rewrite Hlow, Hhigh in Hband. apply andb_prop in Hband. exact Hband.
Qed.

(** *** Recovery *)

Lemma recovery_of_result_Some (result : json) (search_context : pystr)
    (start_line end_line : Z) (quote location : pystr) :
  recovery_of_result result search_context start_line end_line
    = Some (quote, location) ->
  exists kv,
    result = JDict kv
    /\ truthy (get (assoc (lit "found") kv) JNull) = true
    /\ ge_0_8 (get (assoc (lit "confidence") kv) (JInt 0)) = Some true
    /\ assoc (lit "quote") kv = Some (JStr quote)
    /\ fst (find_quote_in_text quote search_context) = true
    /\ location = render_lines start_line end_line.
Proof.
  unfold recovery_of_result. intros Hrec.
  destruct result as [| | | | |l|kv]; try discriminate Hrec.
  exists kv.
  destruct (truthy (get (assoc (lit "found") kv) JNull)); [|discriminate Hrec].
  destruct (ge_0_8 (get (assoc (lit "confidence") kv) (JInt 0))) as [[|]|];
    try discriminate Hrec.
  destruct (assoc (lit "quote") kv) as [[| | | |recovered| |]|]; try discriminate Hrec.
  destruct (fst (find_quote_in_text recovered search_context)) eqn:Hfound;
    [|discriminate Hrec].
  destruct (percent_formattable _); [|discriminate Hrec].
  injection Hrec as <- <-. repeat split; assumption.
Qed.

(** A recovery call that returns nothing leaves the fact rejected. *)
Lemma failed_recovery_rejects (self : FactValidator) (fact : Fact.t) (idx : Z)
    (chunk_text : option pystr) (call : recovery_call) :
  In call (snd (run_validate_fact self fact idx chunk_text)) ->
  attempt_fact_recovery self (rc_claim call) (rc_original_quote call)
    (rc_search_context call) (rc_start_line call) (rc_end_line call) = None ->
  is_valid (validate_fact self fact idx chunk_text) = false.
Proof.
  unfold validate_fact.
  destruct (quotes_to_validate fact) as [|q qs] eqn:Hq.
  { unfold run_validate_fact. rewrite Hq. intros []. }
  assert (Hne : quotes_to_validate fact <> []) by (rewrite Hq; discriminate).
  destruct (get chunk_text []) as [|c chunk] eqn:Hc.
  2:{ destruct chunk_text as [chunk'|]; [|discriminate Hc]. simpl in Hc. subst chunk'.
      rewrite (run_chunk self fact idx (c :: chunk)); [|discriminate|exact Hne].
      cbv zeta. destruct (all_found _ _); intros []. }
  destruct (parse_line_range (get (Fact.source_location fact) [])) as [[s e]|] eqn:Hp.
  2:{ unfold run_validate_fact. rewrite Hq, Hc, Hp. intros []. }
  destruct (all_found (quotes_to_validate fact) (get_line_text self s e)) eqn:Hexact.
  { rewrite (run_exact self fact idx chunk_text s e Hc Hne Hp Hexact). intros []. }
  rewrite (run_widened self fact idx chunk_text s e Hc Hne Hp Hexact). cbv zeta.
  clear Hexact.
  destruct (all_found _ _); [simpl; intros []|].
  destruct (medium_confidence _); [|simpl; intros []].
  destruct (attempt_fact_recovery self _ _ _ _ _) as [[cq cl]|] eqn:Hrec.
  - simpl. intros [<-|[]]. simpl. rewrite Hrec. discriminate.
  - reflexivity.
Qed.

(** A fact marked as recovered carries the quote that recovery returned
    and, as its location, the line range of the recovery window. *)
Lemma recovered_fact (self : FactValidator) (fact : Fact.t) (idx : Z)
    (chunk_text : option pystr) :
  let result := validate_fact self fact idx chunk_text in
  was_recovered result = true ->
  exists s e quote call,
    parse_line_range (get (Fact.source_location fact) []) = Some (s, e)
    /\ snd (run_validate_fact self fact idx chunk_text) = [call]
    /\ rc_start_line call = Z.max 1 (s - 20)
    /\ rc_end_line call = Z.min (len (lines self)) (e + 20)
    /\ rc_search_context call
       = get_line_text self (rc_start_line call) (rc_end_line call)
    /\ attempt_fact_recovery self (rc_claim call) (rc_original_quote call)
         (rc_search_context call) (rc_start_line call) (rc_end_line call)
       = Some (quote, render_lines (rc_start_line call) (rc_end_line call))
    /\ fst (find_quote_in_text quote (rc_search_context call)) = true
    /\ is_valid result = true
    /\ corrected_quote result = Some quote
    /\ corrected_location result
       = Some (render_lines (rc_start_line call) (rc_end_line call))
    /\ actual_line_range result
       = render_lines (rc_start_line call) (rc_end_line call).
Proof.
  unfold validate_fact. cbv zeta.
  destruct (quotes_to_validate fact) as [|q qs] eqn:Hq.
  { unfold run_validate_fact. rewrite Hq. discriminate. }
  assert (Hne : quotes_to_validate fact <> []) by (rewrite Hq; discriminate).
  destruct (get chunk_text []) as [|c chunk] eqn:Hc.
  2:{ destruct chunk_text as [chunk'|]; [|discriminate Hc]. simpl in Hc. subst chunk'.
      rewrite (run_chunk self fact idx (c :: chunk)); [|discriminate|exact Hne].
      cbv zeta. destruct (all_found _ _); discriminate. }
  destruct (parse_line_range (get (Fact.source_location fact) [])) as [[s e]|] eqn:Hp.
  2:{ rewrite (unparseable_location_rejected self fact idx chunk_text Hc Hne Hp).
      discriminate. }
  destruct (all_found (quotes_to_validate fact) (get_line_text self s e)) eqn:Hexact.
  { rewrite (run_exact self fact idx chunk_text s e Hc Hne Hp Hexact). discriminate. }
  rewrite (run_widened self fact idx chunk_text s e Hc Hne Hp Hexact). cbv zeta.
  clear Hexact.
  destruct (all_found _ _); [discriminate|].
  destruct (medium_confidence _); [|discriminate].
  destruct (attempt_fact_recovery self _ _ _ _ _) as [[quote location]|] eqn:Hrec;
    [|discriminate].
  intros _. simpl.
  assert (Hloc : location
                 = render_lines (Z.max 1 (s - 20)) (Z.min (len (lines self)) (e + 20))
                 /\ fst (find_quote_in_text quote
                           (get_line_text self (Z.max 1 (s - 20))
                              (Z.min (len (lines self)) (e + 20)))) = true).
  { unfold attempt_fact_recovery in Hrec.
    destruct (claude_client self) as [prompt|]; [|discriminate].
    destruct (prompt _) as [response|]; [|discriminate].
    destruct (json_loads _) as [result|]; [|discriminate].
    apply recovery_of_result_Some in Hrec as (kv & _ & _ & _ & _ & Hfound & Hl).
    split; assumption. }
  destruct Hloc as [-> Hfound].
  eexists s, e, quote, _. repeat split; try reflexivity; simpl; assumption.
Qed.

(** When the completion service answers and its reply parses,
    recovery returns a quote only if the parsed reply is a dictionary whose
    [found] is true, whose [confidence] is at least 0.8, and whose [quote]
    is found again by [find_quote_in_text] in the same window; the location
    returned is then the line range of the window.  If that quote is not
    found in the window, recovery returns nothing, whatever [found] and
    [confidence] say, and the fact for which it was called is rejected. *)
Lemma recovery_rechecks_the_reply (self : FactValidator)
    (claim original_quote search_context : pystr) (start_line end_line : Z)
    (prompt : client) (response : pystr) (result : json) :
  claude_client self = Some prompt ->
  prompt (recovery_prompt claim original_quote search_context start_line end_line)
    = Some response ->
  json_loads (unfence response) = Some result ->
  let outcome :=
    attempt_fact_recovery self claim original_quote search_context
      start_line end_line in
  (forall quote location, outcome = Some (quote, location) ->
     exists kv,
       result = JDict kv
       /\ truthy (get (assoc (lit "found") kv) JNull) = true
       /\ ge_0_8 (get (assoc (lit "confidence") kv) (JInt 0)) = Some true
       /\ assoc (lit "quote") kv = Some (JStr quote)
       /\ fst (find_quote_in_text quote search_context) = true
       /\ location = lit "Lines " ++ str_of_int start_line ++ lit "-"
                       ++ str_of_int end_line)
  /\ (forall kv quote,
        result = JDict kv ->
        assoc (lit "quote") kv = Some (JStr quote) ->
        fst (find_quote_in_text quote search_context) = false ->
        outcome = None
        /\ forall fact idx chunk_text,
             In {| rc_claim := claim; rc_original_quote := original_quote;
                   rc_search_context := search_context;
                   rc_start_line := start_line; rc_end_line := end_line |}
                (snd (run_validate_fact self fact idx chunk_text)) ->
             is_valid (validate_fact self fact idx chunk_text) = false).
Proof.
  intros Hclient Hreply Hparse outcome.
  assert (Hout : outcome
                 = recovery_of_result result search_context start_line end_line).
  { subst outcome. unfold attempt_fact_recovery.
    rewrite Hclient, Hreply, Hparse. reflexivity. }
  split.
  - intros quote location Hsome. rewrite Hout in Hsome.
    apply recovery_of_result_Some in Hsome. exact Hsome.
  - intros kv quote Hkv Hquote Hfound.
    assert (Hnone : outcome = None).
    { rewrite Hout.
      destruct (recovery_of_result result search_context start_line end_line)
        as [[quote' location]|] eqn:Hsome; [|reflexivity].
      apply recovery_of_result_Some in Hsome as (kv' & Hkv' & _ & _ & Hq' & Hf' & _).
      rewrite Hkv in Hkv'. injection Hkv' as <-. rewrite Hquote in Hq'.
      injection Hq' as <-. rewrite Hfound in Hf'. discriminate. }
    split; [exact Hnone|].
    intros fact idx chunk_text Hin.
    apply (failed_recovery_rejects self fact idx chunk_text _ Hin). exact Hnone.
Qed.

(** *** All the facts of a batch *)

Lemma nth_error_combine_seq {A : Type} (l : list A) (start i : nat) :
  nth_error (combine (seq start (List.length l)) l) i
  = option_map (fun x => ((start + i)%nat, x)) (nth_error l i).
Proof.
  revert start i. induction l as [|x l IH]; intros start i; simpl.
  - destruct i; reflexivity.
  - destruct i as [|i]; simpl.
    + rewrite Nat.add_0_r. reflexivity.
    + rewrite IH. rewrite Nat.add_succ_r. reflexivity.
Qed.

Lemma validate_facts_length (self : FactValidator) (facts : list Fact.t) :
  List.length (validate_facts self facts) = List.length facts.
Proof.
  unfold validate_facts, enumerate.
  rewrite length_map, length_combine, length_seq. apply Nat.min_id.
Qed.

Lemma filter_length_le {A : Type} (f : A -> bool) (l : list A) :
  (List.length (filter f l) <= List.length l)%nat.
Proof.
  induction l as [|x l IH]; simpl; [lia|]. destruct (f x); simpl; lia.
Qed.

(** C9. [validate_facts] returns one result for each fact, in the order
    of the facts: the result at position [i] is that of the fact at
    position [i].  The statistics count them all, and the rate is
    [valid_facts / total_facts], or 0 when there is no fact. *)
Theorem one_result_per_fact (self : FactValidator) (fact_files : list (list Fact.t)) :
  let facts := List.concat fact_files in
  let results := fst (validate_session self fact_files) in
  let stats := snd (validate_session self fact_files) in
  results = validate_facts self facts
  /\ List.length results = List.length facts
  /\ (forall i, nth_error results i
                = option_map (fun fact => validate_fact self fact (Z.of_nat i) None)
                    (nth_error facts i))
  /\ total_facts stats = len facts
  /\ valid_facts stats + invalid_facts stats = total_facts stats
  /\ 0 <= valid_facts stats <= total_facts stats
  /\ validation_rate stats
     = if total_facts stats =? 0 then Int 0
       else Float (F.truediv (valid_facts stats) (total_facts stats)).
Proof.
  intros facts results stats. subst results stats. simpl. fold facts.
  pose proof (validate_facts_length self facts) as Hlen.
  split; [reflexivity|]. split; [exact Hlen|]. split.
  - intros i. unfold validate_facts, enumerate.
    rewrite nth_error_map, nth_error_combine_seq.
    destruct (nth_error facts i); reflexivity.
  - unfold len. rewrite Hlen. split; [reflexivity|]. split; [lia|]. split.
    + pose proof (filter_length_le is_valid (validate_facts self facts)). lia.
    + destruct (validate_facts self facts) as [|r rs] eqn:Hres; simpl in Hlen.
      * rewrite <- Hlen. reflexivity.
      * rewrite <- Hlen. reflexivity.
Qed.

(** *** The partial match *)

Lemma match_step_invariant (quote_words text_words : list pystr) (i k : nat) :
  (k <= i <= List.length quote_words)%nat ->
  (snd (fold_left (match_step quote_words) text_words (i, k))
   <= fst (fold_left (match_step quote_words) text_words (i, k))
   <= List.length quote_words)%nat.
Proof.
  revert i k. induction text_words as [|w ws IH]; intros i k Hik; simpl; [exact Hik|].
  destruct (Nat.ltb_spec i (List.length quote_words)) as [Hlt|Hge]; simpl.
  - destruct (str_eqb _ _); apply IH; lia.
  - apply IH; lia.
Qed.

Lemma matched_words_le (quote_words text_words : list pystr) :
  (matched_words quote_words text_words <= List.length quote_words)%nat.
Proof.
  unfold matched_words.
  pose proof (match_step_invariant quote_words text_words 0 0). lia.
Qed.

Lemma split_ws_nil (s : pystr) : split_ws s = [] -> forallb is_space s = true.
Proof.
  induction s as [|c s IH]; simpl; [reflexivity|].
  destruct (is_space c); simpl; [exact IH|].
  destruct s as [|d s]; [discriminate|].
  destruct (is_space d); [discriminate|].
  destruct (split_ws (d :: s)); discriminate.
Qed.

Lemma lstrip_head (s : pystr) (c : char) (t : pystr) :
  lstrip s = c :: t -> is_space c = false.
Proof.
  induction s as [|a s IH]; simpl; [discriminate|].
  destruct (is_space a) eqn:Ha; [exact IH|].
  intros Heq. injection Heq as <- _. exact Ha.
Qed.

Lemma strip_spaces (s : pystr) : forallb is_space (strip s) = true -> strip s = [].
Proof.
  unfold strip, rstrip. intros Hall.
  destruct (lstrip (rev (lstrip s))) as [|c t] eqn:Hl; [reflexivity|].
  pose proof (lstrip_head _ _ _ Hl) as Hc.
  rewrite forallb_forall in Hall.
  rewrite (Hall c) in Hc; [discriminate|].
  apply in_rev. rewrite rev_involutive. left. reflexivity.
Qed.

(** A quote without a word normalizes to the empty string. *)
Lemma no_words_no_text (quote : pystr) :
  split_ws (normalize_text quote) = [] -> normalize_text quote = [].
Proof.
  intros Hw. apply split_ws_nil in Hw. unfold normalize_text in *.
  apply strip_spaces. exact Hw.
Qed.

(** C4. For a quote that is not an exact match and has fewer than [2^49]
    words, of which [matched] align in order with the words of the text:
    it is found when [matched / total >= 7/10], with the label
    [partial match (R%)]; when the ratio is exactly 7/10 the label reads
    [partial match (70%)]; and when the ratio is below 7/10 it is not
    found, with the label [not found (only R% match)]. *)
Theorem partial_match_threshold (quote text : pystr) :
  let quote_words := split_ws (normalize_text quote) in
  let text_words := split_ws (normalize_text text) in
  let matched := Z.of_nat (matched_words quote_words text_words) in
  let total := len quote_words in
  let percent := F.format_percent0 (F.truediv matched total) in
  str_in (normalize_text quote) (normalize_text text) = false ->
  total < 2 ^ 49 ->
  (7 * total <= 10 * matched ->
   find_quote_in_text quote text
   = (true, lit "partial match (" ++ percent ++ lit ")"))
  /\ (10 * matched = 7 * total ->
      find_quote_in_text quote text = (true, lit "partial match (70%)"))
  /\ (10 * matched < 7 * total ->
      find_quote_in_text quote text
      = (false, lit "not found (only " ++ percent ++ lit " match)")).
Proof.
  intros quote_words text_words matched total percent Hexact Hsize.
  assert (Hwords : quote_words <> []).
  { intros Hnil. apply no_words_no_text in Hnil.
    rewrite Hnil, str_in_nil in Hexact. discriminate. }
  assert (Htotal : 0 < total).
  { subst total. unfold len. destruct quote_words; [contradiction|simpl; lia]. }
  assert (Hmatched : 0 <= matched <= total).
  { subst matched total. unfold len.
    pose proof (matched_words_le quote_words text_words). lia. }
  assert (Hratio : match_ratio quote_words text_words = F.truediv matched total).
  { unfold match_ratio. destruct quote_words; [contradiction|reflexivity]. }
  assert (Hfind : find_quote_in_text quote text
                  = if 7 * total <=? 10 * matched
                    then (true, lit "partial match (" ++ percent ++ lit ")")
                    else (false, lit "not found (only " ++ percent ++ lit " match)")).
  { unfold find_quote_in_text. rewrite Hexact. cbv zeta.
    fold quote_words text_words. rewrite Hratio.
    rewrite (truediv_ge_0_7 matched total Hmatched (conj Htotal Hsize)).
    reflexivity. }
  rewrite Hfind. split; [|split].
  - intros Hge. destruct (Z.leb_spec (7 * total) (10 * matched)); [reflexivity|lia].
  - intros Heq. destruct (Z.leb_spec (7 * total) (10 * matched)); [|lia].
    subst percent.
    replace matched with (7 * (3 * matched - 2 * total)) by lia.
    replace total with (10 * (3 * matched - 2 * total)) at 2 by lia.
    rewrite truediv_7_10 by lia. reflexivity.
  - intros Hlt. destruct (Z.leb_spec (7 * total) (10 * matched)); [lia|reflexivity].
Qed.

End Properties.

(** ** The assumptions on the tables hold for the ASCII runtime *)

Lemma ascii_runtime_decimal_range (table : list (pystr * json)) :
  @decimal_range (ascii_runtime table).
Proof.
  intros c d. cbn. unfold ascii_decimal.
  destruct (N.leb_spec 48 c); cbn [andb]; [|discriminate].
  destruct (N.leb_spec c 57); [|discriminate].
  intros Hd. injection Hd as <-. lia.
Qed.

Lemma ascii_runtime_ascii_decimals (table : list (pystr * json)) :
  @ascii_decimals (ascii_runtime table).
Proof. intros c _. reflexivity. Qed.


Lemma exact_quotes_are_valid_witness :
  let result := @validate_fact (ascii_runtime []) test_validator fact_v5_single 1 None in
  is_valid result = true
  /\ was_recovered result = false
  /\ actual_line_range result = lit "Lines 3-3".
Proof.
  apply (@exact_quotes_are_valid (ascii_runtime []) test_validator
           fact_v5_single 1 None 3 3).
  - reflexivity.
  - discriminate.
  - vm_compute. reflexivity.
  - repeat constructor.
Defined.

Lemma recovery_rechecks_the_reply_witness :
  @attempt_fact_recovery mock_runtime mock_validator
     (lit "Backups are restored weekly") paraphrased_quote
     (get_line_text mock_validator 1 8) 1 8 = None
  /\ is_valid (@validate_fact mock_runtime mock_validator fact_paraphrased 0 None)
     = false.
Proof.
  destruct (@recovery_rechecks_the_reply mock_runtime mock_validator
              (lit "Backups are restored weekly") paraphrased_quote
              (get_line_text mock_validator 1 8) 1 8
              (fun _ => Some mock_reply) mock_reply mock_result)
    as [_ Hrecheck].
  - reflexivity.
  - reflexivity.
  - vm_compute. reflexivity.
  - destruct (Hrecheck _ absent_quote eq_refl) as [Hnone Hrejected].
    + vm_compute. reflexivity.
    + vm_compute. reflexivity.
    + split; [exact Hnone|]. apply Hrejected. vm_compute. left. reflexivity.
Defined.

Lemma chunk_mode_all_quotes_witness :
  let run := @run_validate_fact (ascii_runtime []) test_validator
               fact_v5_multi_invalid 3 (Some test_chunk) in
  is_valid (fst run) = false
  /\ error_message (fst run) = lit "1/2 quotes not found in chunk"
  /\ snd run = [].
Proof.
  destruct (@chunk_mode_all_quotes (ascii_runtime []) test_validator
              fact_v5_multi_invalid 3 test_chunk)
    as (_ & Hfailed & Hcalls).
  - discriminate.
  - discriminate.
  - destruct Hfailed as [Hinvalid Hmessage]; [vm_compute; reflexivity|].
    split; [exact Hinvalid|]. split; [exact Hmessage|exact Hcalls].
Defined.

Lemma partial_match_threshold_witness :
  @find_quote_in_text (ascii_runtime []) ten_word_quote seven_word_text
  = (true, lit "partial match (70%)").
Proof.
  destruct (@partial_match_threshold (ascii_runtime []) ten_word_quote
              seven_word_text) as (_ & Hexactly & _).
  - vm_compute. reflexivity.
  - vm_compute. reflexivity.
  - apply Hexactly. vm_compute. reflexivity.
Defined.

Lemma widened_search_then_recovery_witness :
  let run := @run_validate_fact (ascii_runtime []) test_validator
               fact_off_by_two 0 None in
  let attempted := @run_validate_fact mock_runtime mock_validator
                     fact_paraphrased 0 None in
  (is_valid (fst run) = true
   /\ actual_line_range (fst run) = lit "Lines 1-7 (expanded search)"
   /\ snd run = [])
  /\ snd attempted <> [].
Proof.
  split.
  - destruct (@widened_search_then_recovery (ascii_runtime []) test_validator
                fact_off_by_two 0 None 2 2) as [Hexpanded _].
    + apply ascii_runtime_ascii_decimals.
    + reflexivity.
    + discriminate.
    + vm_compute. reflexivity.
    + apply Exists_cons_hd. vm_compute. reflexivity.
    + apply Hexpanded. repeat constructor.
  - destruct (@widened_search_then_recovery mock_runtime mock_validator
                fact_paraphrased 0 None 2 2) as (_ & Hrecovery & _).
    + apply ascii_runtime_ascii_decimals.
    + reflexivity.
    + discriminate.
    + vm_compute. reflexivity.
    + apply Exists_cons_hd. vm_compute. reflexivity.
    + destruct Hrecovery as [Hband _].
      * apply Exists_cons_hd. vm_compute. reflexivity.
      * apply Hband. split; vm_compute; reflexivity.
Defined.

Lemma line_range_is_clamped_witness :
  get_line_text test_validator 7 10000 = List.concat (skipn 6 test_lines).
Proof.
  destruct (line_range_is_clamped test_validator 7 10000) as (_ & Hbeyond & _).
  - lia.
  - apply Hbeyond. vm_compute. discriminate.
Defined.

Lemma blank_quotes_are_accepted_witness :
  @find_quote_in_text (ascii_runtime []) (lit "   ") (get_line_text test_validator 4 4)
  = (true, lit "exact match")
  /\ is_valid (@validate_fact (ascii_runtime []) test_validator fact_blank_quote 0 None)
     = true.
Proof.
  destruct (@blank_quotes_are_accepted (ascii_runtime []) test_validator
              fact_blank_quote 0 None [EvDict (Some (lit "   "))])
    as [Hexact Hvalid].
  - reflexivity.
  - discriminate.
  - repeat constructor.
  - right. vm_compute. discriminate.
  - split; [|exact Hvalid].
    apply (Hexact (EvDict (Some (lit "   ")))). left. reflexivity.
Defined.

(** C6. [parse_line_range] reads the keyword with its capital only: the
    third line cited as [lines 3-3] is rejected for its location, while the
    same fact cited as [Lines 3-3] is valid.  The capitalized forms
    [Lines 10-20] and [Line 15] parse to [(10, 20)] and [(15, 15)]. *)
Theorem lowercase_keyword_is_rejected :
  @parse_line_range (ascii_runtime []) (lit "lines 3-3") = None
  /\ @parse_line_range (ascii_runtime []) (lit "Lines 3-3") = Some (3, 3)
  /\ @parse_line_range (ascii_runtime []) (lit "Lines 10-20") = Some (10, 20)
  /\ @parse_line_range (ascii_runtime []) (lit "Line 15") = Some (15, 15)
  /\ @run_validate_fact (ascii_runtime []) test_validator fact_lowercase_location 0 None
     = (rejected 0 (lit "Backups encrypted with AES-256")
          (lit "Invalid location format: lines 3-3") [] [], [])
  /\ is_valid (@validate_fact (ascii_runtime []) test_validator fact_v5_single 0 None)
     = true.
Proof. repeat split; vm_compute; reflexivity. Qed.

(** C7. With two failing quotes whose labels in the widened window read
    0% and 50%, the best ratio the validator computes is 0.5, and the
    message of the rejection quotes the label of the first quote, 0%. *)
Theorem first_label_reported_as_best :
  let quotes := quotes_to_validate fact_two_failing in
  let labels := @match_types (ascii_runtime []) quotes (get_line_text test_validator 1 7) in
  let result := @validate_fact (ascii_runtime []) test_validator fact_two_failing 0 None in
  labels = [lit "not found (only 0% match)"; lit "not found (only 50% match)"]
  /\ fst (@best_match (ascii_runtime []) quotes labels) = F.truediv 50 100
  /\ is_valid result = false
  /\ error_message result
     = lit "2/2 quotes not found in specified lines or nearby (best match: not found (only 0% match))".
Proof. repeat split; vm_compute; reflexivity. Qed.

(** With a negative end, which no reader of a location passes, the
    slice counts from the end of the document: [get_line_text 1 (-1)] is
    the text of the first seven of the eight lines. *)
Remark negative_end_wraps_around :
  get_line_text test_validator 1 (-1) = List.concat (firstn 7 test_lines)
  /\ get_line_text test_validator 1 (-1) <> []
  /\ clamped_range_text test_lines (Z.max 1 1) (Z.min (len test_lines) (-1)) = [].
Proof.
  split; [vm_compute; reflexivity|]. split; [vm_compute; discriminate|].
  vm_compute. reflexivity.
Qed.

(** C1. The quotation marks that [normalize_text] replaces are not the
    typographic ones: a quote with the marks U+201C and U+201D is left as it
    is.  So the sentence of line 2, cited with these marks where the line has
    straight ones, is not found in that line (three of its nine words
    align) and the fact is rejected, while the same fact with straight marks
    is valid. *)
Theorem curly_quotes_are_not_normalized :
  let validate := @validate_fact (ascii_runtime []) quoting_validator in
  normalize_text curly_quote = curly_quote
  /\ @find_quote_in_text (ascii_runtime []) curly_quote
       (get_line_text quoting_validator 2 2)
     = (false, lit "not found (only 33% match)")
  /\ is_valid (validate fact_curly 0 None) = false
  /\ error_message (validate fact_curly 0 None)
     = lit "1/1 quotes not found in specified lines or nearby (best match: not found (only 33% match))"
  /\ is_valid (validate fact_straight 0 None) = true
  /\ actual_line_range (validate fact_straight 0 None) = lit "Lines 2-2".
Proof. repeat split; vm_compute; reflexivity. Qed.

(** C2. The quote of a reply is checked with [find_quote_in_text], which
    finds a quote as soon as 70% of its words align.  A reply that states
    with confidence 0.95 a sentence that is nowhere in the document, not
    even after normalisation, but seven of whose nine words align with the
    second line, is accepted: recovery returns it and the fact is valid,
    marked as recovered, with that sentence as its corrected quote. *)
Theorem absent_quote_is_recovered :
  let context := get_line_text near_validator 1 8 in
  let result := @validate_fact near_runtime near_validator fact_paraphrased 0 None in
  context = List.concat test_lines
  /\ str_in near_quote context = false
  /\ str_in (normalize_text near_quote) (normalize_text context) = false
  /\ @find_quote_in_text near_runtime near_quote context
     = (true, lit "partial match (78%)")
  /\ @attempt_fact_recovery near_runtime near_validator
       (lit "Backups are restored weekly") paraphrased_quote context 1 8
     = Some (near_quote, lit "Lines 1-8")
  /\ is_valid result = true
  /\ was_recovered result = true
  /\ corrected_quote result = Some near_quote.
Proof. repeat split; vm_compute; reflexivity. Qed.

(** C3. A chunk text that is supplied but empty is not used: the fact is
    validated against the document.  Such a chunk is what [chunk_text] gives
    for the last line of a text that ends with a line feed, when chunks do
    not overlap.  With it, a fact whose quote is in its claimed lines of the
    document is valid, though the quote is not found in the chunk; and for
    a fact whose quote is not found, the message is that of the document
    and recovery is attempted. *)
Theorem empty_chunk_is_not_used :
  let found := @run_validate_fact (ascii_runtime []) test_validator
                 fact_v5_single 1 (Some []) in
  let missed := @run_validate_fact mock_runtime mock_validator
                  fact_paraphrased 0 (Some []) in
  (exists chunks,
     chunk_text 4 plain_extractor test_text = Some chunks
     /\ In (2, [], 9, 9) chunks)
  /\ @all_found (ascii_runtime []) (quotes_to_validate fact_v5_single) [] = false
  /\ is_valid (fst found) = true
  /\ actual_line_range (fst found) = lit "Lines 3-3"
  /\ is_valid (fst missed) = false
  /\ error_message (fst missed)
     = lit "1/1 quotes not found in specified lines or nearby (best match: not found (only 50% match))"
  /\ List.length (snd missed) = 1%nat.
Proof.
  split.
  - eexists. split; [vm_compute; reflexivity|]. right. right. left. reflexivity.
  - repeat split; vm_compute; reflexivity.
Qed.

(** The band of recovery is tested on the percentage printed in the
    label, not on the match ratio:
    with 16 of 23 words aligned the ratio is between 0.4 and 0.7, the label
    reads 70% and recovery is not attempted; with 17 of 43 words aligned the
    ratio is below 0.4, the label reads 40% and recovery is attempted. *)
Lemma band_is_tested_on_the_printed_percentage :
  let run_16 := @run_validate_fact mock_runtime validator_16 fact_23 0 None in
  let ratio_16 :=
    @match_ratio mock_runtime (split_ws (normalize_text quote_23))
      (split_ws (normalize_text (get_line_text validator_16 1 1))) in
  let run_17 := @run_validate_fact mock_runtime validator_17 fact_43 0 None in
  let ratio_17 :=
    @match_ratio mock_runtime (split_ws (normalize_text quote_43))
      (split_ws (normalize_text (get_line_text validator_17 1 1))) in
  (ratio_16 = F.truediv 16 23
   /\ F.leb F.c0_4 ratio_16 = true /\ F.ltb ratio_16 F.c0_7 = true
   /\ is_valid (fst run_16) = false
   /\ error_message (fst run_16)
      = lit "1/1 quotes not found in specified lines or nearby (best match: not found (only 70% match))"
   /\ snd run_16 = [])
  /\ (ratio_17 = F.truediv 17 43
      /\ F.leb F.c0_4 ratio_17 = false
      /\ is_valid (fst run_17) = false
      /\ error_message (fst run_17)
         = lit "1/1 quotes not found in specified lines or nearby (best match: not found (only 40% match))"
      /\ List.length (snd run_17) = 1%nat).
Proof. repeat split; vm_compute; reflexivity. Qed.

(** The five cases of [test_v5_validation.py] come out as the test
    expects (valid, valid, valid, rejected, valid), and so does the second
    scenario of the spec (rejected, one of one quote not found). *)
Example repository_tests :
  let validate := @validate_fact (ascii_runtime []) test_validator in
  is_valid (validate fact_v4 0 None) = true
  /\ is_valid (validate fact_v5_single 1 None) = true
  /\ is_valid (validate fact_v5_multi_valid 2 None) = true
  /\ is_valid (validate fact_v5_multi_invalid 3 None) = false
  /\ is_valid (validate fact_v5_multi_valid 4 (Some test_chunk)) = true
  /\ is_valid (validate fact_failover 5 None) = false
  /\ error_message (validate fact_failover 5 None)
     = lit "1/1 quotes not found in specified lines or nearby (best match: not found (only 0% match))".
Proof. repeat split; vm_compute; reflexivity. Qed.

(** * Further properties *)

Section Further.
Context `{Runtime}.

(** ** Accepted and rejected facts *)

Lemma app_lit_nonempty (a b : pystr) : b <> [] -> a ++ b <> [].
Proof. intros Hb Hab. apply app_eq_nil in Hab as [_ Hb']. contradiction. Qed.

(** X1. Whatever the fact, the result of [validate_fact] carries the index
    it was given and the first 80 characters of the claim; it has an error
    message exactly when it is invalid; and it holds a corrected quote and
    a corrected location exactly when it is marked as recovered, in which
    case it is valid. *)
Theorem result_is_well_formed (self : FactValidator) (fact : Fact.t) (idx : Z)
    (chunk_text : option pystr) :
  let result := validate_fact self fact idx chunk_text in
  fact_index result = idx
  /\ claim result = take 80 (get (Fact.claim fact) [])
  /\ (is_valid result = false <-> error_message result <> [])
  /\ (was_recovered result = true -> is_valid result = true)
  /\ (was_recovered result = true <-> corrected_quote result <> None)
  /\ (was_recovered result = true <-> corrected_location result <> None).
Proof.
  assert (Hrejected : forall i c m l q,
            let r := rejected i c m l q in
            m <> [] ->
            fact_index r = i /\ claim r = c
            /\ (is_valid r = false <-> error_message r <> [])
            /\ (was_recovered r = true -> is_valid r = true)
            /\ (was_recovered r = true <-> corrected_quote r <> None)
            /\ (was_recovered r = true <-> corrected_location r <> None)).
  { intros i c m l q r Hm. simpl. repeat split; try discriminate; try tauto;
      intros Hn; contradiction. }
  assert (Haccepted : forall i c l q,
            let r := accepted i c l q in
            fact_index r = i /\ claim r = c
            /\ (is_valid r = false <-> error_message r <> [])
            /\ (was_recovered r = true -> is_valid r = true)
            /\ (was_recovered r = true <-> corrected_quote r <> None)
            /\ (was_recovered r = true <-> corrected_location r <> None)).
  { intros i c l q r. simpl. repeat split; try discriminate; try tauto;
      intros Hn; contradiction. }
  unfold validate_fact. cbv zeta.
  destruct (quotes_to_validate fact) as [|q qs] eqn:Hq.
  { unfold run_validate_fact. rewrite Hq. apply Hrejected. discriminate. }
  assert (Hne : quotes_to_validate fact <> []) by (rewrite Hq; discriminate).
  destruct (get chunk_text []) as [|c chunk] eqn:Hc.
  2:{ destruct chunk_text as [chunk'|]; [|discriminate Hc]. simpl in Hc. subst chunk'.
      rewrite (run_chunk self fact idx (c :: chunk)); [|discriminate|exact Hne].
      cbv zeta. destruct (all_found _ _); [apply Haccepted|apply Hrejected].
      apply app_lit_nonempty. discriminate. }
  destruct (parse_line_range (get (Fact.source_location fact) [])) as [[s e]|] eqn:Hp.
  2:{ rewrite (unparseable_location_rejected self fact idx chunk_text Hc Hne Hp).
      apply Hrejected. discriminate. }
  destruct (all_found (quotes_to_validate fact) (get_line_text self s e)) eqn:Hexact.
  { rewrite (run_exact self fact idx chunk_text s e Hc Hne Hp Hexact). apply Haccepted. }
  rewrite (run_widened self fact idx chunk_text s e Hc Hne Hp Hexact). cbv zeta.
  clear Hexact.
  assert (Hmsg : forall a b c : pystr, a ++ lit " quotes not found in specified lines or nearby" ++ b <> []).
  { intros a b c'. apply app_lit_nonempty. discriminate. }
  destruct (all_found _ _); [apply Haccepted|].
  destruct (medium_confidence _); [|apply Hrejected; apply Hmsg; exact []].
  destruct (attempt_fact_recovery self _ _ _ _ _) as [[cq cl]|];
    [|apply Hrejected; apply Hmsg; exact []].
  simpl. repeat split; try discriminate; try reflexivity; intros Hn; contradiction.
Qed.

(** A result marked as recovered comes from a call of recovery that
    returned a quote. *)
Lemma recovered_result_has_call (self : FactValidator) (fact : Fact.t) (idx : Z)
    (chunk_text : option pystr) :
  was_recovered (validate_fact self fact idx chunk_text) = true ->
  exists call quote,
    attempt_fact_recovery self (rc_claim call) (rc_original_quote call)
      (rc_search_context call) (rc_start_line call) (rc_end_line call)
    = Some quote.
Proof.
  unfold validate_fact.
  destruct (quotes_to_validate fact) as [|q qs] eqn:Hq.
  { unfold run_validate_fact. rewrite Hq. discriminate. }
  assert (Hne : quotes_to_validate fact <> []) by (rewrite Hq; discriminate).
  destruct (get chunk_text []) as [|c chunk] eqn:Hc.
  2:{ destruct chunk_text as [chunk'|]; [|discriminate Hc]. simpl in Hc. subst chunk'.
      rewrite (run_chunk self fact idx (c :: chunk)); [|discriminate|exact Hne].
      cbv zeta. destruct (all_found _ _); discriminate. }
  destruct (parse_line_range (get (Fact.source_location fact) [])) as [[s e]|] eqn:Hp.
  2:{ rewrite (unparseable_location_rejected self fact idx chunk_text Hc Hne Hp).
      discriminate. }
  destruct (all_found (quotes_to_validate fact) (get_line_text self s e)) eqn:Hexact.
  { rewrite (run_exact self fact idx chunk_text s e Hc Hne Hp Hexact). discriminate. }
  rewrite (run_widened self fact idx chunk_text s e Hc Hne Hp Hexact). cbv zeta.
  clear Hexact.
  destruct (all_found _ _); [discriminate|].
  destruct (medium_confidence _); [|discriminate].
  destruct (attempt_fact_recovery self _ _ _ _ _) as [quote|] eqn:Hrec; [|discriminate].
  intros _.
  eexists {| rc_claim := _; rc_original_quote := _; rc_search_context := _;
             rc_start_line := _; rc_end_line := _ |}, quote.
  simpl. exact Hrec.
Qed.

(** X2. A fact is accepted only on evidence: if the result is valid, the
    fact has a quote, and either every quote is found in the (non-empty)
    chunk, or the location parses and every quote is found in the claimed
    lines, or every quote is found in the lines widened by 5, or the fact
    was recovered with a quote that is found in the lines widened by 20. *)
Theorem accepted_facts_are_grounded (self : FactValidator) (fact : Fact.t)
    (idx : Z) (chunk_text : option pystr) :
  let result := validate_fact self fact idx chunk_text in
  let quotes := quotes_to_validate fact in
  let n := len (lines self) in
  let found_in text :=
    Forall (fun quote => fst (find_quote_in_text quote text) = true) quotes in
  is_valid result = true ->
  quotes <> []
  /\ ((exists chunk, chunk_text = Some chunk /\ chunk <> []
                     /\ found_in chunk /\ was_recovered result = false)
      \/ (get chunk_text [] = []
          /\ exists s e,
               parse_line_range (get (Fact.source_location fact) []) = Some (s, e)
               /\ ((found_in (get_line_text self s e)
                    /\ was_recovered result = false)
                   \/ (found_in (get_line_text self (Z.max 1 (s - 5)) (Z.min n (e + 5)))
                       /\ was_recovered result = false)
                   \/ (was_recovered result = true
                       /\ exists quote,
                            corrected_quote result = Some quote
                            /\ fst (find_quote_in_text quote
                                      (get_line_text self (Z.max 1 (s - 20))
                                         (Z.min n (e + 20)))) = true)))).
Proof.
  unfold validate_fact. cbv zeta.
  destruct (quotes_to_validate fact) as [|q qs] eqn:Hq.
  { unfold run_validate_fact. rewrite Hq. discriminate. }
  assert (Hne : quotes_to_validate fact <> []) by (rewrite Hq; discriminate).
  rewrite <- Hq in *. clear Hq q qs.
  destruct (get chunk_text []) as [|c chunk] eqn:Hc.
  2:{ destruct chunk_text as [chunk'|]; [|discriminate Hc]. simpl in Hc. subst chunk'.
      rewrite (run_chunk self fact idx (c :: chunk)); [|discriminate|exact Hne].
      cbv zeta. destruct (all_found _ _) eqn:Hall; [|discriminate].
      intros _. split; [exact Hne|]. left. exists (c :: chunk).
      repeat split; try discriminate. apply all_found_Forall. exact Hall. }
  destruct (parse_line_range (get (Fact.source_location fact) [])) as [[s e]|] eqn:Hp.
  2:{ rewrite (unparseable_location_rejected self fact idx chunk_text Hc Hne Hp).
      discriminate. }
  destruct (all_found (quotes_to_validate fact) (get_line_text self s e)) eqn:Hexact.
  { rewrite (run_exact self fact idx chunk_text s e Hc Hne Hp Hexact).
    intros _. split; [exact Hne|]. right. split; [reflexivity|]. exists s, e.
    split; [reflexivity|]. left. split; [|reflexivity].
    apply all_found_Forall. exact Hexact. }
  rewrite (run_widened self fact idx chunk_text s e Hc Hne Hp Hexact). cbv zeta.
  clear Hexact.
  destruct (all_found (quotes_to_validate fact)
              (get_line_text self (Z.max 1 (s - 5)) (Z.min (len (lines self)) (e + 5))))
    eqn:Hwide.
  { intros _. split; [exact Hne|]. right. split; [reflexivity|]. exists s, e.
    split; [reflexivity|]. right. left. split; [|reflexivity].
    apply all_found_Forall. exact Hwide. }
  destruct (medium_confidence _); [|discriminate].
  destruct (attempt_fact_recovery self _ _ _ _ _) as [[quote location]|] eqn:Hrec;
    [|discriminate].
  intros _. split; [exact Hne|]. right. split; [reflexivity|]. exists s, e.
  split; [reflexivity|]. right. right. split; [reflexivity|].
  exists quote. split; [reflexivity|].
  unfold attempt_fact_recovery in Hrec.
  destruct (claude_client self) as [prompt|]; [|discriminate].
  destruct (prompt _) as [response|]; [|discriminate].
  destruct (json_loads _) as [result|]; [|discriminate].
  apply recovery_of_result_Some in Hrec as (kv & _ & _ & _ & _ & Hfound & _).
  exact Hfound.
Qed.

(** X3. A validator without a client never marks a fact as recovered: it
    accepts a fact only when every quote is found in the chunk, in the
    claimed lines or in the lines widened by 5.  This is the validator of
    [validate_consolidated_facts], whose results are therefore never
    recovered ones. *)
Theorem no_client_no_recovery (self : FactValidator) :
  claude_client self = None ->
  (forall fact idx chunk_text,
     was_recovered (validate_fact self fact idx chunk_text) = false)
  /\ (forall documents result,
        In result (fst (validate_consolidated_facts documents (lines self))) ->
        was_recovered result = false).
Proof.
  assert (Hnone : forall v : FactValidator, claude_client v = None ->
            forall fact idx chunk_text,
              was_recovered (validate_fact v fact idx chunk_text) = false).
  { intros v Hclient fact idx chunk_text.
    destruct (was_recovered (validate_fact v fact idx chunk_text)) eqn:Hrec;
      [|reflexivity].
    destruct (recovered_result_has_call v fact idx chunk_text Hrec) as (call & Hcall).
    unfold attempt_fact_recovery in Hcall. rewrite Hclient in Hcall.
    destruct Hcall as [quote Hcall]. discriminate. }
  intros Hclient. split; [apply Hnone; exact Hclient|].
  intros documents result Hin. unfold validate_consolidated_facts in Hin.
  cbn [fst] in Hin. unfold validate_facts in Hin.
  apply in_map_iff in Hin as ([i fact] & <- & _).
  apply Hnone. reflexivity.
Qed.

(** X18. A rejection says why.  The result of [validate_fact] is invalid
    in four cases only, each with its own message: the fact has no quote;
    some quote is not found in the chunk, and the message counts these
    quotes; the location does not parse, and the message repeats it; or
    some quote is not found in the claimed lines and some quote is not found
    in the lines widened by 5, and the message counts the quotes not found
    in the claimed lines and gives the label of the first quote in the
    widened lines. *)
Theorem rejected_facts_say_why (self : FactValidator) (fact : Fact.t) (idx : Z)
    (chunk_text : option pystr) :
  let result := validate_fact self fact idx chunk_text in
  let quotes := quotes_to_validate fact in
  let location := get (Fact.source_location fact) [] in
  let n := len (lines self) in
  is_valid result = false ->
  (quotes = []
   /\ error_message result
      = lit "No evidence quotes found (neither evidence_quote nor evidence_quotes)")
  \/ (quotes <> []
      /\ exists chunk,
           chunk_text = Some chunk /\ chunk <> []
           /\ failed_quotes quotes chunk <> []
           /\ error_message result
              = counts (len (failed_quotes quotes chunk)) (len quotes)
                  ++ lit " quotes not found in chunk")
  \/ (quotes <> [] /\ get chunk_text [] = []
      /\ parse_line_range location = None
      /\ error_message result = lit "Invalid location format: " ++ location)
  \/ (quotes <> [] /\ get chunk_text [] = []
      /\ exists s e,
           let widened := get_line_text self (Z.max 1 (s - 5)) (Z.min n (e + 5)) in
           parse_line_range location = Some (s, e)
           /\ failed_quotes quotes (get_line_text self s e) <> []
           /\ failed_quotes quotes widened <> []
           /\ error_message result
              = counts (len (failed_quotes quotes (get_line_text self s e))) (len quotes)
                  ++ lit " quotes not found in specified lines or nearby"
                  ++ lit " (best match: "
                  ++ snd (find_quote_in_text (hd [] quotes) widened) ++ lit ")").
Proof.
  cbv zeta.
  assert (Hfailed : forall text, all_found (quotes_to_validate fact) text = false ->
                                 failed_quotes (quotes_to_validate fact) text <> []).
  { intros text Hall Hnil. apply failed_quotes_nil in Hnil. congruence. }
  destruct (quotes_to_validate fact) as [|q qs] eqn:Hq.
  { intros _. left. split; [reflexivity|]. unfold validate_fact, run_validate_fact.
    rewrite Hq. reflexivity. }
  assert (Hne : quotes_to_validate fact <> []) by (rewrite Hq; discriminate).
  rewrite <- Hq in *. clear Hq q qs. intros Hinvalid. right.
  destruct (get chunk_text []) as [|c chunk] eqn:Hc.
  2:{ left. split; [exact Hne|].
      destruct chunk_text as [chunk'|]; [|discriminate Hc]. simpl in Hc. subst chunk'.
      exists (c :: chunk). split; [reflexivity|]. split; [discriminate|].
      unfold validate_fact in *.
      rewrite (run_chunk self fact idx (c :: chunk)) in *;
        [|discriminate|exact Hne|discriminate|exact Hne].
      cbv zeta in *.
      destruct (all_found (quotes_to_validate fact) (c :: chunk)) eqn:Hall;
        [discriminate Hinvalid|].
      split; [apply Hfailed; exact Hall|reflexivity]. }
  right.
  destruct (parse_line_range (get (Fact.source_location fact) [])) as [[s e]|] eqn:Hp.
  2:{ left. split; [exact Hne|]. split; [reflexivity|]. split; [reflexivity|].
      unfold validate_fact.
      rewrite (unparseable_location_rejected self fact idx chunk_text Hc Hne Hp).
      reflexivity. }
  right. split; [exact Hne|]. split; [reflexivity|]. exists s, e.
  split; [reflexivity|].
  pose proof (rejection_message self fact idx chunk_text s e Hc Hne Hp) as Hmessage.
  cbv zeta in Hmessage. specialize (Hmessage Hinvalid).
  destruct (all_found (quotes_to_validate fact) (get_line_text self s e)) eqn:Hexact.
  { unfold validate_fact in Hinvalid.
    rewrite (run_exact self fact idx chunk_text s e Hc Hne Hp Hexact) in Hinvalid.
    discriminate. }
  split; [apply Hfailed; exact Hexact|]. split; [|exact Hmessage].
  apply Hfailed. apply not_true_is_false. intros Hwide.
  unfold validate_fact in Hinvalid.
  rewrite (run_widened self fact idx chunk_text s e Hc Hne Hp Hexact) in Hinvalid.
  cbv zeta in Hinvalid. rewrite Hwide in Hinvalid. discriminate.
Qed.

(** X19. In a text without a word, a quote that has a word (and fewer than
    [2^53] of them) is not found, and its label reads 0%. *)
Theorem nothing_is_found_in_an_empty_text (quote text : pystr) :
  let quote_words := split_ws (normalize_text quote) in
  split_ws (normalize_text text) = [] ->
  quote_words <> [] -> len quote_words < 2 ^ 53 ->
  find_quote_in_text quote text = (false, lit "not found (only 0% match)").
Proof.
  intros quote_words Htext Hwords Hsize. unfold find_quote_in_text.
  rewrite Htext. fold quote_words.
  pose proof (no_words_no_text text Htext) as Hempty. rewrite Hempty.
  assert (Hquote : normalize_text quote <> []).
  { intros Hnil. apply Hwords. subst quote_words. rewrite Hnil. reflexivity. }
  assert (Hexact : str_in (normalize_text quote) [] = false).
  { destruct (normalize_text quote); [contradiction|reflexivity]. }
  rewrite Hexact.
  assert (Hratio : match_ratio quote_words [] = F.zero).
  { unfold match_ratio. destruct quote_words as [|w ws] eqn:Hw; [contradiction|].
    rewrite <- Hw in *. unfold matched_words. cbn [fold_left snd Z.of_nat].
    unfold F.truediv.
    destruct (of_int_pos (len quote_words)) as (m & d & -> & _).
    - split; [|exact Hsize]. rewrite Hw. unfold len. cbn. lia.
    - reflexivity. }
  rewrite Hratio. reflexivity.
Qed.

(** ** Locations *)

Lemma int_digits_ge (s : pystr) :
  decimal_range ->
  forall acc after v, 0 <= acc -> int_digits acc after s = Some v -> acc <= v.
Proof.
  intros Hrange. induction s as [|c s IH]; intros acc after v Hacc; simpl.
  - destruct after; [|discriminate]. intros Heq. injection Heq as <-. lia.
  - destruct (char_eqb c 95%N).
    + destruct after; [|discriminate]. apply IH. exact Hacc.
    + destruct (decimal_value c) as [d|] eqn:Hd; [|discriminate].
      destruct (Hrange c d Hd) as [Hd0 Hd9]. intros Hv.
      specialize (IH (10 * acc + d) true v). assert (10 * acc + d <= v).
      { apply IH; [lia|exact Hv]. }
      lia.
Qed.

Lemma py_int_cases (s : pystr) :
  py_int s
  = match strip s with
    | [] => None
    | c :: r =>
        if (c =? 43)%N then int_digits 0 false r
        else if (c =? 45)%N then option_map Z.opp (int_digits 0 false r)
        else int_digits 0 false (c :: r)
    end.
Proof.
  unfold py_int. destruct (strip s) as [|c r]; [reflexivity|].
  destruct c as [|p]; [reflexivity|].
  do 7 (destruct p as [p|p|]; try reflexivity).
Qed.

Lemma in_lstrip (x : char) (s : pystr) : In x (lstrip s) -> In x s.
Proof.
  induction s as [|c s IH]; simpl; [auto|].
  destruct (is_space c); [right; auto|auto].
Qed.

Lemma in_strip (x : char) (s : pystr) : In x (strip s) -> In x s.
Proof.
  unfold strip, rstrip. intros Hin. apply in_rev in Hin. apply in_lstrip in Hin.
  apply in_rev in Hin. apply in_lstrip in Hin. exact Hin.
Qed.

Lemma py_int_unsigned (s : pystr) (v : Z) :
  decimal_range -> ~ In 45%N s -> py_int s = Some v -> 0 <= v.
Proof.
  intros Hrange Hminus. rewrite py_int_cases.
  destruct (strip s) as [|c r] eqn:Hs; [discriminate|].
  destruct (N.eqb_spec c 43%N); [apply (int_digits_ge r Hrange); lia|].
  destruct (N.eqb_spec c 45%N) as [->|_].
  - exfalso. apply Hminus. apply in_strip. rewrite Hs. left. reflexivity.
  - apply (int_digits_ge (c :: r) Hrange). lia.
Qed.

Lemma split_on_parts (sep : char) (s : pystr) :
  Forall (fun part => ~ In sep part) (split_on sep s).
Proof.
  induction s as [|c s IH]; simpl; [repeat constructor; auto|].
  destruct (char_eqb c sep) eqn:Hc; [constructor; auto|].
  unfold char_eqb in Hc. apply N.eqb_neq in Hc.
  destruct (split_on sep s) as [|w ws]; simpl.
  - repeat constructor. intros [Heq|[]]. congruence.
  - inversion IH as [|? ? Hw Hws]; subst. constructor; [|exact Hws].
    intros [Heq|Hin]; [congruence|contradiction].
Qed.

Lemma str_in_char (c : char) (s : pystr) : str_in [c] s = false -> ~ In c s.
Proof.
  induction s as [|a s IH]; simpl; [auto|].
  unfold char_eqb. destruct (N.eqb_spec c a) as [->|Hne]; simpl; [discriminate|].
  intros Hin [Heq|Hs]; [congruence|]. apply (IH Hin Hs).
Qed.

Lemma parse_line_range_nonneg (location : pystr) (s e : Z) :
  decimal_range -> parse_line_range location = Some (s, e) -> 0 <= s /\ 0 <= e.
Proof.
  intros Hrange. unfold parse_line_range.
  set (loc := strip (replace (lit "Line") [] (replace (lit "Lines") [] location))).
  destruct (str_in (lit "-") loc) eqn:Hdash.
  - pose proof (split_on_parts 45%N loc) as Hparts.
    destruct (split_on 45%N loc) as [|a [|b [|c rest]]]; try discriminate.
    inversion Hparts as [|? ? Ha Hrest]; subst.
    inversion Hrest as [|? ? Hb _]; subst.
    destruct (py_int (strip a)) as [va|] eqn:Hva; [|discriminate].
    destruct (py_int (strip b)) as [vb|] eqn:Hvb; [|discriminate].
    intros Heq. injection Heq as <- <-. split.
    + apply (py_int_unsigned (strip a) va Hrange); [|exact Hva].
      intros Hin. apply Ha. apply in_strip. exact Hin.
    + apply (py_int_unsigned (strip b) vb Hrange); [|exact Hvb].
      intros Hin. apply Hb. apply in_strip. exact Hin.
  - destruct (py_int (strip loc)) as [v|] eqn:Hv; [|discriminate].
    intros Heq. injection Heq as <- <-.
    assert (0 <= v); [|tauto].
    apply (py_int_unsigned (strip loc) v Hrange); [|exact Hv].
    intros Hin. apply (str_in_char 45%N loc Hdash). apply in_strip. exact Hin.
Qed.

(** X4. [parse_line_range] never yields a negative line number, so the three
    texts [validate_fact] reads for a parsed location [(s, e)] -- the
    claimed lines, the lines widened by 5 and the lines widened by 20 --
    are each the text of a range clamped to the document. *)
Theorem parsed_ranges_are_read_clamped (self : FactValidator) (location : pystr)
    (s e : Z) :
  decimal_range ->
  parse_line_range location = Some (s, e) ->
  let n := len (lines self) in
  let window k :=
    get_line_text self (Z.max 1 (s - k)) (Z.min n (e + k)) in
  0 <= s /\ 0 <= e
  /\ get_line_text self s e = clamped_range_text (lines self) (Z.max 1 s) (Z.min n e)
  /\ window 5 = clamped_range_text (lines self) (Z.max 1 (s - 5)) (Z.min n (e + 5))
  /\ window 20 = clamped_range_text (lines self) (Z.max 1 (s - 20)) (Z.min n (e + 20)).
Proof.
  intros Hrange Hparse n window.
  destruct (parse_line_range_nonneg location s e Hrange Hparse) as [Hs He].
  assert (Hn : 0 <= n) by (subst n; unfold len; lia).
  assert (Hwindow : forall k, 0 <= k ->
            window k
            = clamped_range_text (lines self) (Z.max 1 (s - k)) (Z.min n (e + k))).
  { intros k Hk. subst window. cbv beta.
    rewrite get_line_text_clamped by lia. fold n.
    rewrite (Z.max_r 1 (Z.max 1 (s - k))) by lia.
    rewrite (Z.min_r n (Z.min n (e + k))) by lia. reflexivity. }
  split; [exact Hs|]. split; [exact He|]. split.
  - apply get_line_text_clamped. exact He.
  - split; apply Hwindow; lia.
Qed.

(** ** Rendered locations *)

Lemma replace_from_absent (a : char) (old new s : pystr) :
  ~ In a s -> replace_from (a :: old) new O s = s.
Proof.
  induction s as [|c s IH]; [reflexivity|]. intros Hin.
  cbn [replace_from starts_with]. unfold char_eqb.
  destruct (N.eqb_spec a c) as [->|_]; [exfalso; apply Hin; left; reflexivity|].
  cbn [andb]. rewrite IH; [reflexivity|]. intros Hs. apply Hin. right. exact Hs.
Qed.

Lemma digit_not_space (c : char) : (48 <= c <= 57)%N -> is_space c = false.
Proof.
  intros Hc.
  assert (Hcases : (c = 48 \/ c = 49 \/ c = 50 \/ c = 51 \/ c = 52 \/ c = 53
                    \/ c = 54 \/ c = 55 \/ c = 56 \/ c = 57)%N) by lia.
  repeat (destruct Hcases as [->|Hcases]; [reflexivity|]). subst c. reflexivity.
Qed.

Lemma lstrip_id (s : pystr) : is_space (hd 0%N s) = false -> lstrip s = s.
Proof. destruct s as [|c s]; simpl; [reflexivity|]. intros ->. reflexivity. Qed.

Lemma strip_id (s : pystr) :
  is_space (hd 0%N s) = false -> is_space (hd 0%N (rev s)) = false -> strip s = s.
Proof.
  intros Hfirst Hlast. unfold strip, rstrip.
  rewrite (lstrip_id s Hfirst), (lstrip_id (rev s) Hlast). apply rev_involutive.
Qed.

Lemma hd_app (a b : pystr) : a <> [] -> hd 0%N (a ++ b) = hd 0%N a.
Proof. destruct a; [contradiction|reflexivity]. Qed.

Lemma hd_rev_app (a b : pystr) : b <> [] -> hd 0%N (rev (a ++ b)) = hd 0%N (rev b).
Proof.
  intros Hb. rewrite rev_app_distr. apply hd_app.
  intros Hrev. apply Hb. rewrite <- (rev_involutive b), Hrev. reflexivity.
Qed.

Lemma split_on_single (sep : char) (s : pystr) :
  ~ In sep s -> split_on sep s = [s].
Proof.
  induction s as [|c s IH]; [reflexivity|]. intros Hin. simpl. unfold char_eqb.
  destruct (N.eqb_spec c sep) as [->|_]; [exfalso; apply Hin; left; reflexivity|].
  rewrite IH; [reflexivity|]. intros Hs. apply Hin. right. exact Hs.
Qed.

Lemma split_on_app (sep : char) (a b : pystr) :
  ~ In sep a -> split_on sep (a ++ sep :: b) = a :: split_on sep b.
Proof.
  induction a as [|c a IH]; intros Hin; simpl; unfold char_eqb.
  - rewrite N.eqb_refl. reflexivity.
  - destruct (N.eqb_spec c sep) as [->|_]; [exfalso; apply Hin; left; reflexivity|].
    rewrite IH; [reflexivity|]. intros Hs. apply Hin. right. exact Hs.
Qed.

Lemma digits_without (a : char) (ds : pystr) :
  (a < 48 \/ 57 < a)%N -> Forall (fun c => (48 <= c <= 57)%N) ds -> ~ In a ds.
Proof.
  intros Ha Hds Hin. rewrite Forall_forall in Hds. specialize (Hds a Hin). lia.
Qed.

Lemma py_int_digits (ds rest : pystr) :
  ds <> [] -> Forall (fun c => (48 <= c <= 57)%N) ds ->
  strip (ds ++ rest) = ds ++ rest ->
  py_int (ds ++ rest) = int_digits 0 false (ds ++ rest).
Proof.
  intros Hne Hds Hstrip. rewrite py_int_cases, Hstrip.
  destruct ds as [|c ds]; [contradiction|]. inversion Hds as [|? ? Hc _]; subst.
  assert (H43 : (c =? 43)%N = false) by (apply N.eqb_neq; lia).
  assert (H45 : (c =? 45)%N = false) by (apply N.eqb_neq; lia).
  cbn [app]. rewrite H43, H45. reflexivity.
Qed.

Lemma replace_from_skip (old new : pystr) (k : nat) (c : char) (s : pystr) :
  replace_from old new (S k) (c :: s) = replace_from old new k s.
Proof. reflexivity. Qed.

Lemma replace_from_hit (old new : pystr) (c : char) (s : pystr) :
  starts_with old (c :: s) = true ->
  replace_from old new O (c :: s)
  = new ++ replace_from old new (Nat.pred (List.length old)) s.
Proof. intros Hhit. cbn [replace_from]. rewrite Hhit. reflexivity. Qed.

Lemma replace_from_miss (old new : pystr) (c : char) (s : pystr) :
  starts_with old (c :: s) = false ->
  replace_from old new O (c :: s) = c :: replace_from old new O s.
Proof. intros Hmiss. cbn [replace_from]. rewrite Hmiss. reflexivity. Qed.

Lemma strip_space (c : char) (s : pystr) :
  is_space c = true -> strip (c :: s) = strip s.
Proof. intros Hc. unfold strip. cbn [lstrip]. rewrite Hc. reflexivity. Qed.

Lemma digits_last (ds : pystr) :
  Forall (fun c => (48 <= c <= 57)%N) ds -> is_space (hd 0%N (rev ds)) = false.
Proof.
  intros Hds.
  assert (Hrev : Forall (fun c => (48 <= c <= 57)%N) (rev ds)).
  { apply Forall_forall. intros c Hc. rewrite Forall_forall in Hds.
    apply Hds. apply in_rev. exact Hc. }
  destruct (rev ds) as [|c r]; [reflexivity|]. inversion Hrev; subst.
  apply digit_not_space. assumption.
Qed.

Lemma parse_rendered (ds de suffix : pystr) (s e : Z) :
  ds <> [] -> de <> [] ->
  Forall (fun c => (48 <= c <= 57)%N) ds -> Forall (fun c => (48 <= c <= 57)%N) de ->
  int_digits 0 false ds = Some s ->
  ~ In 76%N suffix -> ~ In 45%N suffix ->
  is_space (hd 0%N (rev (de ++ suffix))) = false ->
  parse_line_range (lit "Lines " ++ ds ++ lit "-" ++ de ++ suffix)
  = option_map (pair s) (int_digits 0 false (de ++ suffix)).
Proof.
  intros Hds0 Hde0 Hds Hde Hs HL Hdash Hlast.
  set (tail := de ++ suffix) in *.
  assert (Htail0 : tail <> []).
  { subst tail. destruct de; [contradiction|discriminate]. }
  assert (Hnot : forall a, (a < 48 \/ 57 < a)%N -> ~ In a suffix ->
                           ~ In a (ds ++ 45%N :: tail) \/ a = 45%N).
  { intros a Ha Hsuf. destruct (N.eq_dec a 45) as [->|Hne]; [right; reflexivity|left].
    subst tail. intros Hin. apply in_app_or in Hin as [Hin|[Heq|Hin]].
    - exact (digits_without a ds Ha Hds Hin).
    - congruence.
    - apply in_app_or in Hin as [Hin|Hin]; [exact (digits_without a de Ha Hde Hin)|].
      exact (Hsuf Hin). }
  assert (HnoL : ~ In 76%N (ds ++ 45%N :: tail)).
  { destruct (Hnot 76%N) as [Hin|Heq]; [lia|exact HL|exact Hin|discriminate]. }
  assert (Hstrip_tail : strip tail = tail).
  { apply strip_id; [|exact Hlast]. subst tail. rewrite hd_app by exact Hde0.
    destruct de as [|c de']; [contradiction|]. inversion Hde; subst.
    apply digit_not_space. assumption. }
  assert (Hstrip_ds : strip ds = ds).
  { apply strip_id.
    - destruct ds as [|c ds']; [contradiction|]. inversion Hds; subst.
      apply digit_not_space. assumption.
    - assert (Hrev : Forall (fun c => (48 <= c <= 57)%N) (rev ds)).
      { apply Forall_forall. intros c Hc. rewrite Forall_forall in Hds.
        apply Hds. apply in_rev. exact Hc. }
      destruct (rev ds) as [|c r]; [reflexivity|]. inversion Hrev; subst.
      apply digit_not_space. assumption. }
  assert (Hstrip : strip (ds ++ 45%N :: tail) = ds ++ 45%N :: tail).
  { apply strip_id.
    - rewrite hd_app by exact Hds0. destruct ds as [|c ds']; [contradiction|].
      inversion Hds; subst. apply digit_not_space. assumption.
    - change (45%N :: tail) with ([45%N] ++ tail). rewrite app_assoc.
      rewrite hd_rev_app by exact Htail0. exact Hlast. }
  unfold parse_line_range.
  assert (Hloc : strip (replace (lit "Line") [] (replace (lit "Lines") []
                   (lit "Lines " ++ ds ++ lit "-" ++ tail)))
                 = ds ++ 45%N :: tail).
  { change (lit "Lines " ++ ds ++ lit "-" ++ tail)
      with (76%N :: 105%N :: 110%N :: 101%N :: 115%N :: 32%N :: ds ++ 45%N :: tail).
    unfold replace. rewrite replace_from_hit by reflexivity.
    change (Nat.pred (List.length (lit "Lines"))) with 4%nat. cbn [app].
    rewrite !replace_from_skip. rewrite replace_from_miss by reflexivity.
    change (lit "Lines") with (76%N :: lit "ines").
    rewrite replace_from_absent by exact HnoL.
    change (lit "Line") with (76%N :: lit "ine").
    rewrite replace_from_absent.
    - rewrite strip_space by reflexivity. exact Hstrip.
    - intros [Heq|Hin]; [discriminate|exact (HnoL Hin)]. }
  rewrite Hloc. change (lit "-") with [45%N].
  rewrite str_in_char_true by (apply in_or_app; right; left; reflexivity).
  rewrite split_on_app by (apply digits_without; [lia|exact Hds]).
  rewrite split_on_single.
  - rewrite Hstrip_ds, Hstrip_tail.
    pose proof (py_int_digits ds [] Hds0 Hds) as Hpy. rewrite app_nil_r in Hpy.
    rewrite (Hpy Hstrip_ds), Hs. subst tail.
    rewrite (py_int_digits de suffix Hde0 Hde Hstrip_tail).
    destruct (int_digits 0 false (de ++ suffix)); reflexivity.
  - subst tail. intros Hin. apply in_app_or in Hin as [Hin|Hin].
    + apply (digits_without 45%N de); [lia|exact Hde|exact Hin].
    + exact (Hdash Hin).
Qed.

Lemma rendered_parses (s e : Z) :
  ascii_decimals -> 0 <= s -> 0 <= e ->
  parse_line_range (render_lines s e) = Some (s, e).
Proof.
  intros Hascii Hs He.
  destruct (str_of_int_digits s Hs) as [Hds0 Hds].
  destruct (str_of_int_digits e He) as [Hde0 Hde].
  assert (Hvs : int_digits 0 false (str_of_int s) = Some s).
  { rewrite <- (app_nil_r (str_of_int s)).
    rewrite (str_of_int_parses s false [] Hascii Hs). reflexivity. }
  unfold render_lines. rewrite <- (app_nil_r (str_of_int e)).
  rewrite (parse_rendered (str_of_int s) (str_of_int e) [] s e); auto.
  - rewrite (str_of_int_parses e false [] Hascii He). reflexivity.
  - rewrite app_nil_r. apply digits_last. exact Hde.
Qed.

(** X5. A location rendered as [Lines s-e], the form in which a recovered
    location is returned, is read back by [parse_line_range] as [(s, e)],
    for line numbers that are not negative.  With the suffix that the
    widened search adds to the location of its results it is not a
    location any more. *)
Theorem rendered_location_parses_back (s e : Z) :
  ascii_decimals -> 0 <= s -> 0 <= e ->
  parse_line_range (render_lines s e) = Some (s, e)
  /\ parse_line_range (render_lines s e ++ lit " (expanded search)") = None.
Proof.
  intros Hascii Hs He.
  destruct (str_of_int_digits s Hs) as [Hds0 Hds].
  destruct (str_of_int_digits e He) as [Hde0 Hde].
  assert (Hvs : int_digits 0 false (str_of_int s) = Some s).
  { rewrite <- (app_nil_r (str_of_int s)).
    rewrite (str_of_int_parses s false [] Hascii Hs). reflexivity. }
  split; [apply rendered_parses; assumption|].
  unfold render_lines.
  - rewrite <- !app_assoc.
    rewrite (parse_rendered (str_of_int s) (str_of_int e)
               (lit " (expanded search)") s e); auto.
    + rewrite (str_of_int_parses e false _ Hascii He).
      change (lit " (expanded search)") with (32%N :: lit "(expanded search)").
      cbn [int_digits]. change (char_eqb 32%N 95%N) with false. cbv iota.
      rewrite Hascii by reflexivity. reflexivity.
    + vm_compute. intuition discriminate.
    + vm_compute. intuition discriminate.
    + rewrite hd_rev_app by discriminate. reflexivity.
Qed.

(** ** The words of a quote in the text *)

Lemma in_order_weaken (qs ts : list pystr) (t : pystr) :
  appear_in_order qs ts -> appear_in_order qs (t :: ts).
Proof. destruct qs; intros Hin; [constructor|apply in_order_skip; exact Hin]. Qed.

Lemma in_order_tail (q : pystr) (qs ts : list pystr) :
  appear_in_order (q :: qs) ts -> appear_in_order qs ts.
Proof.
  induction ts as [|t ts IH]; intros Hin; inversion Hin; subst.
  - apply in_order_weaken. apply IH. assumption.
  - apply in_order_weaken. assumption.
Qed.

Lemma skipn_nth (qw : list pystr) (i : nat) :
  (i < List.length qw)%nat -> skipn i qw = nth i qw [] :: skipn (S i) qw.
Proof.
  revert i. induction qw as [|q qw IH]; intros i Hi; simpl in Hi; [lia|].
  destruct i; [reflexivity|]. simpl. apply IH. lia.
Qed.

Lemma scan_longest (qw : list pystr) :
  forall (tw : list pystr) (i m : nat),
    (i <= List.length qw)%nat ->
    exists g,
      fold_left (match_step qw) tw (i, m) = (i + g, m + g)%nat
      /\ (i + g <= List.length qw)%nat
      /\ appear_in_order (firstn g (skipn i qw)) tw
      /\ forall k, appear_in_order (firstn k (skipn i qw)) tw ->
                   (k <= List.length qw - i)%nat -> (k <= g)%nat.
Proof.
  induction tw as [|t tw IH]; intros i m Hi.
  - exists O. split; [simpl; f_equal; lia|]. split; [lia|]. split; [constructor|].
    intros k Hin Hk. destruct k; [lia|].
    destruct (skipn i qw) eqn:Hskip.
    + apply (f_equal (@List.length pystr)) in Hskip.
      rewrite length_skipn in Hskip. simpl in Hskip. lia.
    + inversion Hin.
  - cbn [fold_left]. unfold match_step at 2.
    destruct (Nat.ltb_spec i (List.length qw)) as [Hlt|Hge]; cbn [andb].
    + rewrite (skipn_nth qw i Hlt).
      destruct (str_eqb (str_lower t) (str_lower (nth i qw []))) eqn:Heq.
      * destruct (IH (S i) (S m)) as (g & Hfold & Hle & Hin & Hmax); [lia|].
        exists (S g). split; [rewrite Hfold; f_equal; lia|]. split; [lia|].
        split; [cbn [firstn]; apply in_order_take; assumption|].
        intros k Hk Hlen. destruct k; [lia|]. cbn [firstn] in Hk.
        assert (k <= g)%nat; [|lia]. apply Hmax; [|lia].
        inversion Hk; subst; [|assumption].
        apply in_order_tail with (q := nth i qw []). assumption.
      * destruct (IH i m) as (g & Hfold & Hle & Hin & Hmax); [lia|].
        rewrite (skipn_nth qw i Hlt) in Hin, Hmax.
        exists g. split; [exact Hfold|]. split; [exact Hle|].
        split; [apply in_order_weaken; exact Hin|].
        intros k Hk Hlen. destruct k; [lia|]. apply Hmax; [|exact Hlen].
        cbn [firstn] in Hk |- *. inversion Hk; subst; [assumption|congruence].
    + destruct (IH i m) as (g & Hfold & Hle & Hin & Hmax); [lia|].
      exists g. split; [exact Hfold|]. split; [exact Hle|].
      split; [apply in_order_weaken; exact Hin|].
      intros k Hk Hlen. lia.
Qed.

(** X6. The number of words that [find_quote_in_text] counts as matched is
    the length of the longest beginning of the quote whose words appear in
    order in the text, compared in lower case: the words of that beginning
    do appear in order, and no longer beginning does. *)
Theorem matched_words_longest_prefix (quote_words text_words : list pystr) :
  let n := matched_words quote_words text_words in
  (n <= List.length quote_words)%nat
  /\ appear_in_order (firstn n quote_words) text_words
  /\ forall k, (k <= List.length quote_words)%nat ->
               appear_in_order (firstn k quote_words) text_words -> (k <= n)%nat.
Proof.
  unfold matched_words.
  destruct (scan_longest quote_words text_words O O) as (g & -> & Hle & Hin & Hmax);
    [lia|].
  cbn [snd skipn Nat.add] in *. split; [exact Hle|]. split; [exact Hin|].
  intros k Hk Hk_in. apply Hmax; [exact Hk_in|lia].
Qed.

(** X7. A quote all of whose words appear in order in the text, compared
    in lower case after normalisation, is found by [find_quote_in_text]
    (the quote has fewer than [2^49] words). *)
Theorem words_in_order_are_found (quote text : pystr) :
  let quote_words := split_ws (normalize_text quote) in
  let text_words := split_ws (normalize_text text) in
  len quote_words < 2 ^ 49 ->
  appear_in_order quote_words text_words ->
  fst (find_quote_in_text quote text) = true.
Proof.
  intros quote_words text_words Hsize Hin. unfold find_quote_in_text.
  destruct (str_in (normalize_text quote) (normalize_text text)) eqn:Hexact;
    [reflexivity|].
  fold quote_words text_words.
  assert (Hwords : quote_words <> []).
  { intros Hnil. apply no_words_no_text in Hnil.
    rewrite Hnil, str_in_nil in Hexact. discriminate. }
  assert (Hall : matched_words quote_words text_words = List.length quote_words).
  { unfold matched_words.
    destruct (scan_longest quote_words text_words O O) as (g & -> & Hle & _ & Hmax);
      [lia|].
    cbn [snd skipn Nat.add] in *.
    specialize (Hmax (List.length quote_words)). rewrite firstn_all in Hmax.
    specialize (Hmax Hin). lia. }
  assert (Hratio : match_ratio quote_words text_words
                   = F.truediv (len quote_words) (len quote_words)).
  { unfold match_ratio. rewrite Hall. destruct quote_words; [contradiction|reflexivity]. }
  assert (Htotal : 0 < len quote_words).
  { unfold len. destruct quote_words; [contradiction|simpl; lia]. }
  rewrite Hratio, truediv_ge_0_7 by lia.
  destruct (Z.leb_spec (7 * len quote_words) (10 * len quote_words));
    [reflexivity|lia].
Qed.

(** ** Fenced replies *)

Lemma find_from_skip (c : char) (sub before s : pystr) :
  ~ In c before ->
  forall i, find_from (c :: sub) (before ++ s) i = find_from (c :: sub) s (i + len before).
Proof.
  induction before as [|b before IH]; intros Hin i.
  - cbn [app]. f_equal. unfold len. cbn. lia.
  - cbn [app find_from starts_with]. unfold char_eqb.
    destruct (N.eqb_spec c b) as [->|_]; [exfalso; apply Hin; left; reflexivity|].
    cbn [andb]. rewrite IH by (intros Hb; apply Hin; right; exact Hb).
    f_equal. unfold len. cbn [List.length]. lia.
Qed.

Lemma find_from_absent (c : char) (sub s : pystr) :
  ~ In c s -> forall i, find_from (c :: sub) s i = -1.
Proof.
  induction s as [|b s IH]; intros Hin i; [reflexivity|].
  cbn [find_from starts_with]. unfold char_eqb.
  destruct (N.eqb_spec c b) as [->|_]; [exfalso; apply Hin; left; reflexivity|].
  cbn [andb]. apply IH. intros Hb. apply Hin. right. exact Hb.
Qed.

Lemma starts_with_app (sub rest : pystr) : starts_with sub (sub ++ rest) = true.
Proof.
  induction sub as [|c sub IH]; [reflexivity|]. cbn [app starts_with].
  unfold char_eqb. rewrite N.eqb_refl. exact IH.
Qed.

Lemma find_from_here (sub rest : pystr) (i : Z) : find_from sub (sub ++ rest) i = i.
Proof.
  assert (Hunfold : forall s, find_from sub s i
                              = if starts_with sub s then i
                                else match s with
                                     | [] => -1
                                     | _ :: s' => find_from sub s' (i + 1)
                                     end)
    by (intros s; destruct s; reflexivity).
  rewrite Hunfold, starts_with_app. reflexivity.
Qed.

Lemma str_in_app (sub before rest : pystr) : str_in sub (before ++ sub ++ rest) = true.
Proof.
  induction before as [|b before IH]; cbn [app].
  - destruct (sub ++ rest) eqn:Hs; cbn [str_in]; rewrite <- Hs, starts_with_app;
      reflexivity.
  - cbn [str_in]. rewrite IH. apply orb_true_r.
Qed.

Lemma str_in_absent (c : char) (sub s : pystr) :
  ~ In c s -> str_in (c :: sub) s = false.
Proof.
  induction s as [|b s IH]; intros Hin; [reflexivity|].
  cbn [str_in starts_with]. unfold char_eqb.
  destruct (N.eqb_spec c b) as [->|_]; [exfalso; apply Hin; left; reflexivity|].
  cbn [andb orb]. apply IH. intros Hb. apply Hin. right. exact Hb.
Qed.

Lemma find_at (sub s : pystr) (start : nat) :
  (start <= List.length s)%nat ->
  find sub s start = find_from sub (skipn start s) (Z.of_nat start).
Proof.
  intros Hstart. unfold find.
  destruct (Nat.leb_spec start (List.length s)); [reflexivity|lia].
Qed.

Lemma slice_middle (a b c : pystr) :
  slice (a ++ b ++ c) (len a) (len a + len b) = b.
Proof.
  unfold slice, slice_index, len. rewrite !length_app.
  destruct (Z.ltb_spec (Z.of_nat (List.length a)) 0); [lia|].
  destruct (Z.ltb_spec (Z.of_nat (List.length a) + Z.of_nat (List.length b)) 0); [lia|].
  rewrite !Z.min_r by lia.
  replace (Z.to_nat (Z.of_nat (List.length a) + Z.of_nat (List.length b)
                     - Z.of_nat (List.length a))) with (List.length b) by lia.
  rewrite Nat2Z.id, skipn_app, skipn_all, Nat.sub_diag. cbn [app skipn].
  rewrite firstn_app, firstn_all, Nat.sub_diag. cbn [firstn]. apply app_nil_r.
Qed.

Lemma slice_to_last (a b : pystr) :
  a <> [] -> slice (a ++ b) (len a) (-1) = removelast b.
Proof.
  intros Ha. unfold slice, slice_index, len. rewrite !length_app.
  assert (Hlen : (0 < List.length a)%nat) by (destruct a; [contradiction|cbn; lia]).
  destruct (Z.ltb_spec (Z.of_nat (List.length a)) 0); [lia|].
  cbn [Z.ltb Z.compare]. rewrite Z.min_r by lia. rewrite Z.max_r by lia.
  rewrite Nat2Z.id, skipn_app, skipn_all, Nat.sub_diag. cbn [app skipn].
  replace (Z.to_nat (Z.of_nat (List.length a + List.length b) + -1
                     - Z.of_nat (List.length a))) with (List.length b - 1)%nat by lia.
  clear. induction b as [|x b IH]; [reflexivity|].
  destruct b as [|y b]; [reflexivity|].
  cbn [List.length Nat.sub firstn removelast] in *. rewrite Nat.sub_0_r in IH.
  f_equal. exact IH.
Qed.

Lemma find_first (c : char) (sub before rest : pystr) :
  ~ In c before ->
  find (c :: sub) (before ++ (c :: sub) ++ rest) 0 = len before.
Proof.
  intros Hbefore. rewrite find_at by (cbn; lia). cbn [skipn Z.of_nat].
  rewrite find_from_skip by exact Hbefore. rewrite find_from_here. lia.
Qed.

Lemma find_next (c : char) (sub a body rest : pystr) :
  ~ In c body ->
  find (c :: sub) (a ++ body ++ (c :: sub) ++ rest) (Z.to_nat (len a))
  = len a + len body.
Proof.
  intros Hbody. unfold len. rewrite Nat2Z.id.
  rewrite find_at by (rewrite length_app; lia).
  rewrite skipn_app, skipn_all, Nat.sub_diag. cbn [skipn]. rewrite app_nil_l.
  rewrite find_from_skip by exact Hbody. rewrite find_from_here. reflexivity.
Qed.

Lemma find_none (c : char) (sub a body : pystr) :
  ~ In c body -> find (c :: sub) (a ++ body) (Z.to_nat (len a)) = -1.
Proof.
  intros Hbody. unfold len. rewrite Nat2Z.id.
  rewrite find_at by (rewrite length_app; lia).
  rewrite skipn_app, skipn_all, Nat.sub_diag. cbn [skipn]. rewrite app_nil_l.
  apply find_from_absent. exact Hbody.
Qed.

(** X20. What [json.loads] is given from a reply.  When the reply holds a
    block between a fence followed by [json] and a closing fence, with no
    backquote before the block or in it, it is the block, stripped.  When
    the closing fence is missing it is the text after the opening fence
    without its last character, stripped.  A reply without a backquote is
    given as it is. *)
Theorem fenced_reply_is_unwrapped (before body after : pystr) :
  ~ In 96%N before -> ~ In 96%N body ->
  unfence (before ++ fence ++ lit "json" ++ body ++ fence ++ after) = strip body
  /\ unfence (before ++ fence ++ lit "json" ++ body) = strip (removelast body)
  /\ unfence before = before.
Proof.
  intros Hbefore Hbody.
  set (opening := fence ++ lit "json").
  set (head := before ++ opening).
  assert (Hlen : len head = len before + 7).
  { subst head opening. unfold len. rewrite length_app. cbn. lia. }
  assert (Hstart : forall rest,
            find opening (before ++ opening ++ rest) 0 + 7 = len head).
  { intros rest. rewrite Hlen. f_equal.
    exact (find_first 96%N (lit "``json") before rest Hbefore). }
  assert (Hin : forall rest, str_in opening (before ++ opening ++ rest) = true).
  { intros rest. apply str_in_app. }
  split; [|split].
  - unfold unfence. fold opening.
    replace (before ++ fence ++ lit "json" ++ body ++ fence ++ after)
      with (before ++ opening ++ body ++ fence ++ after)
      by (subst opening; rewrite <- !app_assoc; reflexivity).
    rewrite Hin, Hstart.
    replace (before ++ opening ++ body ++ fence ++ after)
      with (head ++ body ++ fence ++ after)
      by (subst head; rewrite <- !app_assoc; reflexivity).
    assert (Hend : find fence (head ++ body ++ fence ++ after) (Z.to_nat (len head))
                   = len head + len body)
      by exact (find_next 96%N [96%N; 96%N] head body after Hbody).
    rewrite Hend, slice_middle. reflexivity.
  - unfold unfence. fold opening.
    replace (before ++ fence ++ lit "json" ++ body)
      with (before ++ opening ++ body)
      by (subst opening; rewrite <- !app_assoc; reflexivity).
    rewrite Hin, Hstart.
    replace (before ++ opening ++ body) with (head ++ body)
      by (subst head; rewrite <- !app_assoc; reflexivity).
    assert (Hend : find fence (head ++ body) (Z.to_nat (len head)) = -1)
      by exact (find_none 96%N [96%N; 96%N] head body Hbody).
    rewrite Hend, slice_to_last; [reflexivity|].
    subst head opening. intros Hnil. apply app_eq_nil in Hnil as [_ Hnil].
    discriminate Hnil.
  - unfold unfence.
    assert (Hno : str_in (fence ++ lit "json") before = false)
      by exact (str_in_absent 96%N (lit "``json") before Hbefore).
    assert (Hno' : str_in fence before = false)
      by exact (str_in_absent 96%N [96%N; 96%N] before Hbefore).
    rewrite Hno, Hno'. reflexivity.
Qed.

(** ** Chunks *)

Lemma split_on_length (sep : char) (s : pystr) : 1 <= len (split_on sep s).
Proof.
  unfold len. induction s as [|c s IH]; simpl; [lia|].
  destruct (char_eqb c sep); simpl; [lia|].
  destruct (split_on sep s); simpl in *; lia.
Qed.

Lemma join_cons_head (c : char) (ws : list pystr) :
  ws <> [] -> join [10%N] (cons_head c ws) = c :: join [10%N] ws.
Proof. destruct ws as [|w [|w' ws]]; [contradiction|reflexivity..]. Qed.

Lemma join_split_on (s : pystr) : join [10%N] (split_on 10%N s) = s.
Proof.
  induction s as [|c s IH]; [reflexivity|]. simpl. unfold char_eqb.
  destruct (N.eqb_spec c 10) as [->|Hc].
  - pose proof (split_on_length 10%N s) as Hlen.
    destruct (split_on 10%N s) as [|w ws] eqn:Hs; [unfold len in Hlen; simpl in Hlen; lia|].
    change (join [10%N] ([] :: w :: ws))
      with ([] ++ [10%N] ++ join [10%N] (w :: ws)).
    rewrite IH. reflexivity.
  - rewrite join_cons_head; [rewrite IH; reflexivity|].
    pose proof (split_on_length 10%N s) as Hlen. intros Hnil. rewrite Hnil in Hlen.
    unfold len in Hlen. simpl in Hlen. lia.
Qed.

Lemma slice_within {A : Type} (l : list A) (i j : Z) :
  0 <= i -> 0 <= j <= len l ->
  slice l i j = firstn (Z.to_nat (j - i)) (skipn (Z.to_nat i) l).
Proof.
  intros Hi Hj. unfold slice, slice_index, len in *.
  destruct (Z.ltb_spec i 0); [lia|]. destruct (Z.ltb_spec j 0); [lia|].
  rewrite (Z.min_r _ j) by lia.
  destruct (Z_le_gt_dec i (Z.of_nat (List.length l))) as [Hin|Hout].
  - rewrite Z.min_r by lia. reflexivity.
  - rewrite Z.min_l by lia.
    replace (Z.to_nat (j - Z.of_nat (List.length l))) with O by lia.
    replace (Z.to_nat (j - i)) with O by lia. reflexivity.
Qed.

Lemma chunk_loop_more_fuel (self : FactExtractor) (lines : list pystr) (extra : nat) :
  forall (fuel : nat) (chunks : list chunk) (chunk_id start : Z) (result : list chunk),
    chunk_loop fuel self lines chunks chunk_id start = Some result ->
    chunk_loop (fuel + extra) self lines chunks chunk_id start = Some result.
Proof.
  induction fuel as [|fuel IH]; intros chunks chunk_id start result; [discriminate|].
  cbn [chunk_loop Nat.add].
  destruct (start <? len lines); [|auto].
  destruct (len lines <=? Z.min (start + chunk_size self) (len lines)); [auto|].
  apply IH.
Qed.

Lemma chunk_loop_ends (self : FactExtractor) (lines : list pystr) :
  overlap_size self < chunk_size self ->
  forall (fuel : nat) (chunks : list chunk) (chunk_id start : Z),
    (Z.to_nat (len lines - start) < fuel)%nat ->
    exists result, chunk_loop fuel self lines chunks chunk_id start = Some result.
Proof.
  intros Hstep. induction fuel as [|fuel IH]; intros chunks chunk_id start Hfuel; [lia|].
  cbn [chunk_loop].
  destruct (Z.ltb_spec start (len lines)); [|eexists; reflexivity].
  destruct (len lines <=? Z.min (start + chunk_size self) (len lines));
    [eexists; reflexivity|].
  apply IH. lia.
Qed.

Lemma chunk_loop_never_ends (self : FactExtractor) (lines : list pystr) :
  chunk_size self <= overlap_size self ->
  chunk_size self < len lines -> 0 < len lines ->
  forall (fuel : nat) (chunks : list chunk) (chunk_id start : Z),
    start <= 0 -> chunk_loop fuel self lines chunks chunk_id start = None.
Proof.
  intros Hstep Hlong Hlines.
  induction fuel as [|fuel IH]; intros chunks chunk_id start Hstart; [reflexivity|].
  cbn [chunk_loop].
  destruct (Z.ltb_spec start (len lines)); [|lia].
  destruct (Z.leb_spec (len lines) (Z.min (start + chunk_size self) (len lines)));
    [lia|].
  apply IH. lia.
Qed.

(** X8. When [overlap_size] is smaller than [chunk_size], [chunk_text]
    returns: the loop ends within one round per line of the text, plus
    one. *)
Theorem chunk_text_returns (self : FactExtractor) (text : pystr) :
  overlap_size self < chunk_size self ->
  exists chunks,
    forall fuel, (List.length (split_on 10%N text) < fuel)%nat ->
                 chunk_text fuel self text = Some chunks.
Proof.
  intros Hstep. unfold chunk_text. set (lines := split_on 10%N text).
  destruct (chunk_loop_ends self lines Hstep (S (List.length lines)) [] 0 0)
    as [chunks Hchunks]; [unfold len; lia|].
  exists chunks. intros fuel Hfuel.
  replace fuel with (S (List.length lines) + (fuel - S (List.length lines)))%nat by lia.
  apply chunk_loop_more_fuel. exact Hchunks.
Qed.

(** X9. When [overlap_size] is not smaller than [chunk_size] and the text
    has more lines than [chunk_size], the loop of [chunk_text] never ends:
    no number of rounds gives a result. *)
Theorem chunk_text_never_returns (self : FactExtractor) (text : pystr) :
  chunk_size self <= overlap_size self ->
  chunk_size self < len (split_on 10%N text) ->
  forall fuel, chunk_text fuel self text = None.
Proof.
  intros Hstep Hlong fuel. unfold chunk_text.
  apply chunk_loop_never_ends; [exact Hstep|exact Hlong| |lia].
  pose proof (split_on_length 10%N text). lia.
Qed.

(** X10. A text of no more lines than [chunk_size] is one chunk, whatever
    the overlap: the chunk is numbered 0, its text is the whole text and
    its lines run from 1 to the number of lines of the text. *)
Theorem short_text_is_one_chunk (self : FactExtractor) (text : pystr) (fuel : nat) :
  len (split_on 10%N text) <= chunk_size self ->
  chunk_text (S fuel) self text = Some [(0, text, 1, len (split_on 10%N text))].
Proof.
  intros Hshort. unfold chunk_text. cbn [chunk_loop].
  pose proof (split_on_length 10%N text) as Hlen.
  set (lines := split_on 10%N text) in *.
  destruct (Z.ltb_spec 0 (len lines)); [|lia].
  rewrite Z.min_r by lia. rewrite Z.leb_refl.
  rewrite slice_within by lia.
  replace (Z.to_nat (len lines - 0)) with (List.length lines) by (unfold len; lia).
  cbn [Z.to_nat skipn]. rewrite firstn_all. subst lines.
  rewrite join_split_on. reflexivity.
Qed.

Lemma chunk_loop_shape (self : FactExtractor) (lines : list pystr) :
  0 <= overlap_size self < chunk_size self ->
  let step := chunk_size self - overlap_size self in
  forall (fuel : nat) (chunks : list chunk) (j : nat) (result : list chunk),
    Z.of_nat j * step < len lines ->
    chunk_loop fuel self lines chunks (Z.of_nat j) (Z.of_nat j * step) = Some result ->
    exists m : nat,
      result = chunks ++ map (chunk_at self lines) (seq j (S m))
      /\ (forall k, (j <= k < j + m)%nat ->
                    Z.of_nat k * step + chunk_size self < len lines)
      /\ len lines <= Z.of_nat (j + m) * step + chunk_size self.
Proof.
  intros Hsizes step.
  assert (Hat : forall k,
            chunk_at self lines k
            = (Z.of_nat k,
               lines_text lines (Z.of_nat k * step + 1)
                 (Z.min (Z.of_nat k * step + chunk_size self) (len lines)),
               Z.of_nat k * step + 1,
               Z.min (Z.of_nat k * step + chunk_size self) (len lines)))
    by reflexivity.
  assert (Hloop : forall fuel chunks chunk_id start,
            chunk_loop (S fuel) self lines chunks chunk_id start
            = if start <? len lines then
                if len lines <=? Z.min (start + chunk_size self) (len lines)
                then Some (chunks ++ [(chunk_id,
                             join [10%N] (slice lines start
                               (Z.min (start + chunk_size self) (len lines))),
                             start + 1,
                             Z.min (start + chunk_size self) (len lines))])
                else chunk_loop fuel self lines
                       (chunks ++ [(chunk_id,
                             join [10%N] (slice lines start
                               (Z.min (start + chunk_size self) (len lines))),
                             start + 1,
                             Z.min (start + chunk_size self) (len lines))])
                       (chunk_id + 1) (start + step)
              else Some chunks)
    by reflexivity.
  assert (Hstep : 0 < step <= chunk_size self) by (subst step; lia).
  clearbody step.
  induction fuel as [|fuel IH]; intros chunks j result Hstart; [discriminate|].
  rewrite Hloop.
  destruct (Z.ltb_spec (Z.of_nat j * step) (len lines)); [|lia].
  assert (Hnonneg : 0 <= Z.of_nat j * step) by (apply Z.mul_nonneg_nonneg; lia).
  assert (Hchunk : (Z.of_nat j,
                    join [10%N] (slice lines (Z.of_nat j * step)
                      (Z.min (Z.of_nat j * step + chunk_size self) (len lines))),
                    Z.of_nat j * step + 1,
                    Z.min (Z.of_nat j * step + chunk_size self) (len lines))
                   = chunk_at self lines j).
  { rewrite Hat. unfold lines_text. rewrite slice_within by lia.
    replace (Z.min (Z.of_nat j * step + chunk_size self) (len lines)
             - (Z.of_nat j * step + 1) + 1)
      with (Z.min (Z.of_nat j * step + chunk_size self) (len lines)
            - Z.of_nat j * step) by lia.
    replace (Z.of_nat j * step + 1 - 1) with (Z.of_nat j * step) by lia.
    reflexivity. }
  rewrite Hchunk.
  destruct (Z.leb_spec (len lines)
              (Z.min (Z.of_nat j * step + chunk_size self) (len lines))) as [Hend|Hmore].
  - intros Hresult. injection Hresult as <-. exists O. split; [reflexivity|].
    split; [intros k Hk; lia|]. rewrite Nat.add_0_r. lia.
  - replace (Z.of_nat j + 1) with (Z.of_nat (S j)) by lia.
    replace (Z.of_nat j * step + step) with (Z.of_nat (S j) * step) by lia.
    intros Hresult. apply IH in Hresult; [|lia].
    destruct Hresult as (m & -> & Hbefore & Hlast). exists (S m).
    split; [rewrite <- app_assoc; reflexivity|]. split.
    + intros k Hk. destruct (Nat.eq_dec k j) as [->|Hne]; [lia|]. apply Hbefore. lia.
    + replace (j + S m)%nat with (S j + m)%nat by lia. exact Hlast.
Qed.

(** X11. With [0 <= overlap_size < chunk_size], the chunks that
    [chunk_text] returns are numbered from 0, chunk [k] begins
    [k * (chunk_size - overlap_size)] lines into the text and holds the next
    [chunk_size] lines, or the lines up to the end of the text for the last
    chunk, which is the first to reach that end; and every line of the text
    lies in one of the chunks. *)
Theorem chunks_cover_the_text (self : FactExtractor) (text : pystr) (fuel : nat)
    (chunks : list chunk) :
  0 <= overlap_size self < chunk_size self ->
  chunk_text fuel self text = Some chunks ->
  let lines := split_on 10%N text in
  let step := chunk_size self - overlap_size self in
  exists m : nat,
    chunks = map (chunk_at self lines) (seq 0 (S m))
    /\ (forall k, (k < m)%nat -> Z.of_nat k * step + chunk_size self < len lines)
    /\ len lines <= Z.of_nat m * step + chunk_size self
    /\ forall l, 1 <= l <= len lines ->
         exists chunk_id chunk_text start_line end_line,
           In (chunk_id, chunk_text, start_line, end_line) chunks
           /\ start_line <= l <= end_line.
Proof.
  intros Hsizes Hchunks lines step. unfold chunk_text in Hchunks. fold lines in Hchunks.
  pose proof (split_on_length 10%N text) as Hlen. fold lines in Hlen.
  apply (chunk_loop_shape self lines Hsizes fuel [] O chunks) in Hchunks;
    [|simpl; lia].
  fold step in Hchunks. destruct Hchunks as (m & -> & Hbefore & Hlast).
  exists m. cbn [app Nat.add] in *. split; [reflexivity|].
  split; [intros k Hk; apply Hbefore; lia|]. split; [exact Hlast|].
  intros l Hl.
  assert (Hat : forall k,
            chunk_at self lines k
            = (Z.of_nat k,
               lines_text lines (Z.of_nat k * step + 1)
                 (Z.min (Z.of_nat k * step + chunk_size self) (len lines)),
               Z.of_nat k * step + 1,
               Z.min (Z.of_nat k * step + chunk_size self) (len lines)))
    by reflexivity.
  assert (Hstep : 0 < step <= chunk_size self) by (subst step; lia).
  clearbody step.
  set (q := (l - 1) / step).
  assert (Hq : step * q <= l - 1 < step * q + step).
  { subst q. split.
    - apply Z.mul_div_le. lia.
    - assert (Hpos : 0 < step) by lia.
      pose proof (Z.mul_succ_div_gt (l - 1) step Hpos). lia. }
  assert (Hq0 : 0 <= q) by (subst q; apply Z.div_pos; lia).
  destruct (Z_le_gt_dec q (Z.of_nat m)) as [Hin|Hout].
  - exists q, (lines_text lines (q * step + 1) (Z.min (q * step + chunk_size self) (len lines))),
      (q * step + 1), (Z.min (q * step + chunk_size self) (len lines)).
    split.
    + apply in_map_iff. exists (Z.to_nat q). split.
      * rewrite Hat. rewrite Z2Nat.id by exact Hq0. reflexivity.
      * apply in_seq. lia.
    + lia.
  - exists (Z.of_nat m),
      (lines_text lines (Z.of_nat m * step + 1)
         (Z.min (Z.of_nat m * step + chunk_size self) (len lines))),
      (Z.of_nat m * step + 1),
      (Z.min (Z.of_nat m * step + chunk_size self) (len lines)).
    split.
    + apply in_map_iff. exists m. split; [apply Hat|]. apply in_seq. lia.
    + assert (Z.of_nat m * step <= q * step) by (apply Z.mul_le_mono_nonneg_r; lia).
      lia.
Qed.

(** ** The facts of a chunk *)

Lemma chunk_verdict (self : FactValidator) (fact : Fact.t) (idx : Z) (chunk : pystr) :
  chunk <> [] ->
  let result := validate_fact self fact idx (Some chunk) in
  is_valid result
  = match quotes_to_validate fact with
    | [] => false
    | _ :: _ => all_found (quotes_to_validate fact) chunk
    end
  /\ was_recovered result = false.
Proof.
  intros Hchunk result. subst result. unfold validate_fact.
  destruct (quotes_to_validate fact) as [|q qs] eqn:Hq.
  - unfold run_validate_fact. rewrite Hq. split; reflexivity.
  - rewrite run_chunk; [|exact Hchunk|rewrite Hq; discriminate].
    cbv zeta. rewrite Hq. destruct (all_found (q :: qs) chunk); split; reflexivity.
Qed.

Lemma process_facts_counts (validator : FactValidator) (existing_fact_count : Z)
    (chunk_text : pystr) (facts : list ExtractedFact.t) :
  forall (kept : list ExtractedFact.t) (stats : ChunkStats.t),
    let out := fold_left (process_fact validator existing_fact_count chunk_text)
                 facts (kept, stats) in
    ChunkStats.extracted (snd out) = ChunkStats.extracted stats
    /\ ChunkStats.validated (snd out) - ChunkStats.validated stats
       = len (fst out) - len kept
    /\ ChunkStats.validated (snd out) + ChunkStats.rejected (snd out)
       = ChunkStats.validated stats + ChunkStats.rejected stats + len facts
    /\ ChunkStats.rejected stats <= ChunkStats.rejected (snd out)
    /\ 0 <= ChunkStats.recovered (snd out) - ChunkStats.recovered stats
         <= len (fst out) - len kept.
Proof.
  induction facts as [|fact facts IH]; intros kept stats.
  - cbn. unfold len. cbn. lia.
  - cbn [fold_left]. cbv zeta.
    destruct (process_fact validator existing_fact_count chunk_text (kept, stats) fact)
      as [kept' stats'] eqn:Hstep.
    specialize (IH kept' stats'). cbv zeta in IH.
    destruct IH as (Hextracted & Hvalidated & Hsum & Hrejected & Hrecovered).
    assert (Hone : ChunkStats.extracted stats' = ChunkStats.extracted stats
                   /\ ChunkStats.validated stats' - ChunkStats.validated stats
                      = len kept' - len kept
                   /\ ChunkStats.validated stats' + ChunkStats.rejected stats'
                      = ChunkStats.validated stats + ChunkStats.rejected stats + 1
                   /\ ChunkStats.rejected stats <= ChunkStats.rejected stats'
                   /\ 0 <= ChunkStats.recovered stats' - ChunkStats.recovered stats
                        <= len kept' - len kept).
    { unfold process_fact in Hstep.
      destruct (get (ExtractedFact.auto_generated fact) false).
      - injection Hstep as <- <-. unfold len. rewrite length_app. cbn. lia.
      - destruct (is_valid _).
        + destruct (was_recovered _); injection Hstep as <- <-;
            unfold len; rewrite length_app; cbn; lia.
        + injection Hstep as <- <-. cbn. lia. }
    replace (len (fact :: facts)) with (len facts + 1) by (unfold len; cbn; lia).
    lia.
Qed.

(** X12. The counts that [_process_single_chunk] returns add up: the
    number of facts extracted is the number of facts it was given, every
    one of them is counted either as validated or as rejected, the facts
    returned are as many as the validated count, and the recovered count
    is at most that. *)
Theorem chunk_counts_add_up (chunk_info : chunk) (facts : list ExtractedFact.t)
    (validator : FactValidator) (existing_fact_count : Z) :
  let '(chunk_id, validated_facts, stats) :=
    _process_single_chunk chunk_info facts validator existing_fact_count in
  chunk_id = fst (fst (fst chunk_info))
  /\ ChunkStats.extracted stats = len facts
  /\ ChunkStats.validated stats = len validated_facts
  /\ ChunkStats.validated stats + ChunkStats.rejected stats = len facts
  /\ 0 <= ChunkStats.rejected stats
  /\ 0 <= ChunkStats.recovered stats <= ChunkStats.validated stats.
Proof.
  destruct chunk_info as [[[chunk_id chunk_text] start_line] end_line].
  unfold _process_single_chunk.
  pose proof (process_facts_counts validator existing_fact_count chunk_text facts
                [] (ChunkStats.mk (len facts) 0 0 0)) as Hcounts.
  cbv zeta in Hcounts.
  destruct (fold_left _ facts _) as [validated_facts stats].
  cbn [fst snd ChunkStats.extracted ChunkStats.validated ChunkStats.rejected
       ChunkStats.recovered] in *.
  change (len (@nil ExtractedFact.t)) with 0 in Hcounts. lia.
Qed.

Lemma process_facts_in_chunk (validator : FactValidator) (existing_fact_count : Z)
    (chunk_text : pystr) (facts : list ExtractedFact.t) :
  chunk_text <> [] ->
  forall (kept : list ExtractedFact.t) (stats : ChunkStats.t),
    let keeps fact :=
      get (ExtractedFact.auto_generated fact) false
      || match quotes_to_validate (model_dump fact) with
         | [] => false
         | _ :: _ => all_found (quotes_to_validate (model_dump fact)) chunk_text
         end in
    let out := fold_left (process_fact validator existing_fact_count chunk_text)
                 facts (kept, stats) in
    fst out = kept ++ filter keeps facts
    /\ ChunkStats.recovered (snd out) = ChunkStats.recovered stats.
Proof.
  intros Hchunk. induction facts as [|fact facts IH]; intros kept stats keeps out.
  - subst out. cbn. rewrite app_nil_r. split; reflexivity.
  - subst out. cbn [fold_left filter].
    destruct (chunk_verdict validator (model_dump fact)
                (existing_fact_count + len kept) chunk_text Hchunk) as [Hvalid Hrec].
    assert (Hstep : exists stats',
              process_fact validator existing_fact_count chunk_text (kept, stats) fact
              = (if keeps fact then kept ++ [fact] else kept, stats')
              /\ ChunkStats.recovered stats' = ChunkStats.recovered stats).
    { unfold process_fact. subst keeps. cbv beta.
      destruct (get (ExtractedFact.auto_generated fact) false); cbn [orb].
      - eexists. split; reflexivity.
      - cbv zeta. rewrite Hvalid, Hrec.
        destruct (match quotes_to_validate (model_dump fact) with
                  | [] => false
                  | _ :: _ => all_found (quotes_to_validate (model_dump fact)) chunk_text
                  end); eexists; split; reflexivity. }
    destruct Hstep as (stats' & -> & <-).
    specialize (IH (if keeps fact then kept ++ [fact] else kept) stats').
    cbv zeta in IH. fold keeps in IH. destruct IH as [Hkept Hrecovered].
    split; [|exact Hrecovered]. rewrite Hkept.
    destruct (keeps fact); [rewrite <- app_assoc|]; reflexivity.
Qed.

(** X13. For a chunk whose text is not empty, the facts that
    [_process_single_chunk] returns are, in their order and unchanged, the
    facts marked as auto-generated, whatever their evidence, and the facts
    with at least one quote all of whose quotes are found in the text of
    the chunk; no fact is recovered.  Neither the document of the
    validator nor its client has a part in it. *)
Theorem chunk_keeps_supported_facts (chunk_info : chunk)
    (facts : list ExtractedFact.t) (validator : FactValidator)
    (existing_fact_count : Z) :
  let chunk_text := snd (fst (fst chunk_info)) in
  let keeps fact :=
    get (ExtractedFact.auto_generated fact) false
    || match quotes_to_validate (model_dump fact) with
       | [] => false
       | _ :: _ => all_found (quotes_to_validate (model_dump fact)) chunk_text
       end in
  chunk_text <> [] ->
  let '(_, validated_facts, stats) :=
    _process_single_chunk chunk_info facts validator existing_fact_count in
  validated_facts = filter keeps facts /\ ChunkStats.recovered stats = 0.
Proof.
  destruct chunk_info as [[[chunk_id chunk_text] start_line] end_line].
  intros text keeps Hchunk. subst text. cbn [fst snd] in *.
  unfold _process_single_chunk.
  pose proof (process_facts_in_chunk validator existing_fact_count chunk_text facts
                Hchunk [] (ChunkStats.mk (len facts) 0 0 0)) as Hfold.
  cbv zeta in Hfold. fold keeps in Hfold.
  destruct (fold_left _ facts _) as [validated_facts stats].
  cbn [fst snd app ChunkStats.recovered] in Hfold. exact Hfold.
Qed.

Lemma quotes_of_evidence_quotes (fact fact' : ExtractedFact.t)
    (eq : EvidenceQuote.t) (eqs : list EvidenceQuote.t) :
  ExtractedFact.evidence_quotes fact = Some (eq :: eqs) ->
  ExtractedFact.evidence_quotes fact' = ExtractedFact.evidence_quotes fact ->
  quotes_to_validate (model_dump fact') = quotes_to_validate (model_dump fact).
Proof.
  intros Hquotes Hsame. unfold quotes_to_validate, model_dump. cbn [Fact.evidence_quotes].
  rewrite Hsame, Hquotes. reflexivity.
Qed.

Lemma process_facts_origin (validator : FactValidator) (existing_fact_count : Z)
    (chunk_text : pystr) (all : list ExtractedFact.t) (P : ExtractedFact.t -> Prop) :
  (forall original, In original all -> P original) ->
  (forall original idx,
     In original all ->
     let result := validate_fact validator (model_dump original) idx (Some chunk_text) in
     was_recovered result = true ->
     P (ExtractedFact.mk (ExtractedFact.claim original) (corrected_location result)
          (corrected_quote result) (ExtractedFact.evidence_quotes original)
          (ExtractedFact.auto_generated original))) ->
  forall (facts kept : list ExtractedFact.t) (stats : ChunkStats.t),
    (forall fact, In fact facts -> In fact all) ->
    Forall P kept ->
    Forall P (fst (fold_left (process_fact validator existing_fact_count chunk_text)
                     facts (kept, stats))).
Proof.
  intros Hsame Hrecovered.
  induction facts as [|fact facts IH]; intros kept stats Hsub Hkept; [exact Hkept|].
  cbn [fold_left].
  assert (Hin : In fact all) by (apply Hsub; left; reflexivity).
  assert (Hrest : forall f, In f facts -> In f all) by (intros f Hf; apply Hsub; right; exact Hf).
  destruct (process_fact validator existing_fact_count chunk_text (kept, stats) fact)
    as [kept' stats'] eqn:Hstep.
  apply IH; [exact Hrest|].
  unfold process_fact in Hstep.
  destruct (get (ExtractedFact.auto_generated fact) false).
  - injection Hstep as <- _. apply Forall_app. split; [exact Hkept|].
    constructor; [apply Hsame; exact Hin|constructor].
  - destruct (is_valid _).
    + destruct (was_recovered _) eqn:Hrec; injection Hstep as <- _;
        apply Forall_app; (split; [exact Hkept|]); (constructor; [|constructor]).
      * apply (Hrecovered fact _ Hin). exact Hrec.
      * apply Hsame. exact Hin.
    + injection Hstep as <- _. exact Hkept.
Qed.

(** X14. Every fact that [_process_single_chunk] returns is one of the facts
    it was given, either unchanged or, when its validation recovered it,
    with [evidence_quote] and [source_location] replaced by the corrected
    quote and location of the result.  [evidence_quotes] is never updated:
    when that list is not empty, [validate_fact] reads from the returned
    fact the same quotes as from the original one. *)
Theorem kept_facts_keep_their_quotes (chunk_info : chunk)
    (facts : list ExtractedFact.t) (validator : FactValidator)
    (existing_fact_count : Z) :
  let chunk_text := snd (fst (fst chunk_info)) in
  let '(_, validated_facts, _) :=
    _process_single_chunk chunk_info facts validator existing_fact_count in
  Forall (fun fact =>
    exists original,
      In original facts
      /\ (fact = original
          \/ exists idx,
               let result :=
                 validate_fact validator (model_dump original) idx (Some chunk_text) in
               was_recovered result = true
               /\ fact = ExtractedFact.mk (ExtractedFact.claim original)
                           (corrected_location result) (corrected_quote result)
                           (ExtractedFact.evidence_quotes original)
                           (ExtractedFact.auto_generated original))
      /\ ExtractedFact.evidence_quotes fact = ExtractedFact.evidence_quotes original
      /\ forall eq eqs,
           ExtractedFact.evidence_quotes original = Some (eq :: eqs) ->
           quotes_to_validate (model_dump fact)
           = quotes_to_validate (model_dump original))
    validated_facts.
Proof.
  destruct chunk_info as [[[chunk_id chunk_text] start_line] end_line].
  intros text. subst text. cbn [fst snd]. unfold _process_single_chunk.
  destruct (fold_left _ facts _) as [validated_facts stats] eqn:Hfold.
  change validated_facts with (fst (validated_facts, stats)). rewrite <- Hfold.
  apply process_facts_origin with (all := facts).
  - intros original Hin. exists original. split; [exact Hin|].
    split; [left; reflexivity|]. split; [reflexivity|]. reflexivity.
  - intros original idx Hin result Hrec. exists original. split; [exact Hin|]. split.
    + right. exists idx. split; [exact Hrec|reflexivity].
    + split; [reflexivity|]. intros eq eqs Hquotes.
      apply (quotes_of_evidence_quotes original _ eq eqs Hquotes). reflexivity.
  - auto.
  - constructor.
Qed.

(** ** A recovered fact, validated again *)

Lemma single_quote (fact : Fact.t) (quote : pystr) :
  get (Fact.evidence_quotes fact) [] = [] ->
  Fact.evidence_quote fact = Some quote ->
  quotes_to_validate fact = match quote with [] => [] | _ :: _ => [quote] end.
Proof.
  intros Hnone Hquote. unfold quotes_to_validate. rewrite Hnone, Hquote.
  destruct quote; reflexivity.
Qed.

(** X15. A fact that [validate_fact] recovered is valid when it is validated
    again in the form the recovery gives it: with the corrected quote as its
    single [evidence_quote] and the corrected location as its
    [source_location], the quote is found in the lines of that location.
    The one exception is an empty corrected quote, which recovery accepts
    and with which the fact has no quote at all. *)
Theorem recovered_fact_validates_again (self : FactValidator) (fact : Fact.t)
    (idx : Z) (chunk_text : option pystr) (again : Fact.t) (idx' : Z) :
  ascii_decimals -> decimal_range ->
  let result := validate_fact self fact idx chunk_text in
  was_recovered result = true ->
  get (Fact.evidence_quotes again) [] = [] ->
  Fact.evidence_quote again = corrected_quote result ->
  Fact.source_location again = corrected_location result ->
  let result' := validate_fact self again idx' None in
  (corrected_quote result <> Some [] ->
   is_valid result' = true /\ was_recovered result' = false
   /\ Some (actual_line_range result') = corrected_location result)
  /\ (corrected_quote result = Some [] -> is_valid result' = false).
Proof.
  intros Hascii Hrange result Hrec Hquotes Hquote Hlocation result'.
  destruct (recovered_fact self fact idx chunk_text Hrec)
    as (s & e & quote & call & Hparse & _ & Hstart & Hend & Hcontext & _ & Hfound
        & _ & Hcq & Hcl & _).
  fold result in Hcq, Hcl. rewrite Hcq in *. rewrite Hcl in *.
  destruct (parse_line_range_nonneg _ s e Hrange Hparse) as [Hs He].
  assert (Hn : 0 <= len (lines self)) by (unfold len; lia).
  pose proof (single_quote again quote Hquotes Hquote) as Hsingle.
  split.
  - intros Hne. destruct quote as [|c quote]; [contradiction Hne; reflexivity|].
    subst result'. unfold validate_fact.
    rewrite (run_exact self again idx' None (rc_start_line call) (rc_end_line call)).
    + repeat split.
    + reflexivity.
    + rewrite Hsingle. discriminate.
    + rewrite Hlocation. cbn [get]. apply rendered_parses; [exact Hascii|lia|lia].
    + rewrite Hsingle. cbn [all_found forallb]. rewrite <- Hcontext, Hfound. reflexivity.
  - intros Hempty. injection Hempty as ->. subst result'.
    apply run_no_quotes. exact Hsingle.
Qed.

(** ** Corrected quotes *)

Lemma starts_with_In (p s : pystr) (c : char) :
  starts_with p s = true -> In c p -> In c s.
Proof.
  revert s. induction p as [|a p IH]; intros s Hp Hin; [contradiction|].
  destruct s as [|b s]; [discriminate|]. cbn [starts_with] in Hp.
  apply andb_prop in Hp as [Hab Hps]. unfold char_eqb in Hab. apply N.eqb_eq in Hab.
  destruct Hin as [<-|Hin]; [left; symmetry; exact Hab|right; apply IH; assumption].
Qed.

Lemma str_in_In (sub s : pystr) (c : char) :
  str_in sub s = true -> In c sub -> In c s.
Proof.
  induction s as [|b s IH]; cbn [str_in]; intros Hin Hc.
  - rewrite orb_false_r in Hin. exact (starts_with_In sub [] c Hin Hc).
  - apply orb_prop in Hin as [Hhere|Hlater].
    + exact (starts_with_In sub (b :: s) c Hhere Hc).
    + right. apply IH; assumption.
Qed.

Lemma format_percent0_no_x (x : F.float) : ~ In 120%N (F.format_percent0 x).
Proof.
  unfold F.format_percent0, F.format_fixed0. intros Hin.
  apply in_app_or in Hin as [Hin|Hin]; [|vm_compute in Hin; intuition discriminate].
  destruct (F.mul x (F.of_int 100)) as [sg|sg| |sg m e].
  - destruct sg; vm_compute in Hin; intuition discriminate.
  - destruct sg; vm_compute in Hin; intuition discriminate.
  - vm_compute in Hin; intuition discriminate.
  - apply in_app_or in Hin as [Hin|Hin].
    + destruct sg; vm_compute in Hin; intuition discriminate.
    + destruct (str_of_int_digits _ (round_half_even_nonneg m e)) as [_ Hdigits].
      rewrite Forall_forall in Hdigits. specialize (Hdigits _ Hin). lia.
Qed.

Lemma exact_label (quote text : pystr) :
  str_in (lit "exact") (snd (find_quote_in_text quote text))
  = str_in (normalize_text quote) (normalize_text text).
Proof.
  unfold find_quote_in_text.
  destruct (str_in (normalize_text quote) (normalize_text text)); [reflexivity|].
  cbv zeta.
  assert (Hno : forall before after ratio,
            ~ In 120%N before -> ~ In 120%N after ->
            str_in (lit "exact") (before ++ F.format_percent0 ratio ++ after) = false).
  { intros before after ratio Hbefore Hafter. apply not_true_is_false. intros Hin.
    apply (str_in_In _ _ 120%N) in Hin; [|vm_compute; intuition].
    apply in_app_or in Hin as [Hin|Hin]; [exact (Hbefore Hin)|].
    apply in_app_or in Hin as [Hin|Hin]; [exact (format_percent0_no_x ratio Hin)|].
    exact (Hafter Hin). }
  destruct (F.leb F.c0_7 _); cbn [snd]; apply Hno; vm_compute; intuition discriminate.
Qed.

Lemma correction_of_result_cases (result : json)
    (claim paraphrased_quote original_location context : pystr)
    (context_start context_end : Z) :
  let r := correction_of_result result claim paraphrased_quote original_location
             context context_start context_end in
  CorrectionResult.original_claim r = claim
  /\ CorrectionResult.original_quote r = paraphrased_quote
  /\ CorrectionResult.original_location r = original_location
  /\ ((CorrectionResult.was_corrected r = false
       /\ CorrectionResult.corrected_quote r = None
       /\ CorrectionResult.corrected_location r = None
       /\ CorrectionResult.validation_score r = F.zero)
      \/ (CorrectionResult.was_corrected r = true
          /\ exists quote,
               CorrectionResult.corrected_quote r = Some quote
               /\ CorrectionResult.corrected_location r
                  = Some (render_lines context_start context_end)
               /\ fst (find_quote_in_text quote context) = true
               /\ CorrectionResult.validation_score r
                  = if str_in (normalize_text quote) (normalize_text context)
                    then c1_0 else F.c0_8)).
Proof.
  unfold correction_of_result. cbv zeta.
  destruct result as [| | | | |l|kv]; try (repeat split; left; repeat split).
  destruct (negb (truthy _)); [repeat split; left; repeat split|].
  destruct (assoc (lit "exact_quote") kv) as [[| | | |quote| |]|];
    try (repeat split; left; repeat split).
  pose proof (exact_label quote context) as Hlabel.
  destruct (find_quote_in_text quote context) as [found match_type] eqn:Hfind.
  cbn [snd] in Hlabel.
  destruct found; cbn [negb]; [|repeat split; left; repeat split].
  destruct (percent_format_returns _); [|repeat split; left; repeat split].
  repeat split. right. split; [reflexivity|]. exists quote.
  cbn [CorrectionResult.corrected_quote CorrectionResult.corrected_location
       CorrectionResult.validation_score fst].
  rewrite Hlabel. repeat split. rewrite Hfind. reflexivity.
Qed.

(** X16. [correct_paraphrased_quote] keeps the claim, the quote and the
    location it was given.  A result that is not corrected holds no
    corrected quote, no corrected location and the score 0.  A corrected
    result comes from a location that parses to [(s, e)]: its quote is found
    by [find_quote_in_text] in the lines [max 1 (s-30) .. min n (e+30)] of the
    validator's text, its location names these lines, and its score is 1.0
    when the quote is, after normalisation, a part of the normalised text of
    these lines, and 0.8 otherwise. *)
Theorem corrected_quote_is_in_the_window (self : QuoteCorrector.t)
    (claim paraphrased_quote original_location : pystr) :
  let r := correct_paraphrased_quote self claim paraphrased_quote original_location in
  CorrectionResult.original_claim r = claim
  /\ CorrectionResult.original_quote r = paraphrased_quote
  /\ CorrectionResult.original_location r = original_location
  /\ (CorrectionResult.was_corrected r = false ->
      CorrectionResult.corrected_quote r = None
      /\ CorrectionResult.corrected_location r = None
      /\ CorrectionResult.validation_score r = F.zero)
  /\ (CorrectionResult.was_corrected r = true ->
      exists s e quote,
        let first := Z.max 1 (s - 30) in
        let last := Z.min (len (QuoteCorrector.lines self)) (e + 30) in
        let context := get_line_text (QuoteCorrector.validator self) first last in
        parse_line_range original_location = Some (s, e)
        /\ CorrectionResult.corrected_quote r = Some quote
        /\ CorrectionResult.corrected_location r = Some (render_lines first last)
        /\ fst (find_quote_in_text quote context) = true
        /\ CorrectionResult.validation_score r
           = if str_in (normalize_text quote) (normalize_text context)
             then c1_0 else F.c0_8).
Proof.
  unfold correct_paraphrased_quote, get_expanded_context. cbv zeta.
  assert (Hfailed : forall r,
            r = not_corrected claim paraphrased_quote original_location (JFloat F.zero) ->
            CorrectionResult.original_claim r = claim
            /\ CorrectionResult.original_quote r = paraphrased_quote
            /\ CorrectionResult.original_location r = original_location
            /\ (CorrectionResult.was_corrected r = false ->
                CorrectionResult.corrected_quote r = None
                /\ CorrectionResult.corrected_location r = None
                /\ CorrectionResult.validation_score r = F.zero)
            /\ (CorrectionResult.was_corrected r = true ->
                exists s e quote,
                  let first := Z.max 1 (s - 30) in
                  let last := Z.min (len (QuoteCorrector.lines self)) (e + 30) in
                  let context :=
                    get_line_text (QuoteCorrector.validator self) first last in
                  parse_line_range original_location = Some (s, e)
                  /\ CorrectionResult.corrected_quote r = Some quote
                  /\ CorrectionResult.corrected_location r
                     = Some (render_lines first last)
                  /\ fst (find_quote_in_text quote context) = true
                  /\ CorrectionResult.validation_score r
                     = if str_in (normalize_text quote) (normalize_text context)
                       then c1_0 else F.c0_8)).
  { intros r ->. repeat split; discriminate. }
  destruct (parse_line_range original_location) as [[s e]|] eqn:Hparse;
    [|apply Hfailed; reflexivity].
  destruct (QuoteCorrector.claude_client self _ 1500) as [response|];
    [|apply Hfailed; reflexivity].
  destruct (json_loads (unfence response)) as [result|]; [|apply Hfailed; reflexivity].
  destruct (correction_of_result_cases result claim paraphrased_quote original_location
              (get_line_text (QuoteCorrector.validator self) (Z.max 1 (s - 30))
                 (Z.min (len (QuoteCorrector.lines self)) (e + 30)))
              (Z.max 1 (s - 30)) (Z.min (len (QuoteCorrector.lines self)) (e + 30)))
    as (Hc & Hq & Hl & Hcases).
  split; [exact Hc|]. split; [exact Hq|]. split; [exact Hl|].
  destruct Hcases as [(Hno & Hnq & Hnl & Hns)|(Hyes & quote & Hcq & Hcl & Hfound & Hscore)].
  - split; [intros _; repeat split; assumption|]. rewrite Hno. discriminate.
  - split; [rewrite Hyes; discriminate|]. intros _. exists s, e, quote.
    cbv zeta. repeat split; assumption.
Qed.


End Further.

(** ** The properties at work on the examples *)

Lemma accepted_facts_are_grounded_witness :
  quotes_to_validate fact_v5_single <> [].
Proof.
  destruct (@accepted_facts_are_grounded (ascii_runtime []) test_validator
              fact_v5_single 1 None) as [Hquotes _].
  - vm_compute. reflexivity.
  - exact Hquotes.
Defined.

Lemma no_client_no_recovery_witness :
  was_recovered (@validate_fact (ascii_runtime []) test_validator fact_paraphrased 0 None)
  = false.
Proof.
  destruct (@no_client_no_recovery (ascii_runtime []) test_validator) as [Hnever _].
  - reflexivity.
  - apply Hnever.
Defined.

Lemma parsed_ranges_are_read_clamped_witness :
  @get_line_text test_validator 6 7 = clamped_range_text test_lines 6 7.
Proof.
  destruct (@parsed_ranges_are_read_clamped (ascii_runtime []) test_validator
              (lit "Lines 6-7") 6 7) as (_ & _ & Hread & _).
  - apply ascii_runtime_decimal_range.
  - vm_compute. reflexivity.
  - exact Hread.
Defined.

Lemma rendered_location_parses_back_witness :
  @parse_line_range (ascii_runtime []) (render_lines 1 27) = Some (1, 27)
  /\ @parse_line_range (ascii_runtime [])
       (render_lines 1 27 ++ lit " (expanded search)") = None.
Proof.
  apply (@rendered_location_parses_back (ascii_runtime []) 1 27).
  - apply ascii_runtime_ascii_decimals.
  - lia.
  - lia.
Defined.

Lemma words_in_order_are_found_witness :
  fst (@find_quote_in_text (ascii_runtime [])
         (lit "Backups Are Encrypted")
         (lit "All backups are encrypted using AES-256 encryption."))
  = true.
Proof.
  apply (@words_in_order_are_found (ascii_runtime [])).
  - vm_compute. reflexivity.
  - vm_compute.
    repeat first [ apply in_order_nil
                 | apply in_order_take; [reflexivity|]
                 | apply in_order_skip ].
Defined.

Lemma chunk_text_returns_witness :
  exists chunks,
    forall fuel, (List.length (split_on 10%N five_lines) < fuel)%nat ->
                 chunk_text fuel default_extractor five_lines = Some chunks.
Proof. apply (chunk_text_returns default_extractor five_lines). reflexivity. Defined.

Lemma chunk_text_never_returns_witness :
  chunk_text 1000 stuck_extractor five_lines = None.
Proof.
  apply (chunk_text_never_returns stuck_extractor five_lines).
  - vm_compute. discriminate.
  - vm_compute. reflexivity.
Defined.

Lemma short_text_is_one_chunk_witness :
  chunk_text 1 default_extractor five_lines = Some [(0, five_lines, 1, 5)].
Proof.
  apply (short_text_is_one_chunk default_extractor five_lines 0).
  vm_compute. discriminate.
Defined.

Lemma chunks_cover_the_text_witness :
  exists chunk_id chunk_text start_line end_line,
    In (chunk_id, chunk_text, start_line, end_line)
       [ (0, lit "one" ++ [10%N] ++ lit "two", 1, 2);
         (1, lit "two" ++ [10%N] ++ lit "three", 2, 3);
         (2, lit "three" ++ [10%N] ++ lit "four", 3, 4);
         (3, lit "four" ++ [10%N] ++ lit "five", 4, 5) ]
    /\ start_line <= 5 <= end_line.
Proof.
  destruct (chunks_cover_the_text small_extractor five_lines 5
              [ (0, lit "one" ++ [10%N] ++ lit "two", 1, 2);
                (1, lit "two" ++ [10%N] ++ lit "three", 2, 3);
                (2, lit "three" ++ [10%N] ++ lit "four", 3, 4);
                (3, lit "four" ++ [10%N] ++ lit "five", 4, 5) ])
    as (m & _ & _ & _ & Hcover).
  - vm_compute. split; [discriminate|reflexivity].
  - vm_compute. reflexivity.
  - apply (Hcover 5). vm_compute. split; discriminate.
Defined.

Lemma chunk_keeps_supported_facts_witness :
  snd (fst (@_process_single_chunk (ascii_runtime []) (0, test_chunk, 6, 8)
              extracted_facts test_validator 0))
  = [ extracted_of "Scans are quarterly"
        [lit "Vulnerability scans are performed quarterly by Acme Security."] false;
      extracted_of "Failover is described"
        [lit "Automatic failover is configured for all critical systems."] true ].
Proof.
  pose proof (@chunk_keeps_supported_facts (ascii_runtime []) (0, test_chunk, 6, 8)
                extracted_facts test_validator 0) as Hkept.
  cbv zeta in Hkept.
  destruct (@_process_single_chunk (ascii_runtime []) (0, test_chunk, 6, 8)
              extracted_facts test_validator 0) as [[chunk_id kept] stats].
  destruct Hkept as [Hkept _].
  - vm_compute. discriminate.
  - cbn [fst snd]. rewrite Hkept. vm_compute. reflexivity.
Defined.

Lemma recovered_fact_validates_again_witness :
  is_valid (@validate_fact example_runtime recovering_validator fact_replaced 0 None)
  = true.
Proof.
  destruct (@recovered_fact_validates_again example_runtime recovering_validator
              fact_paraphrased 0 None fact_replaced 0) as [Hvalid _].
  - apply ascii_runtime_ascii_decimals.
  - apply ascii_runtime_decimal_range.
  - vm_compute. reflexivity.
  - reflexivity.
  - vm_compute. reflexivity.
  - vm_compute. reflexivity.
  - destruct Hvalid as [Hvalid _]; [vm_compute; discriminate|exact Hvalid].
Defined.


Lemma rejected_facts_say_why_witness :
  error_message (@validate_fact (ascii_runtime []) test_validator
                   fact_v5_multi_invalid 3 (Some test_chunk))
  = lit "1/2 quotes not found in chunk".
Proof.
  destruct (@rejected_facts_say_why (ascii_runtime []) test_validator
              fact_v5_multi_invalid 3 (Some test_chunk))
    as [[Hnone _]|[(_ & chunk & Hchunk & _ & _ & Hmessage)|[(_ & Hdoc & _)|(_ & Hdoc & _)]]].
  - vm_compute. reflexivity.
  - vm_compute in Hnone. discriminate Hnone.
  - injection Hchunk as <-. rewrite Hmessage. vm_compute. reflexivity.
  - vm_compute in Hdoc. discriminate Hdoc.
  - vm_compute in Hdoc. discriminate Hdoc.
Defined.

Lemma nothing_is_found_in_an_empty_text_witness :
  @find_quote_in_text (ascii_runtime []) (lit "Backups are encrypted") (lit "   ")
  = (false, lit "not found (only 0% match)").
Proof.
  apply (@nothing_is_found_in_an_empty_text (ascii_runtime [])).
  - vm_compute. reflexivity.
  - vm_compute. discriminate.
  - vm_compute. reflexivity.
Defined.

Lemma fenced_reply_is_unwrapped_witness :
  unfence (lit "Here it is: " ++ fence ++ lit "json" ++ lit " {} " ++ fence ++ [])
  = lit "{}"
  /\ unfence (lit "Here it is: " ++ fence ++ lit "json" ++ lit " {}") = lit "{".
Proof.
  destruct (fenced_reply_is_unwrapped (lit "Here it is: ") (lit " {} ") [])
    as (Hclosed & _).
  - vm_compute. intuition discriminate.
  - vm_compute. intuition discriminate.
  - destruct (fenced_reply_is_unwrapped (lit "Here it is: ") (lit " {}") [])
      as (_ & Hopen & _).
    + vm_compute. intuition discriminate.
    + vm_compute. intuition discriminate.
    + split; [exact Hclosed|exact Hopen].
Defined.
